(** * my-asset: API probe scripts and the iOS historical-data simulation

    A shallow embedding of the Python scripts of the repository and the
    properties their specification states about them.

    Conventions of the embedding:
    - Python [float] values are idealised as exact rationals ([Q]); the IEEE
      specials that [float()] can produce from text are kept apart
      ([pyfloat]).  Binary rounding error is not modelled.
    - Python [int] is [Z].
    - A raised exception is a value of [exn]; code that can raise lives in
      the state-and-exception monad [M].
    - The network, the wall clock and the random generator are oracles held
      in the state, so every function is executable on a concrete run. *)

From Stdlib Require Import Ascii String QArith Qround Lqa.
From stdpp Require Import base option list gmap strings pretty.
From Stdlib Require Import Lia.

Set Warnings "-register-all".

Local Open Scope string_scope.
Local Open Scope list_scope.
Local Open Scope Z_scope.

(** ** Python values, exceptions and the effect monad *)

Module Py.

(** Exception classes that occur in the scripts.  [CancelledError] and
    [KeyboardInterrupt] derive from [BaseException] only, so that
    [except Exception] does not catch them. *)
Inductive exn_class :=
| TimeoutError        (* asyncio.TimeoutError *)
| RequestException    (* requests.exceptions.*, aiohttp.ClientError *)
| JSONDecodeError
| AttributeError
| TypeError
| ValueError
| KeyError
| ZeroDivisionError
| UnboundLocalError
| CancelledError
| KeyboardInterrupt.

Record exn := Exn { exn_cls : exn_class; exn_msg : string }.

Definition is_Exception (e : exn) : bool :=
  match exn_cls e with
  | CancelledError | KeyboardInterrupt => false
  | _ => true
  end.

Definition is_TimeoutError (e : exn) : bool :=
  match exn_cls e with TimeoutError => true | _ => false end.

(** [str(e)] *)
Definition str_exn (e : exn) : string := exn_msg e.

(** Computations over a state [S] that return a value or raise. *)
Definition M (S A : Type) : Type := S -> (exn + A) * S.

Definition ret {S A} (a : A) : M S A := fun s => (inr a, s).
Definition raise {S A} (e : exn) : M S A := fun s => (inl e, s).
Definition bind {S A B} (m : M S A) (k : A -> M S B) : M S B :=
  fun s => match m s with
           | (inr a, s') => k a s'
           | (inl e, s') => (inl e, s')
           end.
Definition modify {S} (f : S -> S) : M S unit := fun s => (inr tt, f s).

(** Lifting a pure computation that can raise. *)
Definition lift {S A} (r : exn + A) : M S A := fun s => (r, s).

(** [try: body  except <classes accepted by catches> as e: handler e];
    an exception of another class goes on propagating. *)
Definition try_except {S A} (body : M S A) (catches : exn -> bool)
           (handler : exn -> M S A) : M S A :=
  fun s => match body s with
           | (inr a, s') => (inr a, s')
           | (inl e, s') => if catches e then handler e s' else (inl e, s')
           end.

Declare Scope py_scope.
Delimit Scope py_scope with py.
Notation "x <~ m ;; k" := (bind m (fun x => k))
  (at level 100, m at next level, right associativity) : py_scope.
Notation "m ;;; k" := (bind m (fun _ => k))
  (at level 100, right associativity) : py_scope.

(** Values decoded by [json.loads] / [response.json()].  An object keeps its
    members in document order; on a repeated key the last member wins, as
    in the [dict] that Python builds. *)
Inductive json :=
| JNull
| JBool (b : bool)
| JInt (z : Z)
| JFloat (q : Q)
| JStr (s : string)
| JArr (l : list json)
| JObj (kvs : list (string * json)).

Definition type_name (v : json) : string :=
  match v with
  | JNull => "NoneType" | JBool _ => "bool" | JInt _ => "int"
  | JFloat _ => "float" | JStr _ => "str" | JArr _ => "list"
  | JObj _ => "dict"
  end.

(** [bool(v)] *)
Definition truthy (v : json) : bool :=
  match v with
  | JNull => false
  | JBool b => b
  | JInt z => negb (Z.eqb z 0)
  | JFloat q => negb (Qeq_bool q 0)
  | JStr s => negb (String.eqb s "")
  | JArr l => match l with [] => false | _ => true end
  | JObj kvs => match kvs with [] => false | _ => true end
  end.

(** Lookup in a decoded object: the last member with that key. *)
Fixpoint obj_lookup (k : string) (kvs : list (string * json)) : option json :=
  match kvs with
  | [] => None
  | (k', v) :: rest =>
      match obj_lookup k rest with
      | Some v' => Some v'
      | None => if String.eqb k k' then Some v else None
      end
  end.

Definition no_attribute (v : json) (attr : string) : exn :=
  Exn AttributeError
      ("'" +:+ type_name v +:+ "' object has no attribute '" +:+ attr +:+ "'").

(** [v.get(k, default)]: only a [dict] has the method. *)
Definition py_get (v : json) (k : string) (default : json) : exn + json :=
  match v with
  | JObj kvs => inr (from_option id default (obj_lookup k kvs))
  | _ => inl (no_attribute v "get")
  end.

(** [v == n] for an integer literal [n]. *)
Definition eq_int (v : json) (n : Z) : bool :=
  match v with
  | JInt z => Z.eqb z n
  | JFloat q => Qeq_bool q (inject_Z n)
  | JBool b => Z.eqb (if b then 1 else 0) n
  | _ => false
  end.

(** Substring test, for [k in s] on a [str]. *)
Fixpoint is_prefix (p s : string) : bool :=
  match p, s with
  | EmptyString, _ => true
  | String a p', String b s' => Ascii.eqb a b && is_prefix p' s'
  | String _ _, EmptyString => false
  end.

Fixpoint is_substring (p s : string) : bool :=
  is_prefix p s ||
  match s with
  | EmptyString => false
  | String _ s' => is_substring p s'
  end.

Definition is_this_str (k : string) (v : json) : bool :=
  match v with JStr s => String.eqb s k | _ => false end.

(** [k in v] for a string key [k]. *)
Definition py_in (k : string) (v : json) : exn + bool :=
  match v with
  | JObj kvs => inr (bool_decide (is_Some (obj_lookup k kvs)))
  | JArr l => inr (existsb (is_this_str k) l)
  | JStr s => inr (is_substring k s)
  | _ => inl (Exn TypeError
                ("argument of type '" +:+ type_name v +:+ "' is not iterable"))
  end.

(** [v[k]] for a string key [k]. *)
Definition py_getitem (v : json) (k : string) : exn + json :=
  match v with
  | JObj kvs =>
      match obj_lookup k kvs with
      | Some x => inr x
      | None => inl (Exn KeyError ("'" +:+ k +:+ "'"))
      end
  | JArr _ => inl (Exn TypeError "list indices must be integers or slices, not str")
  | JStr _ => inl (Exn TypeError "string indices must be integers, not 'str'")
  | _ => inl (Exn TypeError
                ("'" +:+ type_name v +:+ "' object is not subscriptable"))
  end.

(** [s.replace(c, "")] for a one-character [c]. *)
Fixpoint remove_char (c : Ascii.ascii) (s : string) : string :=
  match s with
  | EmptyString => EmptyString
  | String a s' =>
      if Ascii.eqb a c then remove_char c s' else String a (remove_char c s')
  end.

(** [v.replace(c, "")]: only a [str] has the method. *)
Definition py_replace (v : json) (c : Ascii.ascii) : exn + json :=
  match v with
  | JStr s => inr (JStr (remove_char c s))
  | _ => inl (no_attribute v "replace")
  end.

(** *** [float] *)

Inductive pyfloat :=
| Fin (q : Q)
| Inf (negative : bool)
| NaN.

(** Characters removed by [str.strip()]. *)
Definition is_space (c : Ascii.ascii) : bool :=
  let n := Z.of_N (Ascii.N_of_ascii c) in
  ((9 <=? n) && (n <=? 13)) || ((28 <=? n) && (n <=? 32)).

Fixpoint lstrip (cs : list Ascii.ascii) : list Ascii.ascii :=
  match cs with
  | c :: cs' => if is_space c then lstrip cs' else cs
  | [] => []
  end.

Definition strip (cs : list Ascii.ascii) : list Ascii.ascii :=
  rev (lstrip (rev (lstrip cs))).

Definition digit_of (c : Ascii.ascii) : option Z :=
  let n := Z.of_N (Ascii.N_of_ascii c) in
  if (48 <=? n) && (n <=? 57) then Some (n - 48) else None.

Definition is_char (x : Ascii.ascii) (c : Ascii.ascii) : bool := Ascii.eqb c x.
Arguments is_char x%_char c%_char.

(** [digitpart ::= digit (["_"] digit)*]: its value and its number of digits. *)
Fixpoint digitpart_go (cs : list Ascii.ascii) (acc : Z) (len : nat)
         (after_digit : bool) : option (Z * nat) :=
  match cs with
  | [] => if after_digit then Some (acc, len) else None
  | c :: cs' =>
      match digit_of c with
      | Some d => digitpart_go cs' (10 * acc + d) (S len) true
      | None =>
          if is_char "_" c && after_digit
          then digitpart_go cs' acc len false
          else None
      end
  end.

Definition digitpart (cs : list Ascii.ascii) : option (Z * nat) :=
  digitpart_go cs 0 0 false.

(** The text before the first character accepted by [p], and the text
    after it when there is one. *)
Fixpoint split_first (p : Ascii.ascii -> bool) (cs : list Ascii.ascii)
  : list Ascii.ascii * option (list Ascii.ascii) :=
  match cs with
  | [] => ([], None)
  | c :: cs' =>
      if p c then ([], Some cs')
      else let '(a, b) := split_first p cs' in (c :: a, b)
  end.

Definition take_sign (cs : list Ascii.ascii) : bool * list Ascii.ascii :=
  match cs with
  | c :: cs' =>
      if is_char "-" c then (true, cs')
      else if is_char "+" c then (false, cs')
      else (false, cs)
  | [] => (false, [])
  end.

Definition pow10 (e : Z) : Q := Qpower (10 # 1) e.

(** [number ::= [digitpart] "." digitpart | digitpart ["."]] *)
Definition parse_mantissa (cs : list Ascii.ascii) : option Q :=
  let '(ip, fp) := split_first (is_char ".") cs in
  match fp with
  | None => '(iv, _) ← digitpart ip; Some (inject_Z iv)
  | Some f =>
      match ip, f with
      | [], _ =>
          '(fv, fl) ← digitpart f;
          Some (inject_Z fv / pow10 (Z.of_nat fl))%Q
      | _, [] => '(iv, _) ← digitpart ip; Some (inject_Z iv)
      | _, _ =>
          '(iv, _) ← digitpart ip;
          '(fv, fl) ← digitpart f;
          Some (inject_Z iv + inject_Z fv / pow10 (Z.of_nat fl))%Q
      end
  end.

(** [exponent ::= ("e" | "E") [sign] digitpart], without its first letter. *)
Definition parse_exponent (cs : list Ascii.ascii) : option Z :=
  let '(neg, ds) := take_sign cs in
  '(v, _) ← digitpart ds;
  Some (if neg then - v else v).

Definition is_e (c : Ascii.ascii) : bool := is_char "e" c || is_char "E" c.

Definition parse_floatnumber (cs : list Ascii.ascii) : option Q :=
  let '(mant, ex) := split_first is_e cs in
  m ← parse_mantissa mant;
  e ← match ex with None => Some 0 | Some es => parse_exponent es end;
  Some (m * pow10 e)%Q.

Definition lower (c : Ascii.ascii) : Ascii.ascii :=
  let n := Ascii.N_of_ascii c in
  if ((65 <=? n) && (n <=? 90))%N then Ascii.ascii_of_N (n + 32) else c.

(** [float(s)] on a [str]: surrounding whitespace, a sign, then a decimal
    number or one of [inf], [infinity], [nan] in any letter case. *)
Definition float_of_str (s : string) : exn + pyfloat :=
  let '(neg, body) := take_sign (strip (list_ascii_of_string s)) in
  let word := string_of_list_ascii (map lower body) in
  if String.eqb word "inf" || String.eqb word "infinity" then inr (Inf neg)
  else if String.eqb word "nan" then inr NaN
  else match parse_floatnumber body with
       | Some q => inr (Fin (if neg then - q else q)%Q)
       | None => inl (Exn ValueError
                        ("could not convert string to float: '" +:+ s +:+ "'"))
       end.

(** [float(v)] *)
Definition py_float (v : json) : exn + pyfloat :=
  match v with
  | JStr s => float_of_str s
  | JInt z => inr (Fin (inject_Z z))
  | JFloat q => inr (Fin q)
  | JBool b => inr (Fin (if b then 1 else 0)%Q)
  | _ => inl (Exn TypeError
                ("float() argument must be a string or a real number, not '"
                 +:+ type_name v +:+ "'"))
  end.

(** Nearest integer, ties to the even one. *)
Definition round_half_even (q : Q) : Z :=
  let f := Qfloor q in
  match Qcompare (q - inject_Z f) (1 # 2) with
  | Lt => f
  | Gt => f + 1
  | Eq => if Z.even f then f else f + 1
  end.

(** [round(x, ndigits)] *)
Definition py_round (x : Q) (ndigits : nat) : Q :=
  (inject_Z (round_half_even (x * pow10 (Z.of_nat ndigits)))
   / pow10 (Z.of_nat ndigits))%Q.

(** [a < b] and [a <= b] on floats, as booleans. *)
Definition Qltb (a b : Q) : bool := negb (Qle_bool b a).
Definition Qleb (a b : Q) : bool := Qle_bool a b.

(** [max(a, b)] and [min(a, b)]: the first argument unless the second is
    strictly better. *)
Definition py_max (a b : Q) : Q := if Qltb a b then b else a.
Definition py_min (a b : Q) : Q := if Qltb b a then b else a.

(** [str(v)], as interpolated by an f-string.  The [repr] of a float and of
    a container is not modelled: they are shown by their type name. *)
Definition py_str (v : json) : string :=
  match v with
  | JNull => "None"
  | JBool b => if b then "True" else "False"
  | JInt z => pretty z
  | JStr s => s
  | _ => "<" +:+ type_name v +:+ ">"
  end.

(** [s[:n]] *)
Fixpoint str_take (n : nat) (s : string) : string :=
  match n, s with
  | S n', String c s' => String c (str_take n' s')
  | _, _ => EmptyString
  end.

End Py.

(** ** The environment of a script: network and wall clock *)

Module Net.
Import Py.

(** What a server sent back: [status] / [status_code], [text], and the
    outcome of decoding the body with [response.json()]. *)
Record response := Response {
  status : Z;
  text : string;
  json_body : exn + json
}.

(** What one GET leads to: a response, or an exception out of the HTTP
    library (connection error, timeout, ...). *)
Inductive outcome :=
| Responded (r : response)
| Failed (e : exn).

(** The state of the outside world during a run.  [http k] is the fate of
    the [k]-th request issued, [wall k] the [k]-th reading of [time.time()];
    [sent] logs the URLs requested (latest first) and [slept] the delays
    passed to [sleep]. *)
Record World := mkWorld {
  http : nat -> outcome;
  wall : nat -> Q;
  sent : list string;
  reads : nat;
  slept : list Q
}.

(** [time.time()] *)
Definition time_time : M World Q :=
  fun w => (inr (wall w (reads w)),
            mkWorld (http w) (wall w) (sent w) (S (reads w)) (slept w)).

(** [session.get(url)] / [requests.get(url)] *)
Definition http_get (url : string) : M World response :=
  fun w =>
    let w' := mkWorld (http w) (wall w) (url :: sent w) (reads w) (slept w) in
    match http w (length (sent w)) with
    | Responded r => (inr r, w')
    | Failed e => (inl e, w')
    end.

(** [time.sleep(d)] / [await asyncio.sleep(d)] *)
Definition sleep (d : Q) : M World unit :=
  fun w => (inr tt, mkWorld (http w) (wall w) (sent w) (reads w) (d :: slept w)).

(** [response.json()] *)
Definition response_json (r : response) : M World json := lift (json_body r).

(** Number of HTTP requests issued so far. *)
Definition requests_issued (w : World) : nat := length (sent w).

End Net.

(** ** nasdaq_api_test.py *)

Module NasdaqApiTest.
Import Py Net.
Local Open Scope py_scope.

(** The [TestResult] dataclass.  [None] in [company_name] is [JNull]. *)
Record TestResult := mkTestResult {
  symbol : string;
  success : bool;
  response_time : Q;
  error_message : option string;
  price : option pyfloat;
  company_name : json;
  dividend_yield : option pyfloat;
  annual_dividend : option pyfloat
}.

Definition base_url : string := "https://api.nasdaq.com/api/quote".

(** The statements under [try:] in [NasdaqAPITester.test_stock_quote]. *)
Definition test_stock_quote_try (symbol : string) (start_time : Q)
  : M World TestResult :=
  let url := base_url +:+ "/" +:+ symbol +:+ "/info?assetclass=stocks" in
  response <~ http_get url ;;
  now <~ time_time ;;
  let response_time := (now - start_time)%Q in
  if negb (status response =? 200) then
    ret (mkTestResult symbol false response_time
           (Some ("HTTP " +:+ pretty (status response) +:+ ": "
                  +:+ str_take 100 (text response)))
           None JNull None None)
  else
    data <~ response_json response ;;
    st <~ lift (py_get data "status" (JObj [])) ;;
    rcode <~ lift (py_get st "rCode" JNull) ;;
    if negb (eq_int rcode 200) then
      msg <~ lift (py_get data "message" (JStr "Unknown error")) ;;
      ret (mkTestResult symbol false response_time
             (Some ("API Error: " +:+ py_str msg)) None JNull None None)
    else
      quote_data <~ lift (py_get data "data" (JObj [])) ;;
      primary_data <~ lift (py_get quote_data "primaryData" (JObj [])) ;;
      raw <~ lift (py_get primary_data "lastSalePrice" (JStr "$0")) ;;
      no_dollar <~ lift (py_replace raw "$") ;;
      price_str <~ lift (py_replace no_dollar ",") ;;
      price <~ (if truthy price_str
                then f <~ lift (py_float price_str) ;; ret (Some f)
                else ret None) ;;
      company <~ lift (py_get quote_data "companyName" JNull) ;;
      ret (mkTestResult symbol true response_time None price company None None).

(** [NasdaqAPITester.test_stock_quote] *)
Definition test_stock_quote (symbol : string) : M World TestResult :=
  start_time <~ time_time ;;
  try_except (test_stock_quote_try symbol start_time) is_Exception
    (fun e =>
       now <~ time_time ;;
       ret (mkTestResult symbol false (now - start_time)%Q
              (Some (str_exn e)) None JNull None None)).

End NasdaqApiTest.

(** ** nasdaq_load_test.py *)

Module NasdaqLoadTest.
Import Py Net.
Local Open Scope py_scope.

(** The dict returned by the fetch functions; an absent key is [None]. *)
Record QuoteResult := mkQuoteResult {
  symbol : string;
  success : bool;
  response_time : Q;
  price : option pyfloat;
  error : option string
}.

Definition base_url : string := "https://api.nasdaq.com/api/quote".

(** The statements under [try:] in [fetch_stock_quote_sync]; the body of
    [fetch_stock_quote_async] is the same, on an [aiohttp] session. *)
Definition fetch_stock_quote_try (symbol : string) (start_time : Q)
  : M World QuoteResult :=
  let url := base_url +:+ "/" +:+ symbol +:+ "/info?assetclass=stocks" in
  response <~ http_get url ;;
  now <~ time_time ;;
  let response_time := (now - start_time)%Q in
  let http_error :=
    mkQuoteResult symbol false response_time None
      (Some ("HTTP " +:+ pretty (status response))) in
  if status response =? 200 then
    data <~ response_json response ;;
    st <~ lift (py_get data "status" (JObj [])) ;;
    rcode <~ lift (py_get st "rCode" JNull) ;;
    if eq_int rcode 200 then
      quote_data <~ lift (py_get data "data" (JObj [])) ;;
      primary_data <~ lift (py_get quote_data "primaryData" (JObj [])) ;;
      price_str <~ lift (py_get primary_data "lastSalePrice" (JStr "$0")) ;;
      no_dollar <~ lift (py_replace price_str "$") ;;
      cleaned <~ lift (py_replace no_dollar ",") ;;
      price <~ lift (py_float cleaned) ;;
      ret (mkQuoteResult symbol true response_time (Some price) None)
    else ret http_error
  else ret http_error.

Definition fetch_stock_quote (symbol : string) : M World QuoteResult :=
  start_time <~ time_time ;;
  try_except (fetch_stock_quote_try symbol start_time) is_Exception
    (fun e =>
       now <~ time_time ;;
       ret (mkQuoteResult symbol false (now - start_time)%Q None
              (Some (str_exn e)))).

(** [NasdaqLoadTester.fetch_stock_quote_sync] *)
Definition fetch_stock_quote_sync := fetch_stock_quote.

(** [NasdaqLoadTester.fetch_stock_quote_async] *)
Definition fetch_stock_quote_async := fetch_stock_quote.

(** [a / b] on floats. *)
Definition py_div (a b : Q) : exn + Q :=
  if Qeq_bool b 0 then inl (Exn ZeroDivisionError "float division by zero")
  else inr (a / b)%Q.

Definition Qsum (l : list Q) : Q := fold_right Qplus 0%Q l.

(** [statistics.mean] on a non-empty list. *)
Definition mean (l : list Q) : Q := (Qsum l / inject_Z (Z.of_nat (length l)))%Q.

(** [max(l)] on a non-empty list. *)
Definition max_list (l : list Q) : Q :=
  match l with
  | [] => 0%Q
  | x :: xs => fold_left py_max xs x
  end.

Fixpoint insert_sorted (x : Q) (l : list Q) : list Q :=
  match l with
  | [] => [x]
  | y :: ys => if Qltb x y then x :: l else y :: insert_sorted x ys
  end.

(** [sorted(l)] *)
Definition sorted (l : list Q) : list Q := fold_right insert_sorted [] l.

(** [statistics.quantiles(data, n=n)[i-1]], default (exclusive) method. *)
Definition quantile (data : list Q) (n i : Z) : Q :=
  let data := sorted data in
  let ld := Z.of_nat (length data) in
  let m := ld + 1 in
  let j := i * m / n in
  let j := if j <? 1 then 1 else if ld - 1 <? j then ld - 1 else j in
  let delta := i * m - j * n in
  ((nth (Z.to_nat (j - 1)) data 0 * inject_Z (n - delta)
    + nth (Z.to_nat j) data 0 * inject_Z delta) / inject_Z n)%Q.

(** The dict returned by [run_concurrent_test] and [run_async_test]. *)
Record Summary := mkSummary {
  total_time : Q;
  total_requests : Z;
  successful_requests : Z;
  failed_requests : Z;
  success_rate : Q;
  requests_per_second : Q;
  avg_response_time : Q;
  p95_response_time : Q;
  max_response_time : Q;
  results : list QuoteResult
}.

Definition len {A} (l : list A) : Z := Z.of_nat (length l).

Definition response_times (l : list QuoteResult) : list Q := map response_time l.

Definition p95 (successful : list QuoteResult) : Q :=
  if 20 <? len successful then quantile (response_times successful) 20 19 else 0%Q.

(** The worker pool.  [completion] is the order in which the submitted
    calls run and finish, as positions in [symbols]; each call runs to its
    end before the next one starts.  [future.result()] hands back what the
    call returned or raises what it raised. *)
Fixpoint as_completed (symbols : list string) (completion : list nat)
  : M World (list QuoteResult) :=
  match completion with
  | [] => ret []
  | i :: rest =>
      match symbols !! i with
      | Some symbol =>
          r <~ fetch_stock_quote_sync symbol ;;
          rs <~ as_completed symbols rest ;;
          ret (r :: rs)
      | None => as_completed symbols rest
      end
  end.

(** [NasdaqLoadTester.run_concurrent_test] *)
Definition run_concurrent_test (symbols : list string) (max_workers : Z)
           (completion : list nat) : M World Summary :=
  start_time <~ time_time ;;
  (if max_workers <=? 0
   then raise (Exn ValueError "max_workers must be greater than 0")
   else ret tt) ;;;
  results <~ as_completed symbols completion ;;
  now <~ time_time ;;
  let total_time := (now - start_time)%Q in
  let successful := filter (fun r => success r = true) results in
  let failed := filter (fun r => success r = false) results in
  ratio <~ lift (py_div (inject_Z (len successful)) (inject_Z (len results))) ;;
  rps <~ lift (py_div (inject_Z (len results)) total_time) ;;
  ret (mkSummary total_time (len results) (len successful) (len failed)
         (ratio * 100)%Q rps
         (match successful with [] => 0%Q | _ => mean (response_times successful) end)
         (p95 successful)
         (match successful with [] => 0%Q | _ => max_list (response_times successful) end)
         results).

(** [asyncio.gather] with [return_exceptions=True]: the tasks are run in
    creation order, each to its end; what a task raises becomes its result,
    except [KeyboardInterrupt], which the event loop lets through. *)
Fixpoint gather (symbols : list string) : M World (list (exn + QuoteResult)) :=
  match symbols with
  | [] => ret []
  | symbol :: rest =>
      r <~ (fun w => match fetch_stock_quote_async symbol w with
                     | (inr d, w') => (inr (inr d), w')
                     | (inl e, w') =>
                         match exn_cls e with
                         | KeyboardInterrupt => (inl e, w')
                         | _ => (inr (inl e), w')
                         end
                     end) ;;
      rs <~ gather rest ;;
      ret (r :: rs)
  end.

(** [[r for r in results if isinstance(r, dict)]] *)
Fixpoint only_dicts (results : list (exn + QuoteResult)) : list QuoteResult :=
  match results with
  | [] => []
  | inr d :: rest => d :: only_dicts rest
  | inl _ :: rest => only_dicts rest
  end.

(** [NasdaqLoadTester.run_async_test], for a positive [concurrent_limit]
    (with the semaphore at 0 no task could start). *)
Definition run_async_test (symbols : list string) (concurrent_limit : positive)
  : M World Summary :=
  start_time <~ time_time ;;
  results <~ gather symbols ;;
  let valid_results := only_dicts results in
  now <~ time_time ;;
  let total_time := (now - start_time)%Q in
  let successful := filter (fun r => success r = true) valid_results in
  let failed := filter (fun r => success r = false) valid_results in
  ret (mkSummary total_time (len valid_results) (len successful) (len failed)
         (match valid_results with
          | [] => 0%Q
          | _ => (inject_Z (len successful) / inject_Z (len valid_results) * 100)%Q
          end)
         (if Qltb 0 total_time
          then (inject_Z (len valid_results) / total_time)%Q else 0%Q)
         (match successful with [] => 0%Q | _ => mean (response_times successful) end)
         (p95 successful)
         (match successful with [] => 0%Q | _ => max_list (response_times successful) end)
         valid_results).

End NasdaqLoadTest.

(** ** alpha_vantage_integration_test.py *)

Module AlphaVantageIntegrationTest.
Import Py Net.
Local Open Scope py_scope.

(** [AlphaVantageAPITester]: the fields set by [__init__]. *)
Record Tester := mkTester {
  api_key : string;
  base_url : string;
  request_count : Z;
  max_requests : Z;
  rate_limit_delay : Z
}.

(** [AlphaVantageAPITester.__init__] *)
Definition init (api_key : string) : Tester :=
  mkTester api_key "https://www.alphavantage.co/query" 0 25 12.

(** The dict returned by [test_global_quote]; an absent key is [None]. *)
Record QuoteDict := mkQuoteDict {
  success : bool;
  symbol : string;
  price : option pyfloat;
  volume : json;
  change : json;
  change_percent : json;
  response_time_ms : option Q;
  raw_data : option json;
  error : option string
}.

Definition quote_failure (symbol : string) (err : string) (ms : option Q)
           (raw : option json) : QuoteDict :=
  mkQuoteDict false symbol None JNull JNull JNull ms raw (Some err).

(** The statements under [try:] in [test_global_quote]. *)
Definition test_global_quote_try (url symbol : string) : M World QuoteDict :=
  start_time <~ time_time ;;
  response <~ http_get url ;;
  now <~ time_time ;;
  let response_time := (now - start_time)%Q in
  let ms := Some (py_round (response_time * 1000) 2) in
  if status response =? 200 then
    data <~ response_json response ;;
    present <~ lift (py_in "Global Quote" data) ;;
    valid <~ (if present
              then v <~ lift (py_getitem data "Global Quote") ;; ret (truthy v)
              else ret false) ;;
    if valid then
      global_quote <~ lift (py_getitem data "Global Quote") ;;
      price <~ lift (py_get global_quote "05. price" JNull) ;;
      price_f <~ (if truthy price
                  then f <~ lift (py_float price) ;; ret (Some f)
                  else ret None) ;;
      volume <~ lift (py_get global_quote "06. volume" JNull) ;;
      change <~ lift (py_get global_quote "09. change" JNull) ;;
      change_percent <~ lift (py_get global_quote "10. change percent" JNull) ;;
      ret (mkQuoteDict true symbol price_f volume change change_percent ms
             (Some data) None)
    else
      ret (quote_failure symbol "Empty or invalid Global Quote response" ms
             (Some data))
  else
    ret (quote_failure symbol ("HTTP " +:+ pretty (status response)) ms None).

Definition quote_url (t : Tester) (function symbol : string) : string :=
  base_url t +:+ "?function=" +:+ function +:+ "&symbol=" +:+ symbol
  +:+ "&apikey=" +:+ api_key t.

(** [AlphaVantageAPITester.test_global_quote] *)
Definition test_global_quote (t : Tester) (symbol : string) : M World QuoteDict :=
  let url := quote_url t "GLOBAL_QUOTE" symbol in
  try_except (test_global_quote_try url symbol) is_Exception
    (fun e =>
       if is_TimeoutError e
       then ret (quote_failure symbol "Request timeout (30s)" (Some 30000%Q) None)
       else ret (quote_failure symbol ("Exception: " +:+ str_exn e) None None)).

(** The dict returned by [test_dividends]. *)
Record DividendDict := mkDividendDict {
  d_success : bool;
  d_symbol : string;
  dividend_count : option Z;
  most_recent_dividend : option (json * pyfloat * json);
  message : option string;
  d_response_time_ms : option Q;
  raw_sample : list json;
  d_raw_data : option json;
  d_error : option string
}.

Definition dividend_failure (symbol : string) (err : string) (ms : option Q)
           (raw : option json) : DividendDict :=
  mkDividendDict false symbol None None None ms [] raw (Some err).

(** The statements under [try:] in [test_dividends]. *)
Definition test_dividends_try (url symbol : string) : M World DividendDict :=
  start_time <~ time_time ;;
  response <~ http_get url ;;
  now <~ time_time ;;
  let response_time := (now - start_time)%Q in
  let ms := Some (py_round (response_time * 1000) 2) in
  if status response =? 200 then
    data <~ response_json response ;;
    present <~ lift (py_in "data" data) ;;
    listed <~ (if present
               then v <~ lift (py_getitem data "data") ;;
                    ret (match v with JArr l => Some l | _ => None end)
               else ret None) ;;
    match listed with
    | Some (recent :: _ as dividends) =>
        ex_date <~ lift (py_get recent "ex_dividend_date" JNull) ;;
        amount <~ lift (py_get recent "dividend_amount" (JInt 0)) ;;
        amount_f <~ lift (py_float amount) ;;
        payment_date <~ lift (py_get recent "payment_date" JNull) ;;
        ret (mkDividendDict true symbol (Some (Z.of_nat (length dividends)))
               (Some (ex_date, amount_f, payment_date)) None ms
               (take 3 dividends) None None)
    | Some [] =>
        ret (mkDividendDict true symbol (Some 0) None
               (Some "No dividend data available") ms [] None None)
    | None =>
        ret (dividend_failure symbol "Invalid dividends response structure" ms
               (Some data))
    end
  else
    ret (dividend_failure symbol ("HTTP " +:+ pretty (status response)) ms None).

(** [AlphaVantageAPITester.test_dividends] *)
Definition test_dividends (t : Tester) (symbol : string) : M World DividendDict :=
  let url := quote_url t "DIVIDENDS" symbol in
  try_except (test_dividends_try url symbol) is_Exception
    (fun e =>
       if is_TimeoutError e
       then ret (dividend_failure symbol "Request timeout (30s)" (Some 30000%Q) None)
       else ret (dividend_failure symbol ("Exception: " +:+ str_exn e) None None)).

(** The state of a run of the tester: the tester object, the world, and
    [count_log], which records every value that an assignment gives to
    [request_count] (latest first). *)
Record RunState := mkRunState {
  tester : Tester;
  world : World;
  count_log : list Z
}.

Definition in_world {A} (m : M World A) : M RunState A :=
  fun st => let '(r, w') := m (world st) in
            (r, mkRunState (tester st) w' (count_log st)).

(** [self.request_count += 1] *)
Definition count_request : M RunState unit :=
  fun st =>
    let t := tester st in
    let n := request_count t + 1 in
    (inr tt,
     mkRunState (mkTester (api_key t) (base_url t) n (max_requests t)
                   (rate_limit_delay t))
       (world st) (n :: count_log st)).

Definition the_tester : M RunState Tester := fun st => (inr (tester st), st).

(** The locals that the two loops of [run_comprehensive_test] update. *)
Record Tally := mkTally {
  quote_tests : gmap string QuoteDict;
  dividend_tests : gmap string DividendDict;
  successful_tests : Z;
  total_tests : Z;
  response_times : list Q
}.

Definition nonzero (ms : option Q) : bool :=
  match ms with Some q => negb (Qeq_bool q 0) | None => false end.

(** Formatting with [:.2f]: [None] does not support it. *)
Definition format_2f (p : option pyfloat) : exn + unit :=
  match p with
  | Some _ => inr tt
  | None => inl (Exn TypeError
                   "unsupported format string passed to NoneType.__format__")
  end.

(** The loop [for symbol in test_symbols] over the quote endpoint. *)
Fixpoint quote_loop (symbols : list string) (acc : Tally) : M RunState Tally :=
  match symbols with
  | [] => ret acc
  | symbol :: rest =>
      t <~ the_tester ;;
      (if 0 <? request_count t
       then in_world (sleep (inject_Z (rate_limit_delay t)))
       else ret tt) ;;;
      result <~ in_world (test_global_quote t symbol) ;;
      let quotes := <[symbol := result]> (quote_tests acc) in
      counted <~ (if success result
                  then lift (format_2f (price result)) ;;;
                       ret (successful_tests acc + 1,
                            if nonzero (response_time_ms result)
                            then response_times acc
                                 ++ [default 0%Q (response_time_ms result)]
                            else response_times acc)
                  else ret (successful_tests acc, response_times acc)) ;;
      let acc' := mkTally quotes (dividend_tests acc) (fst counted)
                    (total_tests acc + 1) (snd counted) in
      count_request ;;;
      t' <~ the_tester ;;
      if max_requests t' <=? request_count t' then ret acc'
      else quote_loop rest acc'
  end.

(** The loop [for symbol in dividend_test_symbols]. *)
Fixpoint dividend_loop (symbols : list string) (acc : Tally) : M RunState Tally :=
  match symbols with
  | [] => ret acc
  | symbol :: rest =>
      t <~ the_tester ;;
      if max_requests t <=? request_count t then ret acc
      else
        in_world (sleep (inject_Z (rate_limit_delay t))) ;;;
        result <~ in_world (test_dividends t symbol) ;;
        let dividends := <[symbol := result]> (dividend_tests acc) in
        let counted :=
          if d_success result
          then (successful_tests acc + 1,
                if nonzero (d_response_time_ms result)
                then response_times acc
                     ++ [default 0%Q (d_response_time_ms result)]
                else response_times acc)
          else (successful_tests acc, response_times acc) in
        let acc' := mkTally (quote_tests acc) dividends (fst counted)
                      (total_tests acc + 1) (snd counted) in
        count_request ;;;
        dividend_loop rest acc'
  end.

Record PerformanceMetrics := mkPerformanceMetrics {
  avg_response_time_ms : Q;
  min_response_time_ms : Q;
  max_response_time_ms : Q;
  total_requests : Z
}.

Record RateLimiting := mkRateLimiting {
  requests_used : Z;
  daily_limit : Z;
  remaining : Z;
  rate_limit_hit : bool
}.

(** The dict returned by [run_comprehensive_test]. *)
Record Results := mkResults {
  symbols_tested : list string;
  r_quote_tests : gmap string QuoteDict;
  r_dividend_tests : gmap string DividendDict;
  performance_metrics : option PerformanceMetrics;
  rate_limiting : RateLimiting;
  overall_success_rate : Q
}.

Definition Qsum (l : list Q) : Q := fold_right Qplus 0%Q l.

Definition extreme (pick : Q -> Q -> Q) (l : list Q) : Q :=
  match l with
  | [] => 0%Q
  | x :: xs => fold_left pick xs x
  end.

(** [AlphaVantageAPITester.run_comprehensive_test] *)
Definition run_comprehensive_test (test_symbols : list string) : M RunState Results :=
  acc <~ quote_loop test_symbols (mkTally ∅ ∅ 0 0 []) ;;
  t <~ the_tester ;;
  acc <~ (if request_count t <? max_requests t
          then dividend_loop (take 3 test_symbols) acc
          else ret acc) ;;
  t <~ the_tester ;;
  let times := response_times acc in
  ret (mkResults test_symbols (quote_tests acc) (dividend_tests acc)
         (match times with
          | [] => None
          | _ => Some (mkPerformanceMetrics
                         (py_round (Qsum times / inject_Z (Z.of_nat (length times))) 2)
                         (extreme py_min times) (extreme py_max times)
                         (Z.of_nat (length times)))
          end)
         (mkRateLimiting (request_count t) (max_requests t)
            (max_requests t - request_count t)
            (max_requests t <=? request_count t))
         (if 0 <? total_tests acc
          then py_round (inject_Z (successful_tests acc)
                         / inject_Z (total_tests acc) * 100) 1
          else 0%Q)).

End AlphaVantageIntegrationTest.

(** ** alpha_vantage_performance_test.py *)

Module AlphaVantagePerformanceTest.
Import Py Net.
Local Open Scope py_scope.

(** The dict returned by [single_request_test]; the timestamp it also
    carries is left out. *)
Record RequestDict := mkRequestDict {
  symbol : string;
  function : string;
  status_code : option Z;
  response_time_ms : option Q;
  success : bool;
  data_size : option Z;
  error : option string
}.

(** [len(str(data))] is not modelled beyond its presence. *)
Definition data_size_of (data : json) : Z :=
  Z.of_nat (String.length (py_str data)).

(** The statements under [try:] in [single_request_test]. *)
Definition single_request_try (url symbol function : string) (start_time : Q)
  : M World RequestDict :=
  response <~ http_get url ;;
  end_time <~ time_time ;;
  let response_time := ((end_time - start_time) * 1000)%Q in
  data <~ response_json response ;;
  ok <~ (if status response =? 200
         then v <~ lift (py_get data "Global Quote" (JObj [])) ;; ret (truthy v)
         else ret false) ;;
  ret (mkRequestDict symbol function (Some (status response))
         (Some (py_round response_time 2)) ok (Some (data_size_of data)) None).

(** [AlphaVantagePerformanceTester.single_request_test] *)
Definition single_request_test (api_key symbol function : string)
  : M World RequestDict :=
  let url := "https://www.alphavantage.co/query" +:+ "?function=" +:+ function
             +:+ "&symbol=" +:+ symbol +:+ "&apikey=" +:+ api_key in
  start_time <~ time_time ;;
  try_except (single_request_try url symbol function start_time) is_Exception
    (fun e =>
       if is_TimeoutError e
       then ret (mkRequestDict symbol function None (Some 30000%Q) false None
                   (Some "Timeout"))
       else ret (mkRequestDict symbol function None None false None
                   (Some (str_exn e)))).

End AlphaVantagePerformanceTest.

(** ** ios_app_simulation_test.py *)

Module IosAppSimulationTest.
Import Py.
Local Open Scope py_scope.

Inductive TestOutcome := SUCCESS | FAILURE | TIMEOUT | RATE_LIMITED.

Definition is_SUCCESS (o : TestOutcome) : bool :=
  match o with SUCCESS => true | _ => false end.

Definition is_RATE_LIMITED (o : TestOutcome) : bool :=
  match o with RATE_LIMITED => true | _ => false end.

(** The [HistoricalPrice] dataclass.  [date] is the calendar day, counted
    in days since the epoch, that [strftime] would print. *)
Record HistoricalPrice := mkHistoricalPrice {
  date : Z;
  open_price : Q;
  high_price : Q;
  low_price : Q;
  close_price : Q;
  volume : Z;
  symbol : string;
  data_source : string
}.

(** [HistoricalPrice.is_valid] *)
Definition is_valid (p : HistoricalPrice) : bool :=
  Qltb 0 (open_price p) && Qltb 0 (high_price p) &&
  Qltb 0 (low_price p) && Qltb 0 (close_price p) &&
  Qleb (low_price p) (high_price p) &&
  Qleb (low_price p) (open_price p) && Qleb (open_price p) (high_price p) &&
  Qleb (low_price p) (close_price p) && Qleb (close_price p) (high_price p).

(** The [CacheEntry] dataclass; [datetime] values are microseconds since
    the epoch. *)
Record CacheEntry := mkCacheEntry {
  entry_symbol : string;
  data : list HistoricalPrice;
  timestamp : Z;
  expiry : Z;
  hit_count : Z
}.

(** The [ProviderStats] dataclass. *)
Record ProviderStats := mkProviderStats {
  name : string;
  total_requests : Z;
  successful_requests : Z;
  failed_requests : Z;
  total_response_time : Q;
  rate_limit_hits : Z
}.

(** One entry of [self.providers]. *)
Record ProviderConfig := mkProviderConfig {
  priority : Z;
  cost_per_request : Q;
  daily_limit : Z;
  base_success_rate : Q;
  avg_response_time : Q;
  rate_limit_threshold : Z
}.

(** The global [random] generator as an oracle: [unit_draws k] is what the
    [k]-th call of [random.random()] returns (a number of [[0, 1)]), and
    [int_draws k] feeds the [k]-th call of [random.randint]. *)
Record Rng := mkRng {
  unit_draws : nat -> Q;
  int_draws : nat -> Z;
  units_used : nat;
  ints_used : nat
}.

(** [HistoricalDataSimulator]: its fields, the random generator, the
    current [datetime.now()] and the delays passed to [time.sleep]. *)
Record Simulator := mkSimulator {
  providers : list (string * ProviderConfig);
  provider_stats : gmap string ProviderStats;
  memory_cache : gmap string CacheEntry;
  disk_cache : gmap string CacheEntry;
  core_data_records : Z;
  rng : Rng;
  clock : Z;
  slept : list Q
}.

Definition initial_providers : list (string * ProviderConfig) :=
  [ ("Yahoo Finance", mkProviderConfig 1 0 2000 (95 # 100) (15 # 10) 60);
    ("EODHD", mkProviderConfig 2 (1 # 100) 1000 (90 # 100) 2 30);
    ("Finnhub", mkProviderConfig 3 (2 # 100) 500 (85 # 100) (25 # 10) 20) ].

Definition fresh_stats (name : string) : ProviderStats :=
  mkProviderStats name 0 0 0 0 0.

(** [HistoricalDataSimulator.__init__] *)
Definition init (g : Rng) (now : Z) : Simulator :=
  mkSimulator initial_providers
    (list_to_map (map (fun p => (fst p, fresh_stats (fst p))) initial_providers))
    ∅ ∅ 0 g now [].

Definition set_rng (g : Rng) (s : Simulator) : Simulator :=
  mkSimulator (providers s) (provider_stats s) (memory_cache s) (disk_cache s)
    (core_data_records s) g (clock s) (slept s).

Definition set_stats (m : gmap string ProviderStats) (s : Simulator) : Simulator :=
  mkSimulator (providers s) m (memory_cache s) (disk_cache s)
    (core_data_records s) (rng s) (clock s) (slept s).

(** [random.random()] *)
Definition random : M Simulator Q :=
  fun s =>
    let g := rng s in
    (inr (unit_draws g (units_used g)),
     set_rng (mkRng (unit_draws g) (int_draws g) (S (units_used g)) (ints_used g)) s).

(** [random.uniform(a, b)], that is [a + (b - a) * random()]. *)
Definition uniform (a b : Q) : M Simulator Q :=
  u <~ random ;; ret (a + (b - a) * u)%Q.

(** [random.randint(a, b)] *)
Definition randint (a b : Z) : M Simulator Z :=
  fun s =>
    let g := rng s in
    (inr (a + int_draws g (ints_used g) mod (b - a + 1)),
     set_rng (mkRng (unit_draws g) (int_draws g) (units_used g) (S (ints_used g))) s).

(** [datetime.now()] *)
Definition datetime_now : M Simulator Z := fun s => (inr (clock s), s).

(** [time.sleep(d)] *)
Definition sleep (d : Q) : M Simulator unit :=
  fun s => (inr tt,
            mkSimulator (providers s) (provider_stats s) (memory_cache s)
              (disk_cache s) (core_data_records s) (rng s) (clock s)
              (d :: slept s)).

Definition microseconds_per_day : Z := 86400000000.

(** The body of [for i in range(days)], run for the [n] remaining values
    of [i]. *)
Fixpoint generate_days (n : nat) (i days : Z) (base_price : Q)
         (symbol provider : string) : M Simulator (list HistoricalPrice) :=
  match n with
  | O => ret []
  | S n' =>
      now <~ datetime_now ;;
      let date := (now - (days - i - 1) * microseconds_per_day)
                  / microseconds_per_day in
      daily_change <~ uniform (- (5 # 100)) (5 # 100) ;;
      let base_price := (base_price * (1 + daily_change))%Q in
      u_open <~ uniform (98 # 100) (102 # 100) ;;
      let open_price := (base_price * u_open)%Q in
      u_close <~ uniform (98 # 100) (102 # 100) ;;
      let close_price := (base_price * u_close)%Q in
      u_high <~ uniform 1 (103 # 100) ;;
      let high_price := (py_max open_price close_price * u_high)%Q in
      u_low <~ uniform (97 # 100) 1 ;;
      let low_price := (py_min open_price close_price * u_low)%Q in
      volume <~ randint 1000000 50000000 ;;
      let price :=
        mkHistoricalPrice date (py_round open_price 2) (py_round high_price 2)
          (py_round low_price 2) (py_round close_price 2) volume symbol provider in
      rest <~ generate_days n' (i + 1) days base_price symbol provider ;;
      ret (price :: rest)
  end.

(** [HistoricalDataSimulator.generate_historical_data] *)
Definition generate_historical_data (symbol : string) (days : Z)
           (provider : string) : M Simulator (list HistoricalPrice) :=
  base_price <~ uniform 50 300 ;;
  generate_days (Z.to_nat days) 0 days base_price symbol provider.

(** [d[k]] on the dicts of the simulator. *)
Definition config_of (provider : string) : M Simulator ProviderConfig :=
  fun s => match list_find (fun p => fst p = provider) (providers s) with
           | Some (_, (_, c)) => (inr c, s)
           | None => (inl (Exn KeyError ("'" +:+ provider +:+ "'")), s)
           end.

Definition stats_of (provider : string) : M Simulator ProviderStats :=
  fun s => match provider_stats s !! provider with
           | Some st => (inr st, s)
           | None => (inl (Exn KeyError ("'" +:+ provider +:+ "'")), s)
           end.

Definition update_stats (provider : string) (f : ProviderStats -> ProviderStats)
  : M Simulator unit :=
  st <~ stats_of provider ;;
  modify (fun s => set_stats (<[provider := f st]> (provider_stats s)) s).

(** [a % b] on integers. *)
Definition py_mod (a b : Z) : exn + Z :=
  if b =? 0 then inl (Exn ZeroDivisionError "integer modulo by zero")
  else inr (a mod b).

(** [HistoricalDataSimulator.simulate_api_call] *)
Definition simulate_api_call (provider symbol : string) (days : Z)
  : M Simulator (TestOutcome * list HistoricalPrice * Q) :=
  config <~ config_of provider ;;
  stats <~ stats_of provider ;;
  let base_time := avg_response_time config in
  response_time <~ uniform (base_time * (1 # 2)) (base_time * (3 # 2)) ;;
  random_factor <~ random ;;
  r <~ lift (py_mod (total_requests stats) (rate_limit_threshold config)) ;;
  if (r =? 0) && (0 <? total_requests stats) then
    update_stats provider
      (fun st => mkProviderStats (name st) (total_requests st)
                   (successful_requests st) (failed_requests st)
                   (total_response_time st) (rate_limit_hits st + 1)) ;;;
    ret (RATE_LIMITED, [], response_time)
  else if Qltb random_factor (1 - base_success_rate config) then
    ret (FAILURE, [], response_time)
  else if Qltb (98 # 100) random_factor then
    ret (TIMEOUT, [], 30%Q)
  else
    data <~ generate_historical_data symbol days provider ;;
    ret (SUCCESS, data, response_time).

Fixpoint insert_by_priority (p : string * ProviderConfig)
         (l : list (string * ProviderConfig)) : list (string * ProviderConfig) :=
  match l with
  | [] => [p]
  | q :: l' =>
      if priority (snd p) <? priority (snd q) then p :: l
      else q :: insert_by_priority p l'
  end.

(** [sorted(self.providers.items(), key=lambda x: x[1]["priority"])]: a
    stable sort. *)
Definition sorted_providers (l : list (string * ProviderConfig))
  : list (string * ProviderConfig) :=
  fold_right insert_by_priority [] l.

(** One turn of the loop of [fetch_with_failover]: the simulated call and
    the update of the provider's statistics. *)
Definition attempt (provider_name symbol : string) (days : Z)
  : M Simulator (TestOutcome * list HistoricalPrice * Q) :=
  called <~ simulate_api_call provider_name symbol days ;;
  let '(outcome, data, response_time) := called in
  update_stats provider_name
    (fun st => mkProviderStats (name st) (total_requests st + 1)
                 (successful_requests st) (failed_requests st)
                 (total_response_time st + response_time)%Q (rate_limit_hits st)) ;;;
  (if is_SUCCESS outcome then
     update_stats provider_name
       (fun st => mkProviderStats (name st) (total_requests st)
                    (successful_requests st + 1) (failed_requests st)
                    (total_response_time st) (rate_limit_hits st))
   else
     update_stats provider_name
       (fun st => mkProviderStats (name st) (total_requests st)
                    (successful_requests st) (failed_requests st + 1)
                    (total_response_time st) (rate_limit_hits st)) ;;;
     if is_RATE_LIMITED outcome then sleep (1 # 10) else ret tt) ;;;
  ret (outcome, data, response_time).

(** The loop of [fetch_with_failover] over the providers left to try;
    [last_time] is the current binding of [response_time], if any. *)
Fixpoint failover_loop (todo : list (string * ProviderConfig))
         (symbol : string) (days : Z) (last_time : option Q)
  : M Simulator (TestOutcome * list HistoricalPrice * string * Q) :=
  match todo with
  | [] =>
      match last_time with
      | Some response_time => ret (FAILURE, [], "None", response_time)
      | None => raise (Exn UnboundLocalError
                         "cannot access local variable 'response_time'")
      end
  | (provider_name, _) :: rest =>
      tried <~ attempt provider_name symbol days ;;
      let '(outcome, data, response_time) := tried in
      if is_SUCCESS outcome
      then ret (outcome, data, provider_name, response_time)
      else failover_loop rest symbol days (Some response_time)
  end.

(** [HistoricalDataSimulator.fetch_with_failover] *)
Definition fetch_with_failover (symbol : string) (days : Z)
  : M Simulator (TestOutcome * list HistoricalPrice * string * Q) :=
  fun s => failover_loop (sorted_providers (providers s)) symbol days None s.

Definition set_cache (cache_type : string) (c : gmap string CacheEntry)
           (s : Simulator) : Simulator :=
  if String.eqb cache_type "memory"
  then mkSimulator (providers s) (provider_stats s) c (disk_cache s)
         (core_data_records s) (rng s) (clock s) (slept s)
  else mkSimulator (providers s) (provider_stats s) (memory_cache s) c
         (core_data_records s) (rng s) (clock s) (slept s).

(** [self.memory_cache if cache_type == "memory" else self.disk_cache] *)
Definition cache_of (cache_type : string) (s : Simulator) : gmap string CacheEntry :=
  if String.eqb cache_type "memory" then memory_cache s else disk_cache s.

(** [HistoricalDataSimulator.check_cache] *)
Definition check_cache (symbol cache_type : string) (s : Simulator)
  : option (list HistoricalPrice) * Simulator :=
  let cache := cache_of cache_type s in
  match cache !! symbol with
  | Some entry =>
      if clock s <? expiry entry then
        (Some (data entry),
         set_cache cache_type
           (<[symbol := mkCacheEntry (entry_symbol entry) (data entry)
                          (timestamp entry) (expiry entry) (hit_count entry + 1)]>
              cache) s)
      else (None, set_cache cache_type (delete symbol cache) s)
  | None => (None, s)
  end.

(** [HistoricalDataSimulator.store_in_cache] *)
Definition store_in_cache (symbol : string) (data : list HistoricalPrice)
           (cache_type : string) (s : Simulator) : Simulator :=
  let cache := cache_of cache_type s in
  let expiry_minutes := if String.eqb cache_type "memory" then 5 else 60 in
  let expiry := clock s + expiry_minutes * 60000000 in
  set_cache cache_type
    (<[symbol := mkCacheEntry symbol data (clock s) expiry 0]> cache) s.

End IosAppSimulationTest.

(** ** The scripts and their input/output call sites *)

Module Scripts.

(** The ten scripts of the repository. *)
Inductive script :=
| api_test_validation
| alpha_vantage_performance_test
| targeted_api_test
| alpha_vantage_integration_test
| ios_app_simulation_test
| comprehensive_historical_data_test
| nasdaq_load_test
| validate_swift_integration
| direct_api_endpoint_test
| nasdaq_api_test.

Definition all_scripts : list script :=
  [ api_test_validation; alpha_vantage_performance_test; targeted_api_test;
    alpha_vantage_integration_test; ios_app_simulation_test;
    comprehensive_historical_data_test; nasdaq_load_test;
    validate_swift_integration; direct_api_endpoint_test; nasdaq_api_test ].

(** The second argument of [open]. *)
Inductive open_mode := ReadMode | WriteMode.

(** A call of [open]: the file name (with [{timestamp}] where the name
    embeds [datetime.now().strftime(...)]), the mode, and whether the call
    sits inside a loop or inside a function called more than once a run. *)
Record file_site := mkFileSite {
  file_name : string;
  timestamped : bool;
  mode : open_mode;
  repeated : bool
}.

(** A kind of input/output call that the entry point of a script reaches. *)
Inductive site :=
| NewSession                (* requests.Session() / aiohttp.ClientSession() *)
| HttpGet (through_session : bool) (timed : bool)
                            (* a GET; timed when a time.time() difference
                               around it is kept as a response time *)
| TimeOther                 (* a time.time() difference around other work *)
| PrintCall
| OpenFile (f : file_site).

(** The call sites reached from [if __name__ == "__main__":], by kind. *)
Definition sites (s : script) : list site :=
  match s with
  | api_test_validation =>
      [ PrintCall; NewSession; HttpGet true false;
        OpenFile (mkFileSite
          "/Users/hnigel/coding/my asset/api_validation_report_{timestamp}.json"
          true WriteMode false) ]
  | alpha_vantage_performance_test =>
      [ PrintCall; NewSession; HttpGet true true; HttpGet true false;
        OpenFile (mkFileSite "alpha_vantage_performance_results_{timestamp}.json"
                    true WriteMode false) ]
  | targeted_api_test =>
      [ PrintCall; NewSession; HttpGet true false; HttpGet false false ]
  | alpha_vantage_integration_test =>
      [ PrintCall; NewSession; HttpGet true true;
        OpenFile (mkFileSite "alpha_vantage_test_results_{timestamp}.json"
                    true WriteMode false) ]
  | ios_app_simulation_test =>
      [ PrintCall; TimeOther;
        OpenFile (mkFileSite "ios_historical_data_test_results_{timestamp}.json"
                    true WriteMode false);
        OpenFile (mkFileSite "IOS_HISTORICAL_DATA_TEST_REPORT_{timestamp}.md"
                    true WriteMode false) ]
  | comprehensive_historical_data_test =>
      [ PrintCall; TimeOther;
        OpenFile (mkFileSite "historical_data_test_results_{timestamp}.json"
                    true WriteMode false);
        OpenFile (mkFileSite "HISTORICAL_DATA_TEST_REPORT_{timestamp}.md"
                    true WriteMode false) ]
  | nasdaq_load_test =>
      [ PrintCall; HttpGet false true; NewSession; HttpGet true true;
        OpenFile (mkFileSite
          "/Users/hnigel/coding/my asset/nasdaq_load_test_report.json"
          false WriteMode false) ]
  | validate_swift_integration =>
      [ PrintCall; HttpGet false false ]
  | direct_api_endpoint_test =>
      [ PrintCall; NewSession; HttpGet true true;
        OpenFile (mkFileSite "direct_api_test_results_{timestamp}.json"
                    true WriteMode false);
        OpenFile (mkFileSite "DIRECT_API_TEST_REPORT_{timestamp}.md"
                    true WriteMode false) ]
  | nasdaq_api_test =>
      [ PrintCall; NewSession; HttpGet true true;
        OpenFile (mkFileSite
          "/Users/hnigel/coding/my asset/nasdaq_api_test_report.json"
          false WriteMode false) ]
  end.

Definition is_session (x : site) : bool :=
  match x with NewSession => true | _ => false end.
Definition is_request (x : site) : bool :=
  match x with HttpGet _ _ => true | _ => false end.
Definition is_timed_request (x : site) : bool :=
  match x with HttpGet _ true => true | _ => false end.
Definition is_write (x : site) : bool :=
  match x with OpenFile f => match mode f with WriteMode => true | _ => false end
             | _ => false end.

Definition opens_session (s : script) : bool := existsb is_session (sites s).
Definition issues_requests (s : script) : bool := existsb is_request (sites s).
Definition measures_latency (s : script) : bool := existsb is_timed_request (sites s).
Definition writes_file (s : script) : bool := existsb is_write (sites s).




End Scripts.

(** ** ios_app_simulation_test.py: the test methods of the simulator *)

Module IosAppSimulationSuite.
Import Py IosAppSimulationTest.
Local Open Scope py_scope.

(** [ProviderStats.success_rate] *)
Definition ProviderStats_success_rate (st : ProviderStats) : Q :=
  if 0 <? total_requests st
  then (inject_Z (successful_requests st) / inject_Z (total_requests st) * 100)%Q
  else 0%Q.

(** [self.test_symbols], which no method assigns after [__init__]. *)
Definition test_symbols : list string :=
  ["AAPL"; "GOOGL"; "MSFT"; "TSLA"; "META"; "NVDA"; "NFLX"; "AMZN"].

(** [outcome.value] *)
Definition value (o : TestOutcome) : string :=
  match o with
  | SUCCESS => "success"
  | FAILURE => "failure"
  | TIMEOUT => "timeout"
  | RATE_LIMITED => "rate_limited"
  end.

Definition is_FAILURE (o : TestOutcome) : bool :=
  match o with FAILURE => true | _ => false end.

Definition is_TIMEOUT (o : TestOutcome) : bool :=
  match o with TIMEOUT => true | _ => false end.

Definition len {A} (l : list A) : Z := Z.of_nat (length l).

(** [sum(l)] on floats: the additions run from the left, from 0. *)
Definition py_sum (l : list Q) : Q := fold_left Qplus l 0%Q.

(** [sum(l)] on integers. *)
Definition py_sum_int (l : list Z) : Z := fold_left Z.add l 0.

(** [sum(1 for x in l if p x)] *)
Definition count {A} (p : A -> bool) (l : list A) : Z := len (List.filter p l).

(** [a / b] on numbers. *)
Definition py_div (a b : Q) : exn + Q :=
  if Qeq_bool b 0 then inl (Exn ZeroDivisionError "division by zero")
  else inr (a / b)%Q.

Definition set_providers (l : list (string * ProviderConfig)) (s : Simulator)
  : Simulator :=
  mkSimulator l (provider_stats s) (memory_cache s) (disk_cache s)
    (core_data_records s) (rng s) (clock s) (slept s).

(** One entry of [provider_results] in [test_basic_functionality]. *)
Record BasicTest := mkBasicTest {
  bt_symbol : string;
  bt_success : bool;
  bt_outcome : string;
  data_points : Z;
  bt_response_time : Q;
  valid_data : Z
}.

(** One value of [results["providers"]]. *)
Record ProviderReport := mkProviderReport {
  tests : list BasicTest;
  pr_success_rate : Q;
  pr_avg_response_time : Q;
  total_data_points : Z
}.

(** The loop [for symbol in self.test_symbols[:3]]. *)
Fixpoint basic_tests (provider_name : string) (symbols : list string)
  : M Simulator (list BasicTest) :=
  match symbols with
  | [] => ret []
  | symbol :: rest =>
      called <~ simulate_api_call provider_name symbol 30 ;;
      let '(outcome, data, response_time) := called in
      rs <~ basic_tests provider_name rest ;;
      ret (mkBasicTest symbol (is_SUCCESS outcome) (value outcome) (len data)
             response_time (count is_valid data) :: rs)
  end.

(** The loop [for provider_name in self.providers.keys()]. *)
Fixpoint basic_providers (names : list string)
  : M Simulator (list (string * ProviderReport)) :=
  match names with
  | [] => ret []
  | provider_name :: rest =>
      provider_results <~ basic_tests provider_name (take 3 test_symbols) ;;
      let success_count := count bt_success provider_results in
      avg_response_time <~
        lift (py_div (py_sum (map bt_response_time provider_results))
                (inject_Z (len provider_results))) ;;
      let total := py_sum_int (map data_points provider_results) in
      rate <~ lift (py_div (inject_Z success_count)
                      (inject_Z (len provider_results))) ;;
      reports <~ basic_providers rest ;;
      ret ((provider_name,
            mkProviderReport provider_results (rate * 100)%Q avg_response_time total)
           :: reports)
  end.

(** [HistoricalDataSimulator.test_basic_functionality]: the value of
    [results["providers"]], in the order of the provider table. *)
Definition test_basic_functionality : M Simulator (list (string * ProviderReport)) :=
  fun s => basic_providers (map fst (providers s)) s.

(** [self.providers[provider][field] = ...]: the entry of [provider]
    rewritten by [f]. *)
Fixpoint update_config (provider : string) (f : ProviderConfig -> ProviderConfig)
         (l : list (string * ProviderConfig)) : list (string * ProviderConfig) :=
  match l with
  | [] => []
  | (n, c) :: rest =>
      if String.eqb n provider then (n, f c) :: rest
      else (n, c) :: update_config provider f rest
  end.

(** The configuration [c] with another [base_success_rate]. *)
Definition with_rate (rate : Q) (c : ProviderConfig) : ProviderConfig :=
  mkProviderConfig (priority c) (cost_per_request c) (daily_limit c) rate
    (avg_response_time c) (rate_limit_threshold c).

(** [self.providers[provider]["base_success_rate"] = rate] *)
Definition set_base_success_rate (provider : string) (rate : Q) : M Simulator unit :=
  config_of provider ;;;
  modify (fun s => set_providers (update_config provider (with_rate rate) (providers s)) s).

(** [self.provider_stats[provider].total_requests = n] *)
Definition set_total_requests (provider : string) (n : Z) : M Simulator unit :=
  update_stats provider
    (fun st => mkProviderStats (name st) n (successful_requests st)
                 (failed_requests st) (total_response_time st) (rate_limit_hits st)).

(** One entry of [results["scenarios"]] in [test_failover_mechanisms]; a
    key that the entry does not have is [None]. *)
Record FailoverScenario := mkFailoverScenario {
  fs_name : string;
  fs_success : bool;
  provider_used : string;
  fs_response_time : Q;
  fs_data_points : Z;
  failover_occurred : option bool;
  rate_limited : option bool
}.

(** [HistoricalDataSimulator.test_failover_mechanisms]: the value of
    [results["scenarios"]]. *)
Definition test_failover_mechanisms : M Simulator (list FailoverScenario) :=
  r1 <~ fetch_with_failover "AAPL" 30 ;;
  let '(outcome1, data1, provider1, response_time1) := r1 in
  let scenario1 :=
    mkFailoverScenario "Normal Operation" (is_SUCCESS outcome1) provider1
      response_time1 (len data1) None None in
  yahoo <~ config_of "Yahoo Finance" ;;
  let original_success_rate := base_success_rate yahoo in
  set_base_success_rate "Yahoo Finance" (1 # 10) ;;;
  r2 <~ fetch_with_failover "GOOGL" 30 ;;
  let '(outcome2, data2, provider2, response_time2) := r2 in
  let scenario2 :=
    mkFailoverScenario "Primary Provider Failure" (is_SUCCESS outcome2) provider2
      response_time2 (len data2)
      (Some (negb (String.eqb provider2 "Yahoo Finance"))) None in
  set_base_success_rate "Yahoo Finance" original_success_rate ;;;
  yahoo <~ config_of "Yahoo Finance" ;;
  set_total_requests "Yahoo Finance" (rate_limit_threshold yahoo - 1) ;;;
  r3 <~ fetch_with_failover "MSFT" 30 ;;
  let '(outcome3, data3, provider3, response_time3) := r3 in
  let scenario3 :=
    mkFailoverScenario "Rate Limiting Failover" (is_SUCCESS outcome3) provider3
      response_time3 (len data3) None (Some true) in
  ret [scenario1; scenario2; scenario3].

(** One entry of [results["scenarios"]] in [test_error_handling]. *)
Record ErrorScenario := mkErrorScenario {
  es_name : string;
  handled_gracefully : bool;
  es_outcome : string;
  es_response_time : Q;
  error_type : string
}.

(** The loop [for _ in range(3)] of [test_error_handling], run [n] times. *)
Fixpoint timeout_calls (n : nat) : M Simulator (list TestOutcome) :=
  match n with
  | O => ret []
  | S n' =>
      called <~ simulate_api_call "Finnhub" "AAPL" 30 ;;
      let '(outcome, _, _) := called in
      rest <~ timeout_calls n' ;;
      ret (outcome :: rest)
  end.

(** [HistoricalDataSimulator.test_error_handling]: the value of
    [results["scenarios"]]. *)
Definition test_error_handling : M Simulator (list ErrorScenario) :=
  c1 <~ simulate_api_call "Yahoo Finance" "INVALID123" 30 ;;
  let '(outcome1, _, response_time1) := c1 in
  let scenario1 :=
    mkErrorScenario "Invalid Symbol" (is_FAILURE outcome1 || is_SUCCESS outcome1)
      (value outcome1) response_time1 "Invalid Symbol" in
  yahoo <~ config_of "Yahoo Finance" ;;
  set_total_requests "Yahoo Finance" (rate_limit_threshold yahoo) ;;;
  c2 <~ simulate_api_call "Yahoo Finance" "AAPL" 30 ;;
  let '(outcome2, _, response_time2) := c2 in
  let scenario2 :=
    mkErrorScenario "Rate Limiting" (is_RATE_LIMITED outcome2) (value outcome2)
      response_time2 "Rate Limit Exceeded" in
  finnhub <~ config_of "Finnhub" ;;
  let original_rate := base_success_rate finnhub in
  set_base_success_rate "Finnhub" 0 ;;;
  timeout_tests <~ timeout_calls 3 ;;
  set_base_success_rate "Finnhub" original_rate ;;;
  let scenario3 :=
    mkErrorScenario "Network Timeout"
      (existsb is_TIMEOUT timeout_tests || existsb is_FAILURE timeout_tests)
      "timeout_simulated" 30 "Network Timeout" in
  ret [scenario1; scenario2; scenario3].

End IosAppSimulationSuite.

(** ** nasdaq_api_test.py: the dividend probe *)

Module NasdaqApiDividends.
Import Py Net NasdaqApiTest.
Local Open Scope py_scope.

Definition is_ValueError (e : exn) : bool :=
  match exn_cls e with ValueError => true | _ => false end.

(** The statements
    [x = None; if text and text != "N/A": try: x = float(text) except ValueError: x = None]
    of [test_dividend_data]. *)
Definition float_or_none (text : json) : M World (option pyfloat) :=
  if truthy text && negb (is_this_str "N/A" text)
  then try_except (f <~ lift (py_float text) ;; ret (Some f)) is_ValueError
         (fun _ => ret None)
  else ret None.

(** The statements under [try:] in [NasdaqAPITester.test_dividend_data]. *)
Definition test_dividend_data_try (symbol : string) (start_time : Q)
  : M World TestResult :=
  let url := base_url +:+ "/" +:+ symbol +:+ "/dividends?assetclass=stocks" in
  response <~ http_get url ;;
  now <~ time_time ;;
  let response_time := (now - start_time)%Q in
  if negb (status response =? 200) then
    ret (mkTestResult symbol false response_time
           (Some ("HTTP " +:+ pretty (status response) +:+ ": "
                  +:+ str_take 100 (text response)))
           None JNull None None)
  else
    data <~ response_json response ;;
    st <~ lift (py_get data "status" (JObj [])) ;;
    rcode <~ lift (py_get st "rCode" JNull) ;;
    if negb (eq_int rcode 200) then
      msg <~ lift (py_get data "message" (JStr "Unknown error")) ;;
      ret (mkTestResult symbol false response_time
             (Some ("API Error: " +:+ py_str msg)) None JNull None None)
    else
      dividend_data <~ lift (py_get data "data" (JObj [])) ;;
      raw_yield <~ lift (py_get dividend_data "yield" (JStr "0%")) ;;
      yield_str <~ lift (py_replace raw_yield "%") ;;
      dividend_yield <~ float_or_none yield_str ;;
      raw_annual <~ lift (py_get dividend_data "annualizedDividend" (JStr "$0")) ;;
      no_dollar <~ lift (py_replace raw_annual "$") ;;
      annual_div_str <~ lift (py_replace no_dollar ",") ;;
      annual_dividend <~ float_or_none annual_div_str ;;
      ret (mkTestResult symbol true response_time None None JNull
             dividend_yield annual_dividend).

(** [NasdaqAPITester.test_dividend_data] *)
Definition test_dividend_data (symbol : string) : M World TestResult :=
  start_time <~ time_time ;;
  try_except (test_dividend_data_try symbol start_time) is_Exception
    (fun e =>
       now <~ time_time ;;
       ret (mkTestResult symbol false (now - start_time)%Q
              (Some (str_exn e)) None JNull None None)).

End NasdaqApiDividends.

(** ** nasdaq_load_test.py: the analysis of the summaries *)

Module NasdaqLoadAnalysis.
Import Py NasdaqLoadTest.

(** The loop [for config_name, result in results.items()] of
    [run_load_tests] that looks for the best configuration; [results] in
    insertion order, [best_rps] and [best_config] as they stand. *)
Fixpoint best_config_loop (results : list (string * Summary)) (best_rps : Q)
         (best_config : option string) : Q * option string :=
  match results with
  | [] => (best_rps, best_config)
  | (config_name, result) :: rest =>
      if Qltb best_rps (requests_per_second result)
         && Qltb 90 (success_rate result)
      then best_config_loop rest (requests_per_second result) (Some config_name)
      else best_config_loop rest best_rps best_config
  end.

(** [best_rps] and [best_config] after the loop, from 0 and [None]. *)
Definition best_configuration (results : list (string * Summary))
  : Q * option string :=
  best_config_loop results 0 None.

End NasdaqLoadAnalysis.

(** ** alpha_vantage_performance_test.py: the rate limiting test *)

Module AlphaVantageRateLimiting.
Import Py Net AlphaVantagePerformanceTest.
Local Open Scope py_scope.

(** An entry of [results] in [rate_limiting_test]: the dict that
    [single_request_test] returned, with the two keys added to it. *)
Record NumberedRequest := mkNumberedRequest {
  request : RequestDict;
  request_number : Z;
  time_since_start : Q
}.

(** The loop [for i in range(max_requests)], for the [n] values of [i]
    that remain. *)
Fixpoint rapid_requests (api_key : string) (start_time : Q) (n : nat) (i : Z)
  : M World (list NumberedRequest) :=
  match n with
  | O => ret []
  | S n' =>
      result <~ single_request_test api_key "AAPL" "GLOBAL_QUOTE" ;;
      now <~ time_time ;;
      let numbered :=
        mkNumberedRequest result (i + 1) (py_round (now - start_time) 2) in
      sleep 2 ;;;
      rest <~ rapid_requests api_key start_time n' (i + 1) ;;
      ret (numbered :: rest)
  end.

(** The dict returned by [rate_limiting_test]. *)
Record RateLimitingReport := mkRateLimitingReport {
  total_requests : Z;
  successful_requests : Z;
  failed_requests : Z;
  success_rate : Q;
  test_duration_seconds : Q;
  results : list NumberedRequest
}.

(** [a / b] on integers. *)
Definition int_div (a b : Z) : exn + Q :=
  if b =? 0 then inl (Exn ZeroDivisionError "division by zero")
  else inr (inject_Z a / inject_Z b)%Q.

(** [AlphaVantagePerformanceTester.rate_limiting_test] *)
Definition rate_limiting_test (api_key : string) (max_requests : Z)
  : M World RateLimitingReport :=
  start_time <~ time_time ;;
  results <~ rapid_requests api_key start_time (Z.to_nat max_requests) 0 ;;
  let success_count :=
    Z.of_nat (length (filter (fun r => success (request r) = true) results)) in
  let failure_count := Z.of_nat (length results) - success_count in
  ratio <~ lift (int_div success_count max_requests) ;;
  now <~ time_time ;;
  ret (mkRateLimitingReport max_requests success_count failure_count
         (py_round (ratio * 100) 1) (py_round (now - start_time) 2) results).

End AlphaVantageRateLimiting.

(** * Properties *)

(** ** Tactics for computations in [M] *)

Module PyFacts.
Import Py.

(** Runs the first [lift] of a computation whose result is known to be a
    return: the lifted operation returned too. *)
Ltac run_lift H :=
  unfold bind at 1 in H; unfold lift at 1 in H; cbv beta iota in H;
  lazymatch type of H with
  | (match ?x with inl _ => _ | inr _ => _ end) = _ =>
      destruct x eqn:?; [discriminate H|]
  end.

Ltac run_ret H :=
  unfold bind at 1 in H; unfold ret at 1 in H; cbv beta iota in H.

End PyFacts.

(** ** The cache of the simulator *)

Module IosCacheFacts.
Import Py IosAppSimulationTest.

Lemma cache_of_set_cache cache_type c s :
  cache_of cache_type (set_cache cache_type c s) = c.
Proof. unfold cache_of, set_cache. destruct (String.eqb cache_type "memory"); reflexivity. Qed.

Lemma clock_set_cache cache_type c s : clock (set_cache cache_type c s) = clock s.
Proof. unfold set_cache. destruct (String.eqb cache_type "memory"); reflexivity. Qed.

(** The entry after a hit: the same entry with one more hit. *)
Definition hit (e : CacheEntry) : CacheEntry :=
  mkCacheEntry (entry_symbol e) (data e) (timestamp e) (expiry e) (hit_count e + 1).

(** The cache that a call does not consult. *)
Definition other_cache (cache_type : string) (s : Simulator) : gmap string CacheEntry :=
  if String.eqb cache_type "memory" then disk_cache s else memory_cache s.

Lemma other_cache_set_cache cache_type c s :
  other_cache cache_type (set_cache cache_type c s) = other_cache cache_type s.
Proof. unfold other_cache, set_cache. destruct (String.eqb cache_type "memory"); reflexivity. Qed.

(** C7: [check_cache] never returns expired data.  It returns the cached
    list, and counts one more hit on the entry, only when the entry's
    expiry is strictly after the time of the call; an entry that has
    expired is deleted and the call returns [None]; so after the call the
    consulted cache holds no expired entry for the symbol.  Other symbols
    and the other cache are left as they were. *)
Theorem check_cache_never_returns_expired (symbol cache_type : string) (s : Simulator) :
  let r := fst (check_cache symbol cache_type s) in
  let s' := snd (check_cache symbol cache_type s) in
  let before := cache_of cache_type s in
  let after := cache_of cache_type s' in
  (forall d, r = Some d ->
     exists e, before !! symbol = Some e /\ clock s < expiry e /\ d = data e /\
               after !! symbol = Some (hit e)) /\
  (forall e, before !! symbol = Some e -> expiry e <= clock s ->
     r = None /\ after !! symbol = None) /\
  (before !! symbol = None -> r = None /\ s' = s) /\
  (forall e, after !! symbol = Some e -> clock s < expiry e) /\
  (forall k, k <> symbol -> after !! k = before !! k) /\
  other_cache cache_type s' = other_cache cache_type s /\
  clock s' = clock s.
Proof.
  unfold check_cache. cbv zeta.
  destruct (cache_of cache_type s !! symbol) as [e|] eqn:E.
  - destruct (clock s <? expiry e) eqn:L; cbn [fst snd];
      rewrite ?cache_of_set_cache, ?clock_set_cache, ?other_cache_set_cache.
    + apply Z.ltb_lt in L. repeat apply conj; try reflexivity.
      * intros d [= <-]. exists e. rewrite lookup_insert_eq. auto.
      * intros e' [= <-] ?. lia.
      * discriminate.
      * intros e'. rewrite lookup_insert_eq. intros [= <-]. exact L.
      * intros k Hk. rewrite lookup_insert_ne by congruence. reflexivity.
    + apply Z.ltb_ge in L. repeat apply conj; try reflexivity; try discriminate.
      * intros e' _ _. split; [reflexivity | apply lookup_delete_eq].
      * intros e'. rewrite lookup_delete_eq. discriminate.
      * intros k Hk. rewrite lookup_delete_ne by congruence. reflexivity.
  - cbn [fst snd]. rewrite E. repeat apply conj; try reflexivity; try discriminate; auto.
Qed.
End IosCacheFacts.

(** ** The failover loop of the simulator *)

Module IosFailoverFacts.
Import Py PyFacts IosAppSimulationTest.

(** What the simulated calls leave untouched: the provider table, the set
    of providers that have statistics, the clock, and the draws that the
    random generator will hand out. *)
Definition frame (s s' : Simulator) : Prop :=
  providers s' = providers s /\
  (forall q, is_Some (provider_stats s !! q) -> is_Some (provider_stats s' !! q)) /\
  unit_draws (rng s') = unit_draws (rng s) /\
  clock s' = clock s.

Lemma frame_refl s : frame s s.
Proof. unfold frame. auto. Qed.

Lemma frame_trans s1 s2 s3 : frame s1 s2 -> frame s2 s3 -> frame s1 s3.
Proof.
  unfold frame. intros (A1 & B1 & C1 & D1) (A2 & B2 & C2 & D2).
  repeat apply conj; try congruence. auto.
Qed.

(** A computation that always returns and respects the frame. *)
Definition steady {A} (m : M Simulator A) : Prop :=
  forall s, exists a s', m s = (inr a, s') /\ frame s s'.





Lemma steady_randint a b : steady (randint a b).
Proof. intros s. eexists _, _. split; [reflexivity|]. unfold frame. cbn. auto. Qed.






(** The provider is in the table, has statistics, and its rate-limit
    threshold is not zero. *)
Definition callable (provider : string) (s : Simulator) : Prop :=
  exists i n c,
    list_find (fun p => fst p = provider) (providers s) = Some (i, (n, c)) /\
    rate_limit_threshold c <> 0 /\
    is_Some (provider_stats s !! provider).




(** The simulator as [__init__] configures it: the three providers with
    their priorities, a non-zero rate-limit threshold for each, and
    statistics for each. *)
Definition configured (s : Simulator) : Prop :=
  map (fun p => (fst p, priority (snd p))) (providers s)
  = [("Yahoo Finance", 1); ("EODHD", 2); ("Finnhub", 3)] /\
  Forall (fun p => rate_limit_threshold (snd p) <> 0) (providers s) /\
  Forall (fun p => is_Some (provider_stats s !! fst p)) (providers s).

Lemma configured_sorted s :
  configured s ->
  exists c1 c2 c3,
    providers s = [("Yahoo Finance", c1); ("EODHD", c2); ("Finnhub", c3)] /\
    sorted_providers (providers s) = providers s /\
    callable "Yahoo Finance" s /\ callable "EODHD" s /\ callable "Finnhub" s.
Proof.
  intros (Hm & Ht & Hs).
  destruct (providers s) as [|[n1 c1] [|[n2 c2] [|[n3 c3] [|]]]] eqn:E;
    cbn in Hm; try discriminate.
  injection Hm as -> P1 -> P2 -> P3.
  exists c1, c2, c3. split; [reflexivity|]. split.
  - unfold sorted_providers.
    cbn [fold_right insert_by_priority snd]. rewrite P2, P3.
    change (2 <? 3) with true. cbv iota.
    cbn [insert_by_priority snd]. rewrite P1, P2.
    change (1 <? 2) with true. reflexivity.
  - inversion Ht as [|? ? T1 Ht']; subst. inversion Ht' as [|? ? T2 Ht'']; subst.
    inversion Ht'' as [|? ? T3 _]; subst.
    inversion Hs as [|? ? S1 Hs']; subst. inversion Hs' as [|? ? S2 Hs'']; subst.
    inversion Hs'' as [|? ? S3 _]; subst.
    unfold callable. rewrite E.
    repeat apply conj; eexists _, _, _; (split; [reflexivity|]); split; assumption.
Qed.


(** A fresh simulator whose generator always draws one half. *)
Definition demo_simulator : Simulator :=
  init (mkRng (fun _ => 1 # 2)%Q (fun _ => 0) 0 0) 1700000000000000.

Lemma configured_init g now : configured (init g now).
Proof.
  repeat apply conj.
  - reflexivity.
  - repeat constructor; discriminate.
  - repeat constructor; cbn [fst]; vm_compute; eauto.
Qed.


End IosFailoverFacts.

(** ** Rounding to two decimals, and the generated prices *)

Module RoundingFacts.
Import Py.
Local Open Scope Q_scope.

Lemma round_half_even_bounds q :
  (Qfloor q <= round_half_even q <= Qfloor q + 1)%Z.
Proof.
  unfold round_half_even.
  destruct (Qcompare _ _); [destruct (Z.even _)| |]; lia.
Qed.

Lemma round_half_even_mono x y : x <= y -> (round_half_even x <= round_half_even y)%Z.
Proof.
  intros Hxy. pose proof (Qfloor_resp_le _ _ Hxy) as Hf.
  destruct (Z.eq_dec (Qfloor x) (Qfloor y)) as [E|N].
  - unfold round_half_even. rewrite <- E.
    destruct (Qcompare (x - inject_Z (Qfloor x)) (1 # 2)) eqn:Cx;
      destruct (Qcompare (y - inject_Z (Qfloor x)) (1 # 2)) eqn:Cy;
      try (destruct (Z.even (Qfloor x)); lia); try lia; exfalso.
    all: first [apply Qeq_alt in Cx | apply Qlt_alt in Cx | apply Qgt_alt in Cx].
    all: first [apply Qeq_alt in Cy | apply Qlt_alt in Cy | apply Qgt_alt in Cy].
    all: lra.
  - pose proof (round_half_even_bounds x). pose proof (round_half_even_bounds y). lia.
Qed.

Lemma pow10_2 : pow10 (Z.of_nat 2) = 100 # 1.
Proof. reflexivity. Qed.

Lemma py_round_2_mono x y : x <= y -> py_round x 2 <= py_round y 2.
Proof.
  intros H. unfold py_round. rewrite pow10_2.
  assert (H' : x * (100 # 1) <= y * (100 # 1)) by lra.
  apply round_half_even_mono in H'.
  rewrite Zle_Qle in H'.
  unfold Qdiv. apply Qmult_le_compat_r; [exact H' | vm_compute; discriminate].
Qed.

Lemma round_half_even_pos q : 1 # 2 < q -> (1 <= round_half_even q)%Z.
Proof.
  intros H. unfold round_half_even.
  assert (F0 : (0 <= Qfloor q)%Z).
  { change 0%Z with (Qfloor 0). apply Qfloor_resp_le. lra. }
  destruct (Z.eq_dec (Qfloor q) 0%Z) as [E|N].
  - rewrite E. change (inject_Z 0%Z) with 0.
    destruct (Qcompare (q - 0) (1 # 2)) eqn:C.
    + apply Qeq_alt in C. lra.
    + apply Qlt_alt in C. lra.
    + lia.
  - destruct (Qcompare _ _); [destruct (Z.even _)| |]; lia.
Qed.

Lemma py_round_2_pos x : 1 # 200 < x -> 0 < py_round x 2.
Proof.
  intros H. unfold py_round. rewrite pow10_2.
  assert (H' : 1 # 2 < x * (100 # 1)) by lra.
  apply round_half_even_pos in H'.
  rewrite Zle_Qle in H'. change (inject_Z 1%Z) with 1 in H'.
  apply Qlt_shift_div_l; lra.
Qed.

Lemma Qltb_true a b : a < b -> Qltb a b = true.
Proof.
  intros H. unfold Qltb. destruct (Qle_bool b a) eqn:E; [|reflexivity].
  apply Qle_bool_iff in E. lra.
Qed.

Lemma Qleb_true a b : a <= b -> Qleb a b = true.
Proof. intros H. unfold Qleb. now apply Qle_bool_iff. Qed.

Lemma py_max_ge a b : a <= py_max a b /\ b <= py_max a b.
Proof.
  unfold py_max, Qltb. destruct (Qle_bool b a) eqn:E; cbn.
  - apply Qle_bool_iff in E. lra.
  - assert (~ b <= a) by (rewrite <- Qle_bool_iff; congruence). lra.
Qed.

Lemma py_min_le a b : py_min a b <= a /\ py_min a b <= b.
Proof.
  unfold py_min, Qltb. destruct (Qle_bool a b) eqn:E; cbn.
  - apply Qle_bool_iff in E. lra.
  - assert (~ a <= b) by (rewrite <- Qle_bool_iff; congruence). lra.
Qed.

Lemma py_min_cases a b : py_min a b = a \/ py_min a b = b.
Proof. unfold py_min. destruct (Qltb b a); auto. Qed.

End RoundingFacts.

Module IosDataFacts.
Import Py PyFacts IosAppSimulationTest IosFailoverFacts RoundingFacts.
Local Open Scope Q_scope.

(** Every draw of [random.random()] lies in [[0, 1)]. *)
Definition unit_range (g : Rng) : Prop :=
  forall k, 0 <= unit_draws g k /\ unit_draws g k < 1.

Lemma unit_range_frame s s' : frame s s' -> unit_range (rng s) -> unit_range (rng s').
Proof. intros (_ & _ & E & _) H k. rewrite E. apply H. Qed.

Lemma uniform_range a b s :
  unit_range (rng s) -> a <= b ->
  exists v s', uniform a b s = (inr v, s') /\ frame s s' /\ a <= v /\ v <= b.
Proof.
  intros H Hab. destruct (H (units_used (rng s))) as [L U].
  eexists _, _. split; [reflexivity|]. split.
  - unfold frame. cbn. auto.
  - cbn. set (u := unit_draws (rng s) (units_used (rng s))) in *. nra.
Qed.

(** The ordering that [is_valid] asks of the four prices. *)
Definition ordered (p : HistoricalPrice) : Prop :=
  low_price p <= open_price p /\ open_price p <= high_price p /\
  low_price p <= close_price p /\ close_price p <= high_price p /\
  low_price p <= high_price p.

(** [0.95 ** n], the largest fall of the base price over [n] days. *)
Fixpoint decay (n : nat) : Q :=
  match n with
  | O => 1
  | S n' => (19 # 20) * decay n'
  end.

Lemma decay_range n : 0 < decay n /\ decay n <= 1.
Proof. induction n as [|n [IH1 IH2]]; cbn [decay]; split; lra. Qed.

Lemma decay_antitone n m : (n <= m)%nat -> decay m <= decay n.
Proof.
  induction 1 as [|m _ IH]; [lra|]. cbn [decay].
  pose proof (decay_range m). lra.
Qed.

Lemma is_valid_true p :
  0 < low_price p -> ordered p -> is_valid p = true.
Proof.
  intros L (A & B & C & D & E). unfold is_valid.
  rewrite !Qltb_true, !Qleb_true by lra. reflexivity.
Qed.

Lemma generate_days_prices n : forall i days base symbol provider s B,
  unit_range (rng s) -> 0 < B -> B <= base ->
  exists l s',
    generate_days n i days base symbol provider s = (inr l, s') /\ frame s s' /\
    length l = n /\ Forall ordered l /\
    (1 # 200 < B * decay n * (9506 # 10000) ->
     Forall (fun p => is_valid p = true) l).
Proof.
  induction n as [|n IH]; intros i days base symbol provider s B Hr HB Hbase.
  - exists [], s. split; [reflexivity|]. split; [apply frame_refl|]. auto.
  - cbn [generate_days]. unfold bind at 1. unfold datetime_now at 1.
    unfold bind at 1.
    destruct (uniform_range (-(5 # 100)) (5 # 100) s Hr) as (dc & s1 & E1 & F1 & L1 & U1);
      [lra|]. rewrite E1.
    pose proof (unit_range_frame _ _ F1 Hr) as Hr1.
    unfold bind at 1.
    destruct (uniform_range (98 # 100) (102 # 100) s1 Hr1) as (uo & s2 & E2 & F2 & L2 & U2);
      [lra|]. rewrite E2.
    pose proof (unit_range_frame _ _ F2 Hr1) as Hr2.
    unfold bind at 1.
    destruct (uniform_range (98 # 100) (102 # 100) s2 Hr2) as (uc & s3 & E3 & F3 & L3 & U3);
      [lra|]. rewrite E3.
    pose proof (unit_range_frame _ _ F3 Hr2) as Hr3.
    unfold bind at 1.
    destruct (uniform_range 1 (103 # 100) s3 Hr3) as (uh & s4 & E4 & F4 & L4 & U4);
      [lra|]. rewrite E4.
    pose proof (unit_range_frame _ _ F4 Hr3) as Hr4.
    unfold bind at 1.
    destruct (uniform_range (97 # 100) 1 s4 Hr4) as (ul & s5 & E5 & F5 & L5 & U5);
      [lra|]. rewrite E5.
    pose proof (unit_range_frame _ _ F5 Hr4) as Hr5.
    unfold bind at 1.
    destruct (steady_randint 1000000 50000000 s5) as (vol & s6 & E6 & F6). rewrite E6.
    pose proof (unit_range_frame _ _ F6 Hr5) as Hr6.
    set (base' := base * (1 + dc)).
    assert (Hb' : B * (19 # 20) <= base') by (unfold base'; nra).
    assert (HB' : 0 < B * (19 # 20)) by lra.
    destruct (IH (i + 1)%Z days base' symbol provider s6 (B * (19 # 20)) Hr6 HB' Hb')
      as (l & s7 & E7 & F7 & Hlen & Hord & Hval).
    unfold bind at 1. rewrite E7.
    eexists _, s7. split; [reflexivity|].
    set (op := base' * uo). set (cl := base' * uc).
    assert (Hop : base' * (98 # 100) <= op) by (unfold op; nra).
    assert (Hcl : base' * (98 # 100) <= cl) by (unfold cl; nra).
    assert (Hmx : 0 < py_max op cl) by (pose proof (py_max_ge op cl); nra).
    assert (Hmn : base' * (98 # 100) <= py_min op cl)
      by (destruct (py_min_cases op cl) as [-> | ->]; assumption).
    pose proof (py_max_ge op cl) as [Mx1 Mx2].
    pose proof (py_min_le op cl) as [Mn1 Mn2].
    assert (Hhi : py_max op cl <= py_max op cl * uh) by nra.
    assert (Hlo : py_min op cl * ul <= py_min op cl) by nra.
    assert (Hlo' : base' * (9506 # 10000) <= py_min op cl * ul) by nra.
    assert (Ho : ordered
                   (mkHistoricalPrice
                      ((clock s - (days - i - 1) * microseconds_per_day)
                       / microseconds_per_day)%Z
                      (py_round op 2) (py_round (py_max op cl * uh) 2)
                      (py_round (py_min op cl * ul) 2) (py_round cl 2)
                      vol symbol provider)).
    { unfold ordered. cbn. repeat apply conj; apply py_round_2_mono; lra. }
    split; [repeat (eapply frame_trans; [eassumption|]); apply frame_refl|].
    split; [cbn; f_equal; exact Hlen|].
    split; [constructor; assumption|].
    intros Hd. cbn [decay] in Hd. constructor.
    + apply is_valid_true; [|exact Ho]. cbn.
      apply py_round_2_pos.
      pose proof (decay_range n) as [D1 D2].
      assert (B * ((19 # 20) * decay n) * (9506 # 10000)
              <= B * (19 # 20) * (9506 # 10000)) by nra.
      lra.
    + apply Hval. lra.
Qed.

Lemma decay_178 : 1 # 200 < 50 * decay 178 * (9506 # 10000).
Proof. vm_compute. reflexivity. Qed.

(** C4, amended: whatever the symbol, the day count and the draws (each
    draw of [random()] in [[0, 1)]), [generate_historical_data] returns one
    record per day, and in every record the rounded prices satisfy
    low <= open <= high, low <= close <= high and low <= high.  When the day
    count is at most 178 every record also has its four prices strictly
    positive, that is, satisfies [is_valid]. *)
Theorem generate_historical_data_valid (symbol : string) (days : Z)
        (provider : string) (s : Simulator) :
  unit_range (rng s) ->
  exists l s',
    generate_historical_data symbol days provider s = (inr l, s') /\
    length l = Z.to_nat days /\
    Forall ordered l /\
    ((days <= 178)%Z -> Forall (fun p => is_valid p = true) l).
Proof.
  intros Hr. unfold generate_historical_data, bind.
  destruct (uniform_range 50 300 s Hr) as (base & s1 & E1 & F1 & L1 & U1); [lra|].
  rewrite E1.
  destruct (generate_days_prices (Z.to_nat days) 0 days base symbol provider s1 50
              (unit_range_frame _ _ F1 Hr)) as (l & s2 & E2 & F2 & Hlen & Hord & Hval);
    [lra | exact L1 |].
  exists l, s2. split; [exact E2|]. split; [exact Hlen|]. split; [exact Hord|].
  intros Hd. apply Hval.
  assert (Hn : (Z.to_nat days <= 178)%nat) by lia.
  pose proof (decay_antitone _ _ Hn). pose proof decay_178. nra.
Qed.

(** A generator whose every draw is [u], for the units, and [v]. *)
Definition constant_rng (u : Q) (v : Z) : Rng := mkRng (fun _ => u) (fun _ => v) 0 0.

Lemma unit_range_constant u v : 0 <= u -> u < 1 -> unit_range (constant_rng u v).
Proof. intros H1 H2 k. cbn. auto. Qed.

Lemma generate_historical_data_valid_witness :
  exists l s',
    generate_historical_data "AAPL" 30 "Yahoo Finance"
      (init (constant_rng (1 # 2) 0) 1700000000000000) = (inr l, s') /\
    length l = 30%nat /\
    Forall ordered l /\
    Forall (fun p => is_valid p = true) l.
Proof.
  destruct (generate_historical_data_valid "AAPL" 30 "Yahoo Finance"
              (init (constant_rng (1 # 2) 0) 1700000000000000))
    as (l & s' & E & Hlen & Hord & Hval).
  - apply unit_range_constant; [discriminate | reflexivity].
  - exists l, s'. repeat apply conj; auto. apply Hval. discriminate.
Defined.

(** The run of [generate_days] on a generator whose draws are constant. *)
Section ConstantDraws.
Variables (u : Q) (v : Z).
Variables (days now : Z) (symbol provider : string).

Definition constant_draws (s : Simulator) : Prop :=
  unit_draws (rng s) = (fun _ => u) /\ int_draws (rng s) = (fun _ => v) /\
  clock s = now.

Definition drawn (a b : Q) : Q := a + (b - a) * u.

Definition next_base (base : Q) : Q := base * (1 + drawn (- (5 # 100)) (5 # 100)).

Definition day_record (i : Z) (base : Q) : HistoricalPrice :=
  let base := next_base base in
  let open_price := base * drawn (98 # 100) (102 # 100) in
  let close_price := base * drawn (98 # 100) (102 # 100) in
  mkHistoricalPrice
    ((now - (days - i - 1) * microseconds_per_day) / microseconds_per_day)%Z
    (py_round open_price 2)
    (py_round (py_max open_price close_price * drawn 1 (103 # 100)) 2)
    (py_round (py_min open_price close_price * drawn (97 # 100) 1) 2)
    (py_round close_price 2)
    (1000000 + v mod (50000000 - 1000000 + 1))%Z symbol provider.

Fixpoint records (n : nat) (i : Z) (base : Q) : list HistoricalPrice :=
  match n with
  | O => []
  | S n' => day_record i base :: records n' (i + 1)%Z (next_base base)
  end.

Fixpoint base_after (n : nat) (base : Q) : Q :=
  match n with
  | O => base
  | S n' => base_after n' (next_base base)
  end.

Lemma generate_days_constant n : forall i base s,
  constant_draws s ->
  exists s', generate_days n i days base symbol provider s
             = (inr (records n i base), s') /\ constant_draws s'.
Proof.
  induction n as [|n IH]; intros i base s (Hu & Hv & Hc).
  - exists s. split; [reflexivity|]. unfold constant_draws. auto.
  - cbn [generate_days records].
    unfold bind, uniform, random, randint, datetime_now, ret, bind.
    cbn [rng set_rng unit_draws int_draws units_used ints_used
         providers provider_stats memory_cache disk_cache core_data_records
         clock slept].
    rewrite Hu, Hv, Hc.
    match goal with
    | |- context [generate_days n ?i' days ?b symbol provider ?s1] =>
        destruct (IH i' b s1) as (s' & E & H')
    end.
    { unfold constant_draws. cbn. auto. }
    rewrite E. exists s'. split; [reflexivity | exact H'].
Qed.

Lemma records_last n : forall i base,
  records (S n) i base
  = records n i base ++ [day_record (i + Z.of_nat n)%Z (base_after n base)].
Proof.
  induction n as [|n IH]; intros i base.
  - cbn. now rewrite Z.add_0_r.
  - change (records (S (S n)) i base)
      with (day_record i base :: records (S n) (i + 1)%Z (next_base base)).
    rewrite IH. replace (i + Z.of_nat (S n))%Z with (i + 1 + Z.of_nat n)%Z by lia.
    reflexivity.
Qed.

Lemma generate_historical_data_constant n s :
  constant_draws s -> days = Z.of_nat (S n) ->
  exists l s',
    generate_historical_data symbol days provider s = (inr l, s') /\
    In (day_record (Z.of_nat n) (base_after n (drawn 50 300))) l.
Proof.
  intros (Hu & Hv & Hc) Hd.
  unfold generate_historical_data, bind, uniform, random, ret, bind.
  cbn [rng set_rng unit_draws int_draws units_used ints_used].
  rewrite Hu. rewrite Hd, Nat2Z.id. rewrite <- Hd.
  match goal with
  | |- context [generate_days (S n) 0 days ?b symbol provider ?s1] =>
      destruct (generate_days_constant (S n) 0 b s1) as (s' & E & _)
  end.
  { unfold constant_draws. cbn. auto. }
  rewrite E. eexists _, s'. split; [reflexivity|].
  rewrite records_last. apply in_or_app. right. left. reflexivity.
Qed.
End ConstantDraws.

(** C4 as stated fails: with every draw at the low end of its range, the
    low price of day 179 rounds to 0.00. *)
Lemma generate_historical_data_invalid_at_179_days :
  unit_range (constant_rng 0 0) /\
  exists l s' p,
    generate_historical_data "AAPL" 179 "Yahoo Finance"
      (init (constant_rng 0 0) 1700000000000000) = (inr l, s') /\
    In p l /\ low_price p == 0 /\ is_valid p = false.
Proof.
  split; [apply unit_range_constant; [discriminate | reflexivity]|].
  destruct (generate_historical_data_constant 0 0 179 1700000000000000
              "AAPL" "Yahoo Finance" 178 (init (constant_rng 0 0) 1700000000000000))
    as (l & s' & E & Hin).
  - unfold constant_draws. auto.
  - reflexivity.
  - exists l, s'. eexists. split; [exact E|]. split; [exact Hin|].
    split; vm_compute; reflexivity.
Qed.

End IosDataFacts.

(** ** Reading decoded JSON, and the network *)

Module JsonReading.
Import Py.

(** [v.get(k, d)] read as a partial function: defined on objects only. *)
Definition field_or (k : string) (d : json) (v : json) : option json :=
  match v with
  | JObj kvs => Some (from_option id d (obj_lookup k kvs))
  | _ => None
  end.

(** The member [k] of an object, when [v] is an object that has it. *)
Definition member (k : string) (v : json) : option json :=
  match v with
  | JObj kvs => obj_lookup k kvs
  | _ => None
  end.

Lemma py_get_inr v k d x : py_get v k d = inr x <-> field_or k d v = Some x.
Proof. destruct v; cbn; split; intros H; try discriminate; congruence. Qed.

Lemma py_get_inl v k d e : py_get v k d = inl e -> field_or k d v = None /\ is_Exception e = true.
Proof. destruct v; cbn; intros [= <-]; auto. Qed.

Lemma py_get_inl' v k d e : py_get v k d = inl e -> is_Exception e = true.
Proof. intros H. now apply py_get_inl in H. Qed.

Lemma py_replace_inr v c x :
  py_replace v c = inr x <-> exists s, v = JStr s /\ x = JStr (remove_char c s).
Proof.
  destruct v; cbn; split; intros H; try discriminate H;
    try (destruct H as (s' & [=] & _); fail).
  - injection H as <-. eauto.
  - destruct H as (s' & [= ->] & ->). reflexivity.
Qed.

Lemma py_replace_inl v c e : py_replace v c = inl e -> is_Exception e = true.
Proof. destruct v; cbn; intros [= <-]; auto. Qed.

Lemma float_of_str_inl s e : float_of_str s = inl e -> is_Exception e = true.
Proof.
  unfold float_of_str. destruct (take_sign _) as [neg body].
  destruct (_ || _); [discriminate|]. destruct (String.eqb _ _); [discriminate|].
  destruct (parse_floatnumber body); [discriminate|]. intros [= <-]. reflexivity.
Qed.

Lemma py_float_inl v e : py_float v = inl e -> is_Exception e = true.
Proof.
  destruct v; cbn; try discriminate; try (intros [= <-]; reflexivity).
  apply float_of_str_inl.
Qed.

Lemma py_in_inl k v e : py_in k v = inl e -> is_Exception e = true.
Proof. destruct v; cbn; try discriminate; intros [= <-]; reflexivity. Qed.

Lemma py_getitem_inl v k e : py_getitem v k = inl e -> is_Exception e = true.
Proof.
  destruct v; cbn; try (intros [= <-]; reflexivity).
  destruct (obj_lookup k kvs); [discriminate|]. intros [= <-]. reflexivity.
Qed.

End JsonReading.

Module NetFacts.
Import Py Net JsonReading.

(** The exception, if any, that a reply makes the HTTP library or
    [response.json()] raise. *)
Definition raised_by (o : outcome) : option exn :=
  match o with
  | Failed e => Some e
  | Responded r => match json_body r with inl e => Some e | inr _ => None end
  end.

(** A reply whose exception, if any, derives from [Exception]: a network
    error, a timeout, a decoding error. *)
Definition ordinary (o : outcome) : Prop :=
  forall e, raised_by o = Some e -> is_Exception e = true.

(** The reply to the request that a call issues from world [w]. *)
Definition reply (w : World) : outcome := http w (length (sent w)).

(** The clock of [w'] is that of [w], read zero or more times further. *)
Definition later (w w' : World) : Prop :=
  http w' = http w /\ wall w' = wall w /\ (reads w <= reads w')%nat.

Lemma later_refl w : later w w.
Proof. unfold later. auto. Qed.

Lemma later_trans w1 w2 w3 : later w1 w2 -> later w2 w3 -> later w1 w3.
Proof.
  unfold later. intros (A1 & B1 & C1) (A2 & B2 & C2).
  repeat split; try congruence. lia.
Qed.

(** A computation that issues no request and raises nothing but
    exceptions deriving from [Exception]. *)
Definition quiet {A} (m : M World A) : Prop :=
  forall w r w', m w = (r, w') ->
    sent w' = sent w /\ later w w' /\
    (forall e, r = inl e -> is_Exception e = true).

Lemma quiet_ret {A} (a : A) : quiet (ret a).
Proof.
  intros w r w' [= <- <-]. split; [reflexivity|]. split; [apply later_refl|].
  discriminate.
Qed.

Lemma quiet_bind {A B} (m : M World A) (k : A -> M World B) :
  quiet m -> (forall a, quiet (k a)) -> quiet (bind m k).
Proof.
  intros Hm Hk w r w' E. unfold bind in E.
  destruct (m w) as [[e|a] w1] eqn:E1.
  - injection E as <- <-. destruct (Hm _ _ _ E1) as (S1 & H1 & X1).
    repeat split; auto; try apply H1. intros e0 [= <-]. now apply X1.
  - destruct (Hm _ _ _ E1) as (S1 & H1 & _).
    destruct (Hk a _ _ _ E) as (S2 & H2 & X2).
    split; [congruence|]. split; [eapply later_trans; eauto | exact X2].
Qed.

Lemma quiet_lift {A} (r : exn + A) :
  (forall e, r = inl e -> is_Exception e = true) -> quiet (lift r).
Proof.
  intros H w r' w' [= <- <-]. split; [reflexivity|]. split; [apply later_refl|].
  exact H.
Qed.

Lemma quiet_time_time : quiet time_time.
Proof.
  intros w r w' [= <- <-]. split; [reflexivity|]. split; [|discriminate].
  unfold later. cbn. auto.
Qed.

Lemma quiet_sleep d : quiet (sleep d).
Proof.
  intros w r w' [= <- <-]. split; [reflexivity|]. split; [|discriminate].
  unfold later. cbn. auto.
Qed.

Lemma quiet_response_json resp :
  ordinary (Responded resp) -> quiet (response_json resp).
Proof.
  intros H. apply quiet_lift. intros e E. apply H. cbn. now rewrite E.
Qed.

(** Closes goals [quiet m] for the straight-line bodies of the scripts. *)
Ltac quiet_steps :=
  repeat first
    [ apply quiet_ret
    | apply quiet_time_time
    | apply quiet_sleep
    | apply quiet_response_json; assumption
    | apply quiet_lift; first [ apply py_get_inl' | apply py_replace_inl
                              | apply py_float_inl | apply py_in_inl
                              | apply py_getitem_inl ]
    | apply quiet_bind; [| intros ?]
    | match goal with
      | |- quiet (if ?b then _ else _) => destruct b
      | |- quiet (match ?x with _ => _ end) => destruct x
      end ].

(** One GET, then a quiet continuation: exactly one request is issued, to
    [url], and what is raised is ordinary when the reply is. *)
Lemma one_request {A} (url : string) (k : response -> M World A) w r w' :
  (forall resp, ordinary (Responded resp) -> quiet (k resp)) ->
  ordinary (reply w) ->
  bind (http_get url) k w = (r, w') ->
  sent w' = url :: sent w /\ later w w' /\
  (forall e, r = inl e -> is_Exception e = true).
Proof.
  intros Hk Ho E. unfold bind, http_get in E. fold (reply w) in E.
  destruct (reply w) as [resp|e0] eqn:R.
  - destruct (Hk resp Ho _ _ _ E) as (S1 & H1 & X1). auto.
  - injection E as <- <-. split; [reflexivity|]. split; [unfold later; cbn; auto|].
    intros e [= <-]. apply Ho. reflexivity.
Qed.

(** A computation that issues no request, whatever it returns or raises. *)
Definition silent {A} (m : M World A) : Prop :=
  forall w, sent (snd (m w)) = sent w.

Lemma silent_ret {A} (a : A) : silent (ret a).
Proof. intros w. reflexivity. Qed.

Lemma silent_lift {A} (r : exn + A) : silent (lift r).
Proof. intros w. reflexivity. Qed.

Lemma silent_time_time : silent time_time.
Proof. intros w. reflexivity. Qed.

Lemma silent_sleep d : silent (sleep d).
Proof. intros w. reflexivity. Qed.

Lemma silent_bind {A B} (m : M World A) (k : A -> M World B) :
  silent m -> (forall a, silent (k a)) -> silent (bind m k).
Proof.
  intros Hm Hk w. unfold bind. specialize (Hm w).
  destruct (m w) as [[e|a] w1]; cbn [snd] in *; [exact Hm|].
  rewrite Hk. exact Hm.
Qed.

(** Closes goals [silent m] for the straight-line bodies of the scripts. *)
Ltac silent_steps :=
  repeat first
    [ apply silent_ret
    | apply silent_time_time
    | apply silent_sleep
    | apply silent_lift
    | apply silent_bind; [| intros ?]
    | match goal with
      | |- silent (if ?b then _ else _) => destruct b
      | |- silent (match ?x with _ => _ end) => destruct x
      end ].

(** One GET between silent computations: exactly one request, to [url]. *)
Lemma one_request_sent {A} (url : string) (k : response -> M World A) w :
  (forall resp, silent (k resp)) ->
  sent (snd (bind (http_get url) k w)) = url :: sent w.
Proof.
  intros Hk. unfold bind, http_get.
  destruct (http w (length (sent w))) as [resp|e]; [|reflexivity].
  rewrite Hk. reflexivity.
Qed.

(** The world after one more reading of the clock. *)
Definition clock_read (w : World) : World :=
  mkWorld (http w) (wall w) (sent w) (S (reads w)) (slept w).

Lemma later_clock_read w : later w (clock_read w).
Proof. unfold later. cbn. auto. Qed.

(** A world in which every request is answered with HTTP status 200 and
    the body [body], and the clock reads 0, 1, 2, ... *)
Definition replies (body : json) : World :=
  mkWorld (fun _ => Responded (Response 200 "" (inr body)))
    (fun k => inject_Z (Z.of_nat k)) [] 0 [].

End NetFacts.

(** ** nasdaq_api_test.py: the quote probe *)

Module NasdaqApiFacts.
Import Py PyFacts Net JsonReading NetFacts NasdaqApiTest.

(** [status.rCode == 200] in the decoded body. *)
Definition rcode_is_200 (data : json) : bool :=
  match field_or "status" (JObj []) data with
  | Some st =>
      match field_or "rCode" JNull st with
      | Some rc => eq_int rc 200
      | None => false
      end
  | None => false
  end.

(** [data.primaryData.lastSalePrice], ["$0"] standing for a missing
    [lastSalePrice]. *)
Definition last_sale_price (data : json) : option json :=
  q ← field_or "data" (JObj []) data;
  p ← field_or "primaryData" (JObj []) q;
  field_or "lastSalePrice" (JStr "$0") p.

(** Its text with the characters ['$'] and [','] removed. *)
Definition cleaned_price (data : json) : option string :=
  match last_sale_price data with
  | Some (JStr s) => Some (remove_char "," (remove_char "$" s))
  | _ => None
  end.

(** The price that the text yields: none for the empty text, else its
    float value; undefined when [float] rejects the text. *)
Definition parsed_price (data : json) : option (option pyfloat) :=
  s ← cleaned_price data;
  if String.eqb s "" then Some None
  else match float_of_str s with
       | inr f => Some (Some f)
       | inl _ => None
       end.

Lemma test_stock_quote_try_success symbol start w r w' :
  test_stock_quote_try symbol start w = (inr r, w') ->
  success r = true ->
  exists resp data,
    reply w = Responded resp /\ status resp = 200 /\ json_body resp = inr data /\
    rcode_is_200 data = true /\ parsed_price data = Some (price r).
Proof.
  intros B S. unfold test_stock_quote_try in B.
  unfold bind at 1 in B. unfold http_get at 1 in B. fold (reply w) in B.
  destruct (reply w) as [resp|e] eqn:R; [|discriminate B].
  unfold bind at 1 in B. unfold time_time at 1 in B. cbv beta iota in B.
  cbn [wall reads http sent slept] in B.
  destruct (status resp =? 200) eqn:St; cbn [negb] in B; cbv iota in B.
  2:{ unfold ret in B. injection B as <- _. discriminate S. }
  apply Z.eqb_eq in St.
  unfold bind at 1 in B. unfold response_json, lift at 1 in B.
  destruct (json_body resp) as [e|data] eqn:J; [discriminate B|].
  cbv beta iota in B.
  run_lift B. run_lift B.
  destruct (eq_int j0 200) eqn:RC; cbn [negb] in B; cbv iota in B.
  2:{ run_lift B. unfold ret in B. injection B as <- _. discriminate S. }
  run_lift B. run_lift B. run_lift B. run_lift B. run_lift B.
  repeat match goal with
         | H : py_get _ _ _ = inr _ |- _ => apply py_get_inr in H
         | H : py_replace _ _ = inr _ |- _ =>
             apply py_replace_inr in H; destruct H as (? & -> & [= ->])
         end.
  exists resp, data. split; [reflexivity|]. split; [exact St|]. split; [exact J|].
  assert (Hp : parsed_price data = Some (price r)).
  { unfold parsed_price, cleaned_price, last_sale_price.
    repeat (match goal with H : field_or _ _ _ = Some _ |- _ => rewrite H end;
            cbn [mbind option_bind]).
    cbn [truthy] in B.
    destruct (String.eqb _ "") eqn:Em; cbn [negb] in B; cbv iota in B.
    - run_ret B. run_lift B. unfold ret in B. injection B as <- _. reflexivity.
    - unfold bind, lift, ret in B. cbn [py_float] in B.
      destruct (float_of_str _) as [e|f] eqn:Fl; [discriminate B|].
      destruct (py_get _ "companyName" _); [discriminate B|].
      injection B as <- _. reflexivity. }
  split; [|exact Hp].
  unfold rcode_is_200.
  repeat match goal with H : field_or _ _ _ = Some _ |- _ => rewrite H end.
  exact RC.
Qed.

Lemma test_stock_quote_try_good symbol start w resp data p :
  reply w = Responded resp -> status resp = 200 -> json_body resp = inr data ->
  rcode_is_200 data = true -> parsed_price data = Some p ->
  exists r w', test_stock_quote_try symbol start w = (inr r, w') /\
               success r = true /\ price r = p.
Proof.
  intros R St J RC P.
  unfold rcode_is_200 in RC.
  destruct (field_or "status" _ data) as [st|] eqn:E1; [|discriminate RC].
  destruct (field_or "rCode" _ st) as [rc|] eqn:E2; [|discriminate RC].
  unfold parsed_price, cleaned_price, last_sale_price in P.
  destruct (field_or "data" _ data) as [q|] eqn:E3; [|discriminate P].
  cbn [mbind option_bind] in P.
  destruct (field_or "primaryData" _ q) as [pd|] eqn:E4; [|discriminate P].
  cbn [mbind option_bind] in P.
  destruct (field_or "lastSalePrice" _ pd) as [[| | | |s| |]|] eqn:E5;
    try discriminate P.
  cbn [mbind option_bind] in P.
  assert (E6 : exists c, py_get q "companyName" JNull = inr c).
  { destruct q; try discriminate E4. cbn. eauto. }
  destruct E6 as [c E6].
  apply py_get_inr in E1, E2, E3, E4, E5.
  unfold test_stock_quote_try, bind, http_get, time_time, response_json, lift, ret.
  fold (reply w). rewrite R, St. change (200 =? 200) with true. cbn [negb].
  rewrite J, E1, E2, RC. cbn [negb]. rewrite E3, E4, E5. cbn [py_replace truthy].
  destruct (String.eqb _ "").
  - injection P as <-. cbn [negb]. rewrite E6. eauto.
  - cbn [negb py_float].
    destruct (float_of_str _) as [e|f]; [discriminate P|]. injection P as <-.
    rewrite E6. eauto.
Qed.

Definition quote_url (symbol : string) : string :=
  base_url +:+ "/" +:+ symbol +:+ "/info?assetclass=stocks".

Lemma test_stock_quote_try_one_request symbol start w r w' :
  ordinary (reply w) ->
  test_stock_quote_try symbol start w = (r, w') ->
  sent w' = quote_url symbol :: sent w /\ later w w' /\
  (forall e, r = inl e -> is_Exception e = true).
Proof.
  intros Ho E. unfold test_stock_quote_try in E.
  eapply one_request; [| exact Ho | exact E].
  intros resp Hresp. quiet_steps.
Qed.

Lemma test_stock_quote_unfold symbol w :
  test_stock_quote symbol w
  = match test_stock_quote_try symbol (wall w (reads w)) (clock_read w) with
    | (inr r, w') => (inr r, w')
    | (inl e, w') =>
        if is_Exception e
        then (inr (mkTestResult symbol false
                     (wall w' (reads w') - wall w (reads w))%Q
                     (Some (str_exn e)) None JNull None None),
              clock_read w')
        else (inl e, w')
    end.
Proof.
  unfold test_stock_quote, bind at 1, time_time at 1, try_except.
  fold (clock_read w).
  destruct (test_stock_quote_try _ _ _) as [[e|r] w']; [|reflexivity].
  destruct (is_Exception e); reflexivity.
Qed.

(** On an ordinary reply [test_stock_quote] returns a record, after exactly
    one request; an exception under [try:] becomes a failure record that
    carries its text. *)
Lemma test_stock_quote_returns symbol w :
  ordinary (reply w) ->
  exists r w',
    test_stock_quote symbol w = (inr r, w') /\
    sent w' = quote_url symbol :: sent w /\ later w w' /\
    forall e w2,
      test_stock_quote_try symbol (wall w (reads w)) (clock_read w) = (inl e, w2) ->
      success r = false /\ error_message r = Some (str_exn e).
Proof.
  intros Ho. rewrite test_stock_quote_unfold.
  destruct (test_stock_quote_try _ _ _) as [res w1] eqn:B.
  destruct (test_stock_quote_try_one_request symbol _ (clock_read w) _ _ Ho B)
    as (S1 & H1 & X1).
  pose proof (later_trans _ _ _ (later_clock_read w) H1) as L1.
  destruct res as [e|r].
  - rewrite (X1 e eq_refl). eexists _, _. split; [reflexivity|].
    split; [exact S1|].
    split; [exact (later_trans _ _ _ L1 (later_clock_read w1))|].
    intros e' w2 [= <- <-]. auto.
  - eexists _, _. split; [reflexivity|]. split; [exact S1|]. split; [exact L1|].
    discriminate.
Qed.


Definition quote_body (fields : list (string * json)) : json :=
  JObj [ ("data", JObj [ ("companyName", JStr "Apple Inc.");
                         ("primaryData", JObj fields) ]);
         ("status", JObj [ ("rCode", JInt 200) ]) ].



End NasdaqApiFacts.

(** ** nasdaq_load_test.py: fetches and summaries *)

Module NasdaqLoadFacts.
Import Py PyFacts Net JsonReading NetFacts NasdaqLoadTest.

Definition quote_url (symbol : string) : string :=
  base_url +:+ "/" +:+ symbol +:+ "/info?assetclass=stocks".

Lemma fetch_stock_quote_try_one_request symbol start w r w' :
  ordinary (reply w) ->
  fetch_stock_quote_try symbol start w = (r, w') ->
  sent w' = quote_url symbol :: sent w /\ later w w' /\
  (forall e, r = inl e -> is_Exception e = true).
Proof.
  intros Ho E. unfold fetch_stock_quote_try in E.
  eapply one_request; [| exact Ho | exact E].
  intros resp Hresp. quiet_steps.
Qed.

Lemma fetch_stock_quote_unfold symbol w :
  fetch_stock_quote symbol w
  = match fetch_stock_quote_try symbol (wall w (reads w)) (clock_read w) with
    | (inr r, w') => (inr r, w')
    | (inl e, w') =>
        if is_Exception e
        then (inr (mkQuoteResult symbol false
                     (wall w' (reads w') - wall w (reads w))%Q None
                     (Some (str_exn e))),
              clock_read w')
        else (inl e, w')
    end.
Proof.
  unfold fetch_stock_quote, bind at 1, time_time at 1, try_except.
  fold (clock_read w).
  destruct (fetch_stock_quote_try _ _ _) as [[e|r] w']; [|reflexivity].
  destruct (is_Exception e); reflexivity.
Qed.

(** On an ordinary reply the fetch returns a record, after exactly one
    request; an exception under [try:] becomes a failure record that
    carries its text. *)
Lemma fetch_stock_quote_returns symbol w :
  ordinary (reply w) ->
  exists r w',
    fetch_stock_quote symbol w = (inr r, w') /\
    sent w' = quote_url symbol :: sent w /\ later w w' /\
    forall e w2,
      fetch_stock_quote_try symbol (wall w (reads w)) (clock_read w) = (inl e, w2) ->
      success r = false /\ error r = Some (str_exn e).
Proof.
  intros Ho. rewrite fetch_stock_quote_unfold.
  destruct (fetch_stock_quote_try _ _ _) as [res w1] eqn:B.
  destruct (fetch_stock_quote_try_one_request symbol _ (clock_read w) _ _ Ho B)
    as (S1 & H1 & X1).
  pose proof (later_trans _ _ _ (later_clock_read w) H1) as L1.
  destruct res as [e|r].
  - rewrite (X1 e eq_refl). eexists _, _. split; [reflexivity|].
    split; [exact S1|].
    split; [exact (later_trans _ _ _ L1 (later_clock_read w1))|].
    intros e' w2 [= <- <-]. auto.
  - eexists _, _. split; [reflexivity|]. split; [exact S1|]. split; [exact L1|].
    discriminate.
Qed.

(** Every reply that the world holds is ordinary. *)
Definition all_ordinary (w : World) : Prop := forall k, ordinary (http w k).

Lemma all_ordinary_later w w' : later w w' -> all_ordinary w -> all_ordinary w'.
Proof. intros (H & _) Ho k. rewrite H. apply Ho. Qed.

Lemma as_completed_returns symbols completion : forall w,
  all_ordinary w ->
  Forall (fun i => (i < length symbols)%nat) completion ->
  exists rs w',
    as_completed symbols completion w = (inr rs, w') /\
    length rs = length completion /\ later w w'.
Proof.
  induction completion as [|i rest IH]; intros w Ho Hi.
  - exists [], w. split; [reflexivity|]. split; [reflexivity | apply later_refl].
  - inversion Hi as [|? ? Hlt Hrest]; subst.
    cbn [as_completed].
    destruct (symbols !! i) as [symbol|] eqn:L.
    2:{ apply lookup_ge_None in L. lia. }
    destruct (fetch_stock_quote_returns symbol w (Ho _)) as (r & w1 & E1 & _ & L1 & _).
    destruct (IH w1 (all_ordinary_later _ _ L1 Ho) Hrest) as (rs & w2 & E2 & Hlen & L2).
    exists (r :: rs), w2. unfold bind, fetch_stock_quote_sync. rewrite E1, E2.
    split; [reflexivity|]. split; [cbn; now f_equal | eapply later_trans; eauto].
Qed.

Lemma len_partition (l : list QuoteResult) :
  len (filter (fun r => success r = true) l)
  + len (filter (fun r => success r = false) l) = len l.
Proof.
  unfold len. induction l as [|r l IH]; [reflexivity|].
  rewrite !filter_cons. cbn [length].
  destruct (success r); repeat case_decide; try congruence; cbn [length]; lia.
Qed.

Lemma Qeq_bool_inject_Z_pos n : 0 < n -> Qeq_bool (inject_Z n) 0 = false.
Proof.
  intros H. destruct (Qeq_bool (inject_Z n) 0) eqn:E; [|reflexivity].
  apply Qeq_bool_iff in E. unfold Qeq in E. cbn in E. lia.
Qed.

(** The readings of the clock increase strictly. *)
Definition clock_advances (w : World) : Prop :=
  forall i j, (i < j)%nat -> (wall w i < wall w j)%Q.

Lemma run_concurrent_test_summary symbols max_workers completion w :
  symbols <> [] -> 0 < max_workers ->
  Permutation completion (seq 0 (length symbols)) ->
  all_ordinary w -> clock_advances w ->
  exists summary w',
    run_concurrent_test symbols max_workers completion w = (inr summary, w') /\
    total_requests summary = len symbols /\
    total_requests summary
    = successful_requests summary + failed_requests summary /\
    success_rate summary
    = (inject_Z (successful_requests summary)
       / inject_Z (total_requests summary) * 100)%Q.
Proof.
  intros Hne Hw Hp Ho Hc.
  assert (Hi : Forall (fun i => (i < length symbols)%nat) completion).
  { apply Forall_forall. intros i Hin.
    apply list_elem_of_In in Hin.
    apply (Permutation_in _ Hp), in_seq in Hin. lia. }
  unfold run_concurrent_test.
  unfold bind at 1, time_time at 1. fold (clock_read w).
  unfold bind at 1.
  destruct (max_workers <=? 0) eqn:Mw; [apply Z.leb_le in Mw; lia|].
  unfold ret at 1.
  destruct (as_completed_returns symbols completion (clock_read w)
              (all_ordinary_later _ _ (later_clock_read w) Ho) Hi)
    as (rs & w1 & E1 & Hlen & L1).
  unfold bind at 1. rewrite E1.
  unfold bind at 1, time_time at 1.
  assert (Hn : 0 < len rs).
  { unfold len. rewrite Hlen, (Permutation_length Hp), length_seq.
    destruct symbols; [congruence | cbn; lia]. }
  unfold bind at 1, lift at 1, py_div at 1.
  rewrite (Qeq_bool_inject_Z_pos _ Hn).
  unfold bind at 1, lift at 1, py_div at 1.
  destruct L1 as (_ & Hwall & Hreads). cbn [reads clock_read] in Hreads.
  assert (Ht : (wall w (reads w) < wall w1 (reads w1))%Q).
  { rewrite Hwall. cbn [wall clock_read]. apply Hc. lia. }
  destruct (Qeq_bool (wall w1 (reads w1) - wall w (reads w)) 0) eqn:Z0.
  { apply Qeq_bool_iff in Z0. lra. }
  eexists _, _. split; [reflexivity|]. cbn [total_requests successful_requests
    failed_requests success_rate].
  split; [|split; [|reflexivity]].
  - unfold len. rewrite Hlen, (Permutation_length Hp), length_seq. reflexivity.
  - symmetry. apply len_partition.
Qed.

(** Whatever the reply, the fetch issues one request; what it lets
    through is what the reply raised, when that does not derive from
    [Exception]. *)
Lemma fetch_stock_quote_outcome symbol w :
  exists res w',
    fetch_stock_quote symbol w = (res, w') /\
    sent w' = quote_url symbol :: sent w /\ later w w' /\
    forall e, res = inl e -> raised_by (reply w) = Some e /\ is_Exception e = false.
Proof.
  destruct (raised_by (reply w)) as [e|] eqn:Rb.
  2:{ destruct (fetch_stock_quote_returns symbol w) as (r & w' & E & S1 & L1 & _).
      { intros e He. rewrite Rb in He. discriminate. }
      exists (inr r), w'. split; [exact E|]. split; [exact S1|]. split; [exact L1|].
      discriminate. }
  destruct (is_Exception e) eqn:Ie.
  { destruct (fetch_stock_quote_returns symbol w) as (r & w' & E & S1 & L1 & _).
    { intros e' He. rewrite Rb in He. injection He as <-. exact Ie. }
    exists (inr r), w'. split; [exact E|]. split; [exact S1|]. split; [exact L1|].
      discriminate. }
  rewrite fetch_stock_quote_unfold.
  unfold fetch_stock_quote_try, bind at 1, http_get at 1.
  change (http (clock_read w) (length (sent (clock_read w)))) with (reply w).
  destruct (reply w) as [resp|e0] eqn:R; cbn [raised_by] in Rb.
  - destruct (json_body resp) as [e1|data] eqn:J; [|discriminate Rb].
    injection Rb as ->.
    unfold bind at 1, time_time at 1.
    destruct (status resp =? 200).
    + unfold bind at 1, response_json, lift. rewrite J, Ie.
      eexists _, _. split; [reflexivity|]. cbn [sent clock_read].
      split; [reflexivity|]. split; [unfold later; cbn; auto|].
      intros e' [= <-]. auto.
    + unfold ret. eexists _, _. split; [reflexivity|]. cbn [sent clock_read].
      split; [reflexivity|]. split; [unfold later; cbn; auto|]. discriminate.
  - injection Rb as ->. rewrite Ie.
    eexists _, _. split; [reflexivity|]. cbn [sent clock_read].
    split; [reflexivity|]. split; [unfold later; cbn; auto|].
    intros e' [= <-]. auto.
Qed.

(** No reply raises [KeyboardInterrupt]. *)
Definition uninterrupted (w : World) : Prop :=
  forall k e, raised_by (http w k) = Some e -> exn_cls e <> KeyboardInterrupt.

Lemma uninterrupted_later w w' : later w w' -> uninterrupted w -> uninterrupted w'.
Proof. intros (H & _) Hu k. rewrite H. apply Hu. Qed.

Lemma gather_returns symbols : forall w,
  uninterrupted w ->
  exists results w',
    gather symbols w = (inr results, w') /\
    length results = length symbols /\ later w w'.
Proof.
  induction symbols as [|symbol rest IH]; intros w Hu.
  - exists [], w. split; [reflexivity|]. split; [reflexivity | apply later_refl].
  - cbn [gather]. unfold bind at 1, fetch_stock_quote_async.
    destruct (fetch_stock_quote_outcome symbol w) as (res & w1 & E1 & _ & L1 & X1).
    rewrite E1.
    destruct (IH w1 (uninterrupted_later _ _ L1 Hu)) as (rs & w2 & E2 & Hlen & L2).
    destruct res as [e|d].
    + destruct (X1 e eq_refl) as [Rb _]. apply Hu in Rb.
      destruct (exn_cls e) eqn:C; try congruence;
        unfold bind; rewrite E2; eexists _, _;
        (split; [reflexivity|]); (split; [cbn; now f_equal | eapply later_trans; eauto]).
    + unfold bind. rewrite E2. eexists _, _.
      split; [reflexivity|]. split; [cbn; now f_equal | eapply later_trans; eauto].
Qed.

Lemma only_dicts_length results : (length (only_dicts results) <= length results)%nat.
Proof. induction results as [|[e|d] rest IH]; cbn; lia. Qed.

Lemma run_async_test_summary symbols concurrent_limit w :
  uninterrupted w ->
  exists summary w' gathered,
    run_async_test symbols concurrent_limit w = (inr summary, w') /\
    fst (gather symbols (clock_read w)) = inr gathered /\
    length gathered = length symbols /\
    total_requests summary = len (only_dicts gathered) /\
    total_requests summary <= len symbols /\
    total_requests summary
    = successful_requests summary + failed_requests summary /\
    success_rate summary
    = (if total_requests summary =? 0 then 0
       else inject_Z (successful_requests summary)
            / inject_Z (total_requests summary) * 100)%Q.
Proof.
  intros Hu. unfold run_async_test.
  unfold bind at 1, time_time at 1. fold (clock_read w).
  destruct (gather_returns symbols (clock_read w)
              (uninterrupted_later _ _ (later_clock_read w) Hu))
    as (gathered & w1 & E1 & Hlen & L1).
  unfold bind at 1. rewrite E1.
  unfold bind at 1, time_time at 1. unfold ret.
  eexists _, _, gathered. split; [reflexivity|]. split; [reflexivity|].
  split; [exact Hlen|].
  cbn [total_requests successful_requests failed_requests success_rate].
  split; [reflexivity|]. split.
  { unfold len. pose proof (only_dicts_length gathered). lia. }
  split; [symmetry; apply len_partition|].
  destruct (only_dicts gathered) as [|d ds]; [reflexivity|].
  unfold len at 1. cbn [length].
  destruct (Z.of_nat (S (length ds)) =? 0) eqn:Z0; [apply Z.eqb_eq in Z0; lia|].
  reflexivity.
Qed.

Lemma fetch_stock_quote_try_success symbol start w r w' :
  fetch_stock_quote_try symbol start w = (inr r, w') ->
  success r = true ->
  exists resp data s f,
    reply w = Responded resp /\ status resp = 200 /\ json_body resp = inr data /\
    NasdaqApiFacts.rcode_is_200 data = true /\ NasdaqApiFacts.cleaned_price data = Some s /\
    float_of_str s = inr f /\ price r = Some f.
Proof.
  intros B S. unfold fetch_stock_quote_try in B.
  unfold bind at 1 in B. unfold http_get at 1 in B. fold (reply w) in B.
  destruct (reply w) as [resp|e] eqn:R; [|discriminate B].
  unfold bind at 1 in B. unfold time_time at 1 in B. cbv beta iota zeta in B.
  cbn [wall reads http sent slept] in B.
  destruct (status resp =? 200) eqn:St.
  2:{ unfold ret in B. injection B as <- _. discriminate S. }
  apply Z.eqb_eq in St.
  unfold bind at 1 in B. unfold response_json, lift at 1 in B.
  destruct (json_body resp) as [e|data] eqn:J; [discriminate B|].
  cbv beta iota in B.
  run_lift B. run_lift B.
  destruct (eq_int j0 200) eqn:RC.
  2:{ unfold ret in B. injection B as <- _. discriminate S. }
  run_lift B. run_lift B. run_lift B. run_lift B. run_lift B. run_lift B.
  unfold ret in B. injection B as <- _.
  repeat match goal with
         | H : py_get _ _ _ = inr _ |- _ => apply py_get_inr in H
         | H : py_replace _ _ = inr _ |- _ =>
             apply py_replace_inr in H; destruct H as (? & -> & [= ->])
         end.
  match goal with H : py_float (JStr ?s) = inr ?f |- _ =>
    exists resp, data, s, f; cbn [py_float] in H
  end.
  split; [reflexivity|]. split; [exact St|]. split; [exact J|].
  split; [|split; [|split; [assumption | reflexivity]]].
  - unfold NasdaqApiFacts.rcode_is_200.
    repeat match goal with H : field_or _ _ _ = Some _ |- _ => rewrite H end.
    exact RC.
  - unfold NasdaqApiFacts.cleaned_price, NasdaqApiFacts.last_sale_price.
    repeat (match goal with H : field_or _ _ _ = Some _ |- _ => rewrite H end;
            cbn [mbind option_bind]).
    reflexivity.
Qed.

Lemma fetch_stock_quote_try_good symbol start w resp data s f :
  reply w = Responded resp -> status resp = 200 -> json_body resp = inr data ->
  NasdaqApiFacts.rcode_is_200 data = true -> NasdaqApiFacts.cleaned_price data = Some s ->
  float_of_str s = inr f ->
  exists r w', fetch_stock_quote_try symbol start w = (inr r, w') /\
               success r = true /\ price r = Some f.
Proof.
  intros R St J RC P F.
  unfold NasdaqApiFacts.rcode_is_200 in RC.
  destruct (field_or "status" _ data) as [st|] eqn:E1; [|discriminate RC].
  destruct (field_or "rCode" _ st) as [rc|] eqn:E2; [|discriminate RC].
  unfold NasdaqApiFacts.cleaned_price, NasdaqApiFacts.last_sale_price in P.
  destruct (field_or "data" _ data) as [q|] eqn:E3; [|discriminate P].
  cbn [mbind option_bind] in P.
  destruct (field_or "primaryData" _ q) as [pd|] eqn:E4; [|discriminate P].
  cbn [mbind option_bind] in P.
  destruct (field_or "lastSalePrice" _ pd) as [[| | | |s0| |]|] eqn:E5;
    try discriminate P.
  injection P as <-.
  apply py_get_inr in E1, E2, E3, E4, E5.
  unfold fetch_stock_quote_try, bind, http_get, time_time, response_json, lift, ret.
  fold (reply w). rewrite R, St. change (200 =? 200) with true. cbv beta iota zeta.
  rewrite J, E1, E2, RC, E3, E4, E5. cbn [py_replace py_float]. rewrite F.
  eauto.
Qed.

(** Success of [fetch_stock_quote_sync]: as for [test_stock_quote], but an
    empty price text is a failure here, [float] being applied to it. *)
Lemma fetch_stock_quote_success_iff symbol w r w' :
  fetch_stock_quote_sync symbol w = (inr r, w') ->
  (success r = true <->
   exists resp data s f,
     reply w = Responded resp /\ status resp = 200 /\
     json_body resp = inr data /\ NasdaqApiFacts.rcode_is_200 data = true /\
     NasdaqApiFacts.cleaned_price data = Some s /\ float_of_str s = inr f /\
     price r = Some f).
Proof.
  unfold fetch_stock_quote_sync. intros H. rewrite fetch_stock_quote_unfold in H.
  destruct (fetch_stock_quote_try _ _ _) as [[e|r0] w1] eqn:B.
  - destruct (is_Exception e); [|discriminate H]. injection H as <- _.
    cbn [success]. split; [discriminate|].
    intros (resp & data & s & f & R & St & J & RC & P & F & _). exfalso.
    destruct (fetch_stock_quote_try_good symbol (wall w (reads w)) (clock_read w)
                resp data s f R St J RC P F) as (r1 & w2 & B' & _).
    rewrite B in B'. discriminate B'.
  - injection H as -> ->. split.
    + intros S. exact (fetch_stock_quote_try_success _ _ _ _ _ B S).
    + intros (resp & data & s & f & R & St & J & RC & P & F & _).
      destruct (fetch_stock_quote_try_good symbol (wall w (reads w)) (clock_read w)
                  resp data s f R St J RC P F) as (r1 & w2 & B' & S1 & _).
      rewrite B in B'. injection B' as <- _. exact S1.
Qed.

End NasdaqLoadFacts.

(** ** The Alpha Vantage probes *)

Module AlphaVantageFacts.
Import Py PyFacts Net JsonReading NetFacts.
Import AlphaVantageIntegrationTest.

(** The price that a non-empty ["Global Quote"] yields: none when its
    ["05. price"] is missing or falsy, else the float value of that member;
    undefined when the quote is not an object or [float] rejects the
    member. *)
Definition quote_price (gq : json) : option (option pyfloat) :=
  match field_or "05. price" JNull gq with
  | Some p =>
      if truthy p
      then match py_float p with inr f => Some (Some f) | inl _ => None end
      else Some None
  | None => None
  end.

Lemma py_getitem_inr v k x : py_getitem v k = inr x <-> member k v = Some x.
Proof.
  destruct v; cbn; split; intros H; try discriminate H.
  - destruct (obj_lookup k kvs); [congruence | discriminate].
  - now rewrite H.
Qed.



Lemma test_global_quote_try_good url symbol w resp data gq p :
  reply w = Responded resp -> status resp = 200 -> json_body resp = inr data ->
  member "Global Quote" data = Some gq -> truthy gq = true ->
  quote_price gq = Some p ->
  exists r w', test_global_quote_try url symbol w = (inr r, w') /\
               success r = true /\ price r = p.
Proof.
  intros R St J G T P.
  assert (Hin : py_in "Global Quote" data = inr true).
  { destruct data; try discriminate G. cbn in *. rewrite G. reflexivity. }
  apply py_getitem_inr in G.
  unfold quote_price in P.
  destruct (field_or "05. price" JNull gq) as [pr|] eqn:E1; [|discriminate P].
  assert (Hget : forall k, exists x, py_get gq k JNull = inr x).
  { destruct gq; try discriminate E1. intros k. cbn. eauto. }
  apply py_get_inr in E1.
  destruct (Hget "06. volume") as [v Ev].
  destruct (Hget "09. change") as [c Ec].
  destruct (Hget "10. change percent") as [cp Ecp].
  unfold test_global_quote_try, bind, http_get, time_time, response_json, lift, ret.
  cbn [http sent]. fold (reply w). rewrite R, St. change (200 =? 200) with true.
  cbv beta iota. rewrite J. cbv beta iota. rewrite Hin. cbv beta iota.
  rewrite !G. cbv beta iota. rewrite T. cbv beta iota. rewrite E1. cbv beta iota.
  destruct (truthy pr).
  - destruct (py_float pr) as [e|f]; [discriminate P|]. injection P as <-.
    cbv beta iota. rewrite Ev. cbv beta iota. rewrite Ec. cbv beta iota.
    rewrite Ecp. eauto.
  - injection P as <-. cbv beta iota. rewrite Ev. cbv beta iota.
    rewrite Ec. cbv beta iota. rewrite Ecp. eauto.
Qed.

Lemma test_global_quote_try_one_request url symbol w r w' :
  ordinary (reply w) ->
  test_global_quote_try url symbol w = (r, w') ->
  sent w' = url :: sent w /\ later w w' /\
  (forall e, r = inl e -> is_Exception e = true).
Proof.
  intros Ho E. unfold test_global_quote_try in E.
  unfold bind at 1, time_time at 1 in E. fold (clock_read w) in E.
  assert (Ho' : ordinary (reply (clock_read w))) by exact Ho.
  assert (H : sent w' = url :: sent (clock_read w) /\ later (clock_read w) w' /\
              (forall e, r = inl e -> is_Exception e = true)).
  { eapply one_request; [| exact Ho' | exact E]. intros resp Hresp. quiet_steps. }
  destruct H as (S1 & L1 & X1).
  split; [exact S1|]. split; [|exact X1].
  exact (later_trans _ _ _ (later_clock_read w) L1).
Qed.

(** The text under which the handlers of [test_global_quote] report [e]. *)
Definition reported (e : exn) : string :=
  if is_TimeoutError e then "Request timeout (30s)"
  else "Exception: " +:+ str_exn e.

Lemma test_global_quote_unfold t symbol w :
  test_global_quote t symbol w
  = match test_global_quote_try (quote_url t "GLOBAL_QUOTE" symbol) symbol w with
    | (inr r, w') => (inr r, w')
    | (inl e, w') =>
        if is_Exception e
        then (inr (quote_failure symbol (reported e)
                     (if is_TimeoutError e then Some 30000%Q else None) None), w')
        else (inl e, w')
    end.
Proof.
  unfold test_global_quote, try_except, reported.
  destruct (test_global_quote_try _ _ _) as [[e|r] w']; [|reflexivity].
  destruct (is_Exception e); [|reflexivity].
  destruct (is_TimeoutError e); reflexivity.
Qed.

Lemma test_global_quote_returns t symbol w :
  ordinary (reply w) ->
  exists r w',
    test_global_quote t symbol w = (inr r, w') /\
    sent w' = quote_url t "GLOBAL_QUOTE" symbol :: sent w /\ later w w' /\
    forall e w2,
      test_global_quote_try (quote_url t "GLOBAL_QUOTE" symbol) symbol w = (inl e, w2) ->
      success r = false /\ error r = Some (reported e).
Proof.
  intros Ho. rewrite test_global_quote_unfold.
  destruct (test_global_quote_try _ _ _) as [res w1] eqn:B.
  destruct (test_global_quote_try_one_request _ symbol w _ _ Ho B) as (S1 & L1 & X1).
  destruct res as [e|r].
  - rewrite (X1 e eq_refl). eexists _, _. split; [reflexivity|].
    split; [exact S1|]. split; [exact L1|].
    intros e' w2 [= <- <-]. auto.
  - eexists _, _. split; [reflexivity|]. split; [exact S1|]. split; [exact L1|].
    discriminate.
Qed.

End AlphaVantageFacts.

Module AlphaVantagePerformanceFacts.
Import Py PyFacts Net JsonReading NetFacts.
Import AlphaVantagePerformanceTest.

Definition request_url (api_key symbol function : string) : string :=
  "https://www.alphavantage.co/query" +:+ "?function=" +:+ function
  +:+ "&symbol=" +:+ symbol +:+ "&apikey=" +:+ api_key.


Lemma single_request_test_unfold api_key symbol function w :
  single_request_test api_key symbol function w
  = match single_request_try (request_url api_key symbol function) symbol function
            (wall w (reads w))
            (mkWorld (http w) (wall w) (sent w) (S (reads w)) (slept w)) with
    | (inr r, w') => (inr r, w')
    | (inl e, w') =>
        if is_Exception e
        then (inr (if is_TimeoutError e
                   then mkRequestDict symbol function None (Some 30000%Q) false None
                          (Some "Timeout")
                   else mkRequestDict symbol function None None false None
                          (Some (str_exn e))), w')
        else (inl e, w')
    end.
Proof.
  unfold single_request_test, bind at 1, time_time at 1, try_except.
  fold (request_url api_key symbol function).
  destruct (single_request_try _ _ _ _ _) as [[e|r] w']; [|reflexivity].
  destruct (is_Exception e); [|reflexivity].
  destruct (is_TimeoutError e); reflexivity.
Qed.



End AlphaVantagePerformanceFacts.

Module GlobalQuoteFacts.
Import Py PyFacts Net JsonReading NetFacts.




(** A body as the endpoint sends it for a listed symbol. *)
Definition quote_with_number : json :=
  JObj [ ("Global Quote", JObj [ ("01. symbol", JStr "AAPL");
                                  ("05. price", JStr "189.8400");
                                  ("06. volume", JStr "48744366") ]) ].


End GlobalQuoteFacts.

(** ** The request budget of the Alpha Vantage run *)

Module AlphaVantageRunFacts.
Import Py PyFacts Net JsonReading NetFacts.
Import AlphaVantageIntegrationTest.

Lemma try_except_sent {A} (body : M World A) catches handler w :
  (forall e, silent (handler e)) ->
  sent (snd (try_except body catches handler w)) = sent (snd (body w)).
Proof.
  intros Hh. unfold try_except.
  destruct (body w) as [[e|a] w1]; cbn [snd]; [|reflexivity].
  destruct (catches e); cbn [snd]; [apply Hh | reflexivity].
Qed.

(** Every call of [test_global_quote] issues exactly one request. *)
Lemma test_global_quote_sent t symbol w :
  sent (snd (test_global_quote t symbol w))
  = quote_url t "GLOBAL_QUOTE" symbol :: sent w.
Proof.
  unfold test_global_quote. rewrite try_except_sent.
  2:{ intros e. destruct (is_TimeoutError e); apply silent_ret. }
  unfold test_global_quote_try, bind at 1, time_time at 1.
  rewrite one_request_sent; [reflexivity|].
  intros resp. silent_steps.
Qed.

(** Every call of [test_dividends] issues exactly one request. *)
Lemma test_dividends_sent t symbol w :
  sent (snd (test_dividends t symbol w))
  = quote_url t "DIVIDENDS" symbol :: sent w.
Proof.
  unfold test_dividends. rewrite try_except_sent.
  2:{ intros e. destruct (is_TimeoutError e); apply silent_ret. }
  unfold test_dividends_try, bind at 1, time_time at 1.
  rewrite one_request_sent; [reflexivity|].
  intros resp. silent_steps.
Qed.

(** Requests issued since the world held [n0] of them. *)
Definition issued (n0 : nat) (st : RunState) : Z :=
  Z.of_nat (length (sent (world st))) - Z.of_nat n0.

(** The limit holds: the count, every value it has taken, and the number
    of requests issued are at most [max_requests], which is 25. *)
Definition within_limit (n0 : nat) (st : RunState) : Prop :=
  max_requests (tester st) = 25 /\
  request_count (tester st) <= 25 /\
  Forall (fun n => n <= 25) (count_log st) /\
  issued n0 st <= 25.

(** Between two requests: moreover every request issued has been counted. *)
Definition counted (n0 : nat) (st : RunState) : Prop :=
  within_limit n0 st /\ issued n0 st <= request_count (tester st).

Lemma in_world_sleep_state d st :
  in_world (sleep d) st
  = (inr tt, mkRunState (tester st)
               (mkWorld (http (world st)) (wall (world st)) (sent (world st))
                  (reads (world st)) (d :: slept (world st)))
               (count_log st)).
Proof. reflexivity. Qed.




(** The bound is reached: with thirty symbols and every reply a quote, the
    run stops after the 25th request, before any dividend request. *)
Lemma run_stops_at_the_limit :
  let start :=
    mkRunState (init "KEY") (replies GlobalQuoteFacts.quote_with_number) [] in
  let finish := snd (run_comprehensive_test (replicate 30 "AAPL") start) in
  request_count (tester finish) = 25 /\
  requests_issued (world finish) = 25%nat.
Proof. split; vm_compute; reflexivity. Qed.

(** The bound rests on the count that [__init__] sets: a tester whose
    count already stands at the limit still issues the first quote
    request of a run, the quote loop testing the limit only afterwards. *)
Lemma spent_tester_issues_one_more :
  let spent := mkTester "KEY" "https://www.alphavantage.co/query" 25 25 12 in
  let start := mkRunState spent (replies GlobalQuoteFacts.quote_with_number) [] in
  let finish := snd (run_comprehensive_test ["AAPL"] start) in
  request_count (tester finish) = 26 /\
  requests_issued (world finish) = 1%nat.
Proof. split; vm_compute; reflexivity. Qed.

End AlphaVantageRunFacts.

(** ** Exceptions of the fetch functions, and the load summaries *)

Module ErrorHandlingFacts.
Import Py PyFacts Net JsonReading NetFacts.

(** C3: when the reply to the request raises nothing but an exception
    deriving from [Exception], each of [fetch_stock_quote_sync],
    [test_stock_quote] and [test_global_quote] returns a record (no
    exception leaves the call) after exactly one request; and whenever the
    statements under [try:] raise [e], the record has success false and an
    error string made from [e]. *)
Theorem fetch_functions_never_propagate (symbol : string) (w : World) :
  ordinary (reply w) ->
  (exists r w',
     NasdaqLoadTest.fetch_stock_quote_sync symbol w = (inr r, w') /\
     requests_issued w' = S (requests_issued w) /\
     forall e w2,
       NasdaqLoadTest.fetch_stock_quote_try symbol (wall w (reads w)) (clock_read w)
       = (inl e, w2) ->
       NasdaqLoadTest.success r = false /\
       NasdaqLoadTest.error r = Some (str_exn e)) /\
  (exists r w',
     NasdaqApiTest.test_stock_quote symbol w = (inr r, w') /\
     requests_issued w' = S (requests_issued w) /\
     forall e w2,
       NasdaqApiTest.test_stock_quote_try symbol (wall w (reads w)) (clock_read w)
       = (inl e, w2) ->
       NasdaqApiTest.success r = false /\
       NasdaqApiTest.error_message r = Some (str_exn e)) /\
  (forall t, exists r w',
     AlphaVantageIntegrationTest.test_global_quote t symbol w = (inr r, w') /\
     requests_issued w' = S (requests_issued w) /\
     forall e w2,
       AlphaVantageIntegrationTest.test_global_quote_try
         (AlphaVantageIntegrationTest.quote_url t "GLOBAL_QUOTE" symbol) symbol w
       = (inl e, w2) ->
       AlphaVantageIntegrationTest.success r = false /\
       AlphaVantageIntegrationTest.error r = Some (AlphaVantageFacts.reported e)).
Proof.
  intros Ho. split; [|split].
  - destruct (NasdaqLoadFacts.fetch_stock_quote_returns symbol w Ho)
      as (r & w' & E & S1 & _ & X).
    exists r, w'. split; [exact E|]. split; [|exact X].
    unfold requests_issued. now rewrite S1.
  - destruct (NasdaqApiFacts.test_stock_quote_returns symbol w Ho)
      as (r & w' & E & S1 & _ & X).
    exists r, w'. split; [exact E|]. split; [|exact X].
    unfold requests_issued. now rewrite S1.
  - intros t.
    destruct (AlphaVantageFacts.test_global_quote_returns t symbol w Ho)
      as (r & w' & E & S1 & _ & X).
    exists r, w'. split; [exact E|]. split; [|exact X].
    unfold requests_issued. now rewrite S1.
Qed.

(** A world whose first request times out. *)
Definition timing_out : World :=
  mkWorld (fun _ => Failed (Exn TimeoutError "")) (fun k => inject_Z (Z.of_nat k))
    [] 0 [].

Lemma ordinary_timing_out : ordinary (reply timing_out).
Proof. intros e [= <-]. reflexivity. Qed.

Lemma fetch_functions_never_propagate_witness :
  ordinary (reply timing_out) /\
  exists r w',
    AlphaVantageIntegrationTest.test_global_quote
      (AlphaVantageIntegrationTest.init "KEY") "AAPL" timing_out = (inr r, w') /\
    AlphaVantageIntegrationTest.success r = false /\
    AlphaVantageIntegrationTest.error r = Some "Request timeout (30s)".
Proof.
  split; [exact ordinary_timing_out|].
  destruct (fetch_functions_never_propagate "AAPL" timing_out ordinary_timing_out)
    as (_ & _ & H).
  destruct (H (AlphaVantageIntegrationTest.init "KEY")) as (r & w' & E & _ & X).
  exists r, w'. split; [exact E|].
  apply (X (Exn TimeoutError "")
           (mkWorld (http timing_out) (wall timing_out)
              [AlphaVantageIntegrationTest.quote_url
                 (AlphaVantageIntegrationTest.init "KEY") "GLOBAL_QUOTE" "AAPL"]
              1 [])).
  vm_compute. reflexivity.
Defined.

End ErrorHandlingFacts.

Module LoadSummaryFacts.
Import Py PyFacts Net JsonReading NetFacts NasdaqLoadTest NasdaqLoadFacts.

(** A world in which the first request is cancelled and the others are
    answered. *)
Definition first_cancelled : World :=
  mkWorld (fun k => match k with
                    | O => Failed (Exn CancelledError "")
                    | _ => Responded (Response 200 "" (inr (JObj [])))
                    end)
    (fun k => inject_Z (Z.of_nat k)) [] 0 [].

(** C9: for a non-empty list of symbols, a positive number of workers,
    any order of completion, replies that raise nothing but exceptions
    deriving from [Exception] and a clock that advances,
    [run_concurrent_test] returns a summary with total_requests = number of
    symbols = successful_requests + failed_requests and success_rate =
    successful_requests / total_requests * 100.  [run_async_test] returns a
    summary in which total_requests counts the gathered results that are
    dicts, is at most the number of symbols, equals successful_requests +
    failed_requests, and success_rate is the same quotient (0 when no
    result is a dict); with one of two tasks cancelled it counts 1. *)
Theorem load_test_summaries :
  (forall symbols max_workers completion w,
     symbols <> [] -> 0 < max_workers ->
     Permutation completion (seq 0 (length symbols)) ->
     all_ordinary w -> clock_advances w ->
     exists summary w',
       run_concurrent_test symbols max_workers completion w = (inr summary, w') /\
       total_requests summary = len symbols /\
       total_requests summary
       = successful_requests summary + failed_requests summary /\
       success_rate summary
       = (inject_Z (successful_requests summary)
          / inject_Z (total_requests summary) * 100)%Q) /\
  (forall symbols concurrent_limit w,
     uninterrupted w ->
     exists summary w' gathered,
       run_async_test symbols concurrent_limit w = (inr summary, w') /\
       fst (gather symbols (clock_read w)) = inr gathered /\
       length gathered = length symbols /\
       total_requests summary = len (only_dicts gathered) /\
       total_requests summary <= len symbols /\
       total_requests summary
       = successful_requests summary + failed_requests summary /\
       success_rate summary
       = (if total_requests summary =? 0 then 0
          else inject_Z (successful_requests summary)
               / inject_Z (total_requests summary) * 100)%Q) /\
  (exists summary w',
     run_async_test ["AAPL"; "MSFT"] 5 first_cancelled = (inr summary, w') /\
     total_requests summary = 1 /\ len ["AAPL"; "MSFT"] = 2).
Proof.
  split; [|split].
  - intros. now apply run_concurrent_test_summary.
  - intros. now apply run_async_test_summary.
  - eexists _, _. repeat apply conj; vm_compute; reflexivity.
Qed.

Lemma all_ordinary_replies body : all_ordinary (replies body).
Proof. intros k e. cbn. discriminate. Qed.

Lemma clock_advances_replies body : clock_advances (replies body).
Proof.
  intros i j H. cbn. rewrite <- Zlt_Qlt. lia.
Qed.

Lemma load_test_summaries_witness :
  exists summary w',
    run_concurrent_test ["AAPL"; "MSFT"; "AAPL"] 2 [2; 0; 1]%nat (replies (JObj []))
    = (inr summary, w') /\
    total_requests summary = 3 /\
    total_requests summary
    = successful_requests summary + failed_requests summary.
Proof.
  destruct load_test_summaries as [H _].
  destruct (H ["AAPL"; "MSFT"; "AAPL"] 2 [2; 0; 1]%nat (replies (JObj [])))
    as (summary & w' & E & T & P & _).
  - discriminate.
  - reflexivity.
  - change (seq 0 (length ["AAPL"; "MSFT"; "AAPL"])) with [0; 1; 2]%nat.
    apply perm_trans with [0; 2; 1]%nat; [apply perm_swap|].
    apply perm_skip, perm_swap.
  - apply all_ordinary_replies.
  - apply clock_advances_replies.
  - exists summary, w'. auto.
Defined.

End LoadSummaryFacts.

(** ** What the scripts do *)

Module ScriptFacts.
Import Scripts.



(** [all_scripts] lists every script; eight of them request, eight write. *)
Lemma all_scripts_complete (s : script) : In s all_scripts.
Proof. destruct s; cbn; tauto. Qed.

Lemma script_counts :
  length all_scripts = 10%nat /\
  length (List.filter issues_requests all_scripts) = 8%nat /\
  length (List.filter opens_session all_scripts) = 7%nat /\
  length (List.filter measures_latency all_scripts) = 5%nat /\
  length (List.filter writes_file all_scripts) = 8%nat.
Proof. repeat split. Qed.


End ScriptFacts.

(** ** ios_app_simulation_test.py: the cache over time and the simulated calls *)

Module IosCallFacts.
Import Py PyFacts IosAppSimulationTest IosCacheFacts IosFailoverFacts RoundingFacts.
Import IosDataFacts IosAppSimulationSuite.

(** *** The cache over time *)

(** The simulator when [datetime.now()] has come to read [t]. *)
Definition at_time (t : Z) (s : Simulator) : Simulator :=
  mkSimulator (providers s) (provider_stats s) (memory_cache s) (disk_cache s)
    (core_data_records s) (rng s) t (slept s).

(** The life of an entry, in microseconds: five minutes in the memory
    cache, sixty in the other one. *)
Definition time_to_live (cache_type : string) : Z :=
  (if String.eqb cache_type "memory" then 5 else 60) * 60000000.

Lemma cache_of_at_time cache_type t s :
  cache_of cache_type (at_time t s) = cache_of cache_type s.
Proof. unfold cache_of. destruct (String.eqb _ _); reflexivity. Qed.

Lemma other_cache_at_time cache_type t s :
  other_cache cache_type (at_time t s) = other_cache cache_type s.
Proof. unfold other_cache. destruct (String.eqb _ _); reflexivity. Qed.

(** X1: an entry stored with [store_in_cache] is served by [check_cache],
    asked for the same symbol in the same cache, until its time to live
    has passed: five minutes in the memory cache, sixty in the other one.
    When [datetime.now()] reads [t] at the check and [t] is before the
    time of the storing plus the time to live, the stored list comes back
    and the entry counts one hit; from that time on the check returns
    [None] and deletes the entry.  Other symbols and the other cache are
    as they were before the storing. *)
Theorem stored_entry_served_until_expiry (symbol : string)
        (prices : list HistoricalPrice) (cache_type : string) (s : Simulator) (t : Z) :
  let expires := clock s + time_to_live cache_type in
  let stored := at_time t (store_in_cache symbol prices cache_type s) in
  let r := fst (check_cache symbol cache_type stored) in
  let s' := snd (check_cache symbol cache_type stored) in
  (t < expires ->
   r = Some prices /\
   cache_of cache_type s' !! symbol
   = Some (mkCacheEntry symbol prices (clock s) expires 1)) /\
  (expires <= t -> r = None /\ cache_of cache_type s' !! symbol = None) /\
  (forall k, k <> symbol ->
     cache_of cache_type s' !! k = cache_of cache_type s !! k) /\
  other_cache cache_type s' = other_cache cache_type s.
Proof.
  cbv zeta. unfold check_cache, store_in_cache, time_to_live.
  rewrite cache_of_at_time, cache_of_set_cache, lookup_insert_eq.
  cbn [expiry data entry_symbol timestamp hit_count].
  change (clock (at_time t _)) with t.
  destruct (t <? clock s + (if String.eqb cache_type "memory" then 5 else 60) * 60000000)
    eqn:L; cbn [fst snd]; rewrite cache_of_set_cache, other_cache_set_cache,
      other_cache_at_time, other_cache_set_cache.
  - apply Z.ltb_lt in L. repeat apply conj.
    + intros _. split; [reflexivity|]. rewrite lookup_insert_eq. reflexivity.
    + intros H. lia.
    + intros k Hk. rewrite !lookup_insert_ne by congruence. reflexivity.
    + reflexivity.
  - apply Z.ltb_ge in L. repeat apply conj.
    + intros H. lia.
    + intros _. split; [reflexivity|]. apply lookup_delete_eq.
    + intros k Hk. rewrite lookup_delete_ne, lookup_insert_ne by congruence.
      reflexivity.
    + reflexivity.
Qed.

(** *** What the simulated calls change *)

(** Nothing but the position of the random generator has changed. *)
Definition drew (s s' : Simulator) : Prop :=
  providers s' = providers s /\ provider_stats s' = provider_stats s /\
  memory_cache s' = memory_cache s /\ disk_cache s' = disk_cache s /\
  core_data_records s' = core_data_records s /\ clock s' = clock s /\
  slept s' = slept s /\
  unit_draws (rng s') = unit_draws (rng s) /\
  int_draws (rng s') = int_draws (rng s).

Lemma drew_refl s : drew s s.
Proof. unfold drew. repeat apply conj; reflexivity. Qed.

Lemma drew_trans s1 s2 s3 : drew s1 s2 -> drew s2 s3 -> drew s1 s3.
Proof. unfold drew. intuition congruence. Qed.

Lemma drew_frame s s' : drew s s' -> frame s s'.
Proof.
  intros (A & B & _ & _ & _ & C & _ & D & _). unfold frame.
  rewrite A, B, C, D. auto.
Qed.

Lemma random_drew s :
  random s = (inr (unit_draws (rng s) (units_used (rng s))), snd (random s)) /\
  drew s (snd (random s)) /\
  units_used (rng (snd (random s))) = S (units_used (rng s)) /\
  ints_used (rng (snd (random s))) = ints_used (rng s).
Proof. unfold drew. cbn. repeat apply conj; reflexivity. Qed.

Lemma uniform_drew a b s :
  exists s',
    uniform a b s = (inr (a + (b - a) * unit_draws (rng s) (units_used (rng s)))%Q, s') /\
    drew s s' /\
    units_used (rng s') = S (units_used (rng s)) /\
    ints_used (rng s') = ints_used (rng s).
Proof. eexists. unfold drew. cbn. repeat apply conj; reflexivity. Qed.

Lemma randint_drew a b s :
  exists s',
    randint a b s = (inr (a + int_draws (rng s) (ints_used (rng s)) mod (b - a + 1)), s') /\
    drew s s' /\
    units_used (rng s') = units_used (rng s) /\
    ints_used (rng s') = S (ints_used (rng s)).
Proof. eexists. unfold drew. cbn. repeat apply conj; reflexivity. Qed.

(** What every generated record carries, whatever the draws. *)
Definition labelled (sym prov : string) (p : HistoricalPrice) : Prop :=
  symbol p = sym /\ data_source p = prov /\ 1000000 <= volume p <= 50000000.

Lemma date_of_day now k :
  (now - k * microseconds_per_day) / microseconds_per_day
  = now / microseconds_per_day - k.
Proof.
  replace (now - k * microseconds_per_day) with (now + (- k) * microseconds_per_day)
    by lia.
  rewrite Z.div_add by discriminate. lia.
Qed.

Lemma generate_days_records n : forall i days base sym prov s,
  exists l s',
    generate_days n i days base sym prov s = (inr l, s') /\ drew s s' /\
    units_used (rng s') = (units_used (rng s) + 5 * n)%nat /\
    ints_used (rng s') = (ints_used (rng s) + n)%nat /\
    length l = n /\
    forall k p, l !! k = Some p ->
      labelled sym prov p /\
      date p = clock s / microseconds_per_day - (days - (i + Z.of_nat k) - 1).
Proof.
  induction n as [|n IH]; intros i days base sym prov s.
  - exists [], s. split; [reflexivity|]. split; [apply drew_refl|].
    split; [lia|]. split; [lia|]. split; [reflexivity|].
    intros k p H. discriminate H.
  - cbn [generate_days]. unfold bind at 1. unfold datetime_now at 1.
    unfold bind at 1.
    destruct (uniform_drew (-(5 # 100)) (5 # 100) s) as (s1 & E1 & D1 & U1 & I1).
    rewrite E1. unfold bind at 1.
    destruct (uniform_drew (98 # 100) (102 # 100) s1) as (s2 & E2 & D2 & U2 & I2).
    rewrite E2. unfold bind at 1.
    destruct (uniform_drew (98 # 100) (102 # 100) s2) as (s3 & E3 & D3 & U3 & I3).
    rewrite E3. unfold bind at 1.
    destruct (uniform_drew 1 (103 # 100) s3) as (s4 & E4 & D4 & U4 & I4).
    rewrite E4. unfold bind at 1.
    destruct (uniform_drew (97 # 100) 1 s4) as (s5 & E5 & D5 & U5 & I5).
    rewrite E5. unfold bind at 1.
    destruct (randint_drew 1000000 50000000 s5) as (s6 & E6 & D6 & U6 & I6).
    rewrite E6. unfold bind at 1.
    match goal with
    | |- context [generate_days n ?i' days ?b sym prov s6] =>
        destruct (IH i' days b sym prov s6) as (l & s7 & E7 & D7 & U7 & I7 & Hlen & Hl)
    end.
    rewrite E7. unfold ret. eexists _, s7. split; [reflexivity|].
    assert (D06 : drew s s6) by eauto 10 using drew_trans.
    split; [eapply drew_trans; eassumption|].
    split; [lia|]. split; [lia|]. split; [cbn; f_equal; exact Hlen|].
    intros [|k] p Hp.
    + injection Hp as <-. unfold labelled. cbn.
      split.
      * split; [reflexivity|]. split; [reflexivity|].
        pose proof (Z.mod_pos_bound (int_draws (rng s5) (ints_used (rng s5)))
                      (50000000 - 1000000 + 1) ltac:(lia)). lia.
      * rewrite date_of_day. lia.
    + cbn in Hp. destruct (Hl k p Hp) as [L Dt]. split; [exact L|].
      rewrite Dt. destruct D06 as (_ & _ & _ & _ & _ & C & _). rewrite C. lia.
Qed.

(** The generated list: one record a day, the last one dated today. *)
Lemma generate_historical_data_records sym days prov s :
  exists l s',
    generate_historical_data sym days prov s = (inr l, s') /\ drew s s' /\
    units_used (rng s') = (units_used (rng s) + 1 + 5 * Z.to_nat days)%nat /\
    ints_used (rng s') = (ints_used (rng s) + Z.to_nat days)%nat /\
    length l = Z.to_nat days /\
    forall k p, l !! k = Some p ->
      labelled sym prov p /\
      date p = clock s / microseconds_per_day - (days - Z.of_nat k - 1).
Proof.
  unfold generate_historical_data. unfold bind at 1.
  destruct (uniform_drew 50 300 s) as (s1 & E1 & D1 & U1 & I1). rewrite E1.
  match goal with
  | |- context [generate_days ?n 0 days ?b sym prov s1] =>
      destruct (generate_days_records n 0 days b sym prov s1)
        as (l & s2 & E2 & D2 & U2 & I2 & Hlen & Hl)
  end.
  exists l, s2. split; [exact E2|]. split; [eapply drew_trans; eassumption|].
  split; [lia|]. split; [lia|]. split; [exact Hlen|].
  intros k p Hp. destruct (Hl k p Hp) as [L Dt]. split; [exact L|].
  rewrite Dt. destruct D1 as (_ & _ & _ & _ & _ & C & _). rewrite C. lia.
Qed.


Lemma generated_prices_valid sym days prov s l s' :
  unit_range (rng s) -> days <= 178 ->
  generate_historical_data sym days prov s = (inr l, s') ->
  Forall (fun p => is_valid p = true) l.
Proof.
  intros Hr Hd E. unfold generate_historical_data, bind in E.
  destruct (uniform_range 50 300 s Hr) as (base & s1 & E1 & F1 & L1 & U1);
    [apply Qle_bool_imp_le; reflexivity|].
  rewrite E1 in E.
  destruct (generate_days_prices (Z.to_nat days) 0 days base sym prov s1 50
              (unit_range_frame _ _ F1 Hr)) as (l' & s2 & E2 & F2 & Hlen & Hord & Hval);
    [reflexivity | exact L1 |].
  rewrite E2 in E. injection E as <- <-. apply Hval.
  assert (Hn : (Z.to_nat days <= 178)%nat) by lia.
  pose proof (decay_antitone _ _ Hn) as Ha. pose proof decay_178 as Hb.
  eapply Qlt_le_trans; [exact Hb|].
  apply Qmult_le_compat_r; [|discriminate].
  apply Qmult_le_l; [reflexivity | exact Ha].
Qed.

(** The rate-limit test of [simulate_api_call] on the statistics [st]. *)
Definition limited (st : ProviderStats) (c : ProviderConfig) : bool :=
  (total_requests st mod rate_limit_threshold c =? 0) && (0 <? total_requests st).

(** The statistics after one more rate-limit hit. *)
Definition hit_limit (st : ProviderStats) : ProviderStats :=
  mkProviderStats (name st) (total_requests st) (successful_requests st)
    (failed_requests st) (total_response_time st) (rate_limit_hits st + 1).

(** The provider has the configuration [c], with a rate-limit threshold
    other than zero, and the statistics [st]. *)
Definition known (provider : string) (s : Simulator) (c : ProviderConfig)
           (st : ProviderStats) : Prop :=
  (exists i n, list_find (fun p => fst p = provider) (providers s) = Some (i, (n, c))) /\
  provider_stats s !! provider = Some st /\
  rate_limit_threshold c <> 0.

Lemma callable_known provider s :
  callable provider s <-> exists c st, known provider s c st.
Proof.
  split.
  - intros (i & n & c & A & B & [st C]). exists c, st. unfold known. eauto.
  - intros (c & st & (i & n & A) & B & C). exists i, n, c. eauto.
Qed.

(** The outcome of a simulated call, from the statistics, the
    configuration and the draw [u] of [random_factor]. *)
Definition simulated (st : ProviderStats) (c : ProviderConfig) (u : Q) : TestOutcome :=
  if limited st c then RATE_LIMITED
  else if Qltb u (1 - base_success_rate c) then FAILURE
  else if Qltb (98 # 100) u then TIMEOUT
  else SUCCESS.

(** The provider table, the caches, the record count, the clock and the
    draws to come are as they were. *)
Definition settled (s s' : Simulator) : Prop :=
  providers s' = providers s /\ memory_cache s' = memory_cache s /\
  disk_cache s' = disk_cache s /\ core_data_records s' = core_data_records s /\
  clock s' = clock s /\
  unit_draws (rng s') = unit_draws (rng s) /\
  int_draws (rng s') = int_draws (rng s).

Lemma settled_refl s : settled s s.
Proof. unfold settled. repeat apply conj; reflexivity. Qed.

Lemma settled_trans s1 s2 s3 : settled s1 s2 -> settled s2 s3 -> settled s1 s3.
Proof. unfold settled. intuition congruence. Qed.

Lemma drew_settled s s' : drew s s' -> settled s s'.
Proof. unfold drew, settled. intuition. Qed.

Lemma update_stats_known provider f s st :
  provider_stats s !! provider = Some st ->
  update_stats provider f s
  = (inr tt, set_stats (<[provider := f st]> (provider_stats s)) s).
Proof. intros E. unfold update_stats, bind, stats_of, modify. rewrite E. reflexivity. Qed.

Lemma settled_set_stats m s : settled s (set_stats m s).
Proof. unfold settled. cbn. repeat apply conj; reflexivity. Qed.

(** What a simulated call returns and changes. *)
Lemma simulate_api_call_cases provider sym days s c st :
  known provider s c st ->
  let u1 := unit_draws (rng s) (units_used (rng s)) in
  let u2 := unit_draws (rng s) (S (units_used (rng s))) in
  let a := avg_response_time c in
  let t := (a * (1 # 2) + (a * (3 # 2) - a * (1 # 2)) * u1)%Q in
  let o := simulated st c u2 in
  exists d s',
    simulate_api_call provider sym days s
    = (inr (o, d, if is_TIMEOUT o then 30%Q else t), s') /\
    settled s s' /\ slept s' = slept s /\
    provider_stats s'
    = (if limited st c then <[provider := hit_limit st]> (provider_stats s)
       else provider_stats s) /\
    (if is_SUCCESS o
     then length d = Z.to_nat days /\
          (forall k p, d !! k = Some p ->
             labelled sym provider p /\
             date p = clock s / microseconds_per_day - (days - Z.of_nat k - 1)) /\
          (unit_range (rng s) -> days <= 178 -> Forall (fun p => is_valid p = true) d)
     else d = []).
Proof.
  intros ((i & n & C1) & C3 & C2). cbv zeta.
  unfold simulate_api_call.
  unfold bind at 1. unfold config_of. rewrite C1.
  unfold bind at 1. unfold stats_of. rewrite C3.
  unfold bind at 1.
  destruct (uniform_drew (avg_response_time c * (1 # 2)) (avg_response_time c * (3 # 2)) s)
    as (s1 & E1 & D1 & U1 & I1). rewrite E1.
  unfold bind at 1.
  destruct (random_drew s1) as (E2 & D2 & U2 & I2). rewrite E2.
  set (s2 := snd (random s1)) in *.
  assert (D12 : drew s s2) by (eapply drew_trans; eassumption).
  assert (Hu2 : unit_draws (rng s1) (units_used (rng s1))
                = unit_draws (rng s) (S (units_used (rng s)))).
  { destruct D1 as (_ & _ & _ & _ & _ & _ & _ & Eu & _). rewrite Eu, U1. reflexivity. }
  rewrite Hu2.
  unfold bind at 1. unfold lift, py_mod.
  destruct (rate_limit_threshold c =? 0) eqn:T; [apply Z.eqb_eq in T; contradiction|].
  unfold simulated, limited.
  destruct ((total_requests st mod rate_limit_threshold c =? 0) && (0 <? total_requests st)).
  - unfold bind.
    rewrite (update_stats_known provider _ s2 st).
    2:{ destruct D12 as (_ & B & _). rewrite B. exact C3. }
    unfold ret. cbn [is_TIMEOUT is_SUCCESS]. eexists _, _. split; [reflexivity|].
    split; [eapply settled_trans; [apply drew_settled; exact D12 | apply settled_set_stats]|].
    destruct D12 as (_ & B & _ & _ & _ & _ & Sl & _).
    split; [exact Sl|].
    split; [unfold set_stats; cbn [provider_stats]; rewrite B; reflexivity | reflexivity].
  - destruct (Qltb _ (1 - base_success_rate c)).
    { unfold ret. cbn [is_TIMEOUT is_SUCCESS]. eexists _, _. split; [reflexivity|].
      split; [apply drew_settled; exact D12|].
      destruct D12 as (_ & B & _ & _ & _ & _ & Sl & _). auto. }
    destruct (Qltb (98 # 100) _).
    { unfold ret. cbn [is_TIMEOUT is_SUCCESS]. eexists _, _. split; [reflexivity|].
      split; [apply drew_settled; exact D12|].
      destruct D12 as (_ & B & _ & _ & _ & _ & Sl & _). auto. }
    unfold bind.
    destruct (generate_historical_data_records sym days provider s2)
      as (d & s3 & E3 & D3 & _ & _ & Hlen & Hl).
    rewrite E3. unfold ret. cbn [is_TIMEOUT is_SUCCESS].
    exists d, s3. split; [reflexivity|].
    assert (D13 : drew s s3) by (eapply drew_trans; eassumption).
    split; [apply drew_settled; exact D13|].
    destruct D13 as (_ & B & _ & _ & _ & _ & Sl & _).
    split; [exact Sl|]. split; [exact B|]. split; [exact Hlen|]. split.
    + intros k p Hp. destruct (Hl k p Hp) as [L Dt]. split; [exact L|].
      rewrite Dt. destruct D12 as (_ & _ & _ & _ & _ & C & _). rewrite C. reflexivity.
    + intros Hr Hd. eapply generated_prices_valid; [| exact Hd | exact E3].
      eapply unit_range_frame; [apply drew_frame; exact D12 | exact Hr].
Qed.


(** The statistics after the loop of [fetch_with_failover] has counted an
    attempt with outcome [o] that took [t]. *)
Definition tallied (o : TestOutcome) (t : Q) (st : ProviderStats) : ProviderStats :=
  if is_SUCCESS o
  then mkProviderStats (name st) (total_requests st + 1) (successful_requests st + 1)
         (failed_requests st) (total_response_time st + t)%Q (rate_limit_hits st)
  else mkProviderStats (name st) (total_requests st + 1) (successful_requests st)
         (failed_requests st + 1) (total_response_time st + t)%Q (rate_limit_hits st).

(** One turn of the loop of [fetch_with_failover]. *)
Lemma attempt_cases provider sym days s c st :
  known provider s c st ->
  exists o d t s1 s',
    simulate_api_call provider sym days s = (inr (o, d, t), s1) /\
    attempt provider sym days s = (inr (o, d, t), s') /\
    o = simulated st c (unit_draws (rng s) (S (units_used (rng s)))) /\
    settled s s' /\
    provider_stats s'
    = <[provider := tallied o t (if limited st c then hit_limit st else st)]>
        (provider_stats s).
Proof.
  intros K. destruct (simulate_api_call_cases provider sym days s c st K)
    as (d & s1 & E1 & S1 & _ & P1 & _).
  cbv zeta in E1.
  set (o := simulated st c (unit_draws (rng s) (S (units_used (rng s))))) in *.
  match type of E1 with _ = (inr (_, _, ?t0), _) => set (t := t0) in * end.
  exists o, d, t, s1.
  set (st1 := if limited st c then hit_limit st else st).
  assert (L1 : provider_stats s1 !! provider = Some st1).
  { rewrite P1. unfold st1. destruct (limited st c).
    - apply lookup_insert_eq.
    - apply K. }
  assert (M1 : forall x, <[provider := x]> (provider_stats s1)
                         = <[provider := x]> (provider_stats s)).
  { intros x. rewrite P1. destruct (limited st c); [apply insert_insert_eq | reflexivity]. }
  unfold attempt. unfold bind at 1. rewrite E1.
  unfold bind at 1. rewrite (update_stats_known _ _ _ _ L1).
  match goal with
  | |- context [set_stats (<[provider := ?x]> _) s1] => set (sta := x)
  end.
  set (s2 := set_stats (<[provider := sta]> (provider_stats s1)) s1).
  assert (L2 : provider_stats s2 !! provider = Some sta) by apply lookup_insert_eq.
  unfold bind at 1. unfold tallied.
  destruct (is_SUCCESS o) eqn:So.
  - rewrite (update_stats_known _ _ _ _ L2). unfold ret.
    eexists. split; [reflexivity|]. split; [reflexivity|]. split; [reflexivity|].
    split.
    + eapply settled_trans; [exact S1|].
      eapply settled_trans; apply settled_set_stats.
    + unfold set_stats at 1. cbn [provider_stats]. unfold s2, set_stats at 1.
      cbn [provider_stats]. rewrite insert_insert_eq, M1. reflexivity.
  - unfold bind at 1. rewrite (update_stats_known _ _ _ _ L2).
    destruct (is_RATE_LIMITED o).
    + unfold sleep, ret. eexists. split; [reflexivity|]. split; [reflexivity|].
      split; [reflexivity|]. split.
      * unfold settled in *. cbn. exact S1.
      * cbn [provider_stats]. unfold set_stats at 1. cbn [provider_stats].
        unfold s2, set_stats at 1. cbn [provider_stats].
        rewrite insert_insert_eq, M1. reflexivity.
    + unfold ret. eexists. split; [reflexivity|]. split; [reflexivity|].
      split; [reflexivity|]. split.
      * eapply settled_trans; [exact S1|].
        eapply settled_trans; apply settled_set_stats.
      * unfold set_stats at 1. cbn [provider_stats]. unfold s2, set_stats at 1.
        cbn [provider_stats]. rewrite insert_insert_eq, M1. reflexivity.
Qed.

(** The counters of a provider add up. *)
Definition sane (st : ProviderStats) : Prop :=
  0 <= successful_requests st /\ 0 <= failed_requests st /\
  total_requests st = successful_requests st + failed_requests st.

Definition all_sane (s : Simulator) : Prop :=
  forall p st, provider_stats s !! p = Some st -> sane st.

Lemma sane_tallied o t st limit :
  sane st -> sane (tallied o t (if limit : bool then hit_limit st else st)).
Proof.
  unfold sane, tallied. intros (A & B & C).
  destruct limit, (is_SUCCESS o); cbn; lia.
Qed.

Lemma callable_kept provider s s' :
  providers s' = providers s ->
  (forall q, is_Some (provider_stats s !! q) -> is_Some (provider_stats s' !! q)) ->
  callable provider s -> callable provider s'.
Proof.
  intros A B (i & n & c & C1 & C2 & C3). exists i, n, c.
  rewrite A. auto.
Qed.

(** The loop of [fetch_with_failover], over providers that can be called. *)
Lemma failover_loop_spec todo : forall sym days last s,
  Forall (fun p => callable (fst p) s) todo ->
  (todo = [] -> is_Some last) ->
  exists r s',
    failover_loop todo sym days last s = (inr r, s') /\ settled s s' /\
    (forall q, is_Some (provider_stats s !! q) -> is_Some (provider_stats s' !! q)) /\
    (forall q, q ∉ map fst todo -> provider_stats s' !! q = provider_stats s !! q) /\
    (all_sane s -> all_sane s').
Proof.
  induction todo as [|[p cfg] rest IH]; intros sym days last s Hc Hl.
  - destruct (Hl eq_refl) as [t ->]. cbn. unfold ret. eexists _, s.
    split; [reflexivity|]. split; [apply settled_refl|]. auto.
  - inversion Hc as [|? ? Hp Hrest]; subst. cbn [fst] in Hp.
    apply callable_known in Hp. destruct Hp as (c & st & K).
    destruct (attempt_cases p sym days s c st K)
      as (o & d & t & s0 & s1 & _ & E1 & _ & S1 & P1).
    cbn [failover_loop]. unfold bind at 1. rewrite E1.
    assert (Dom : forall q, is_Some (provider_stats s !! q) ->
                            is_Some (provider_stats s1 !! q)).
    { intros q Hq. rewrite P1. destruct (decide (p = q)) as [->|N].
      - rewrite lookup_insert_eq. eauto.
      - rewrite lookup_insert_ne by exact N. exact Hq. }
    assert (Oth : forall q, q ∉ map fst ((p, cfg) :: rest) ->
                            provider_stats s1 !! q = provider_stats s !! q).
    { intros q Hq. rewrite P1. apply lookup_insert_ne. intros ->. apply Hq.
      cbn. left. }
    assert (San : all_sane s -> all_sane s1).
    { intros Hs q stq. rewrite P1. destruct (decide (p = q)) as [->|N].
      - rewrite lookup_insert_eq. intros [= <-]. apply sane_tallied.
        apply (Hs q). apply K.
      - rewrite lookup_insert_ne by exact N. apply Hs. }
    destruct (is_SUCCESS o).
    + unfold ret. eexists _, s1. split; [reflexivity|]. auto.
    + destruct (IH sym days (Some t) s1) as (r & s2 & E2 & S2 & Dom2 & Oth2 & San2).
      * eapply Forall_impl; [exact Hrest|]. intros x Hx.
        eapply callable_kept; [apply S1 | exact Dom | exact Hx].
      * intros _. eauto.
      * exists r, s2. split; [exact E2|].
        split; [eapply settled_trans; eassumption|].
        split; [auto|]. split; [|auto].
        intros q Hq. rewrite Oth2, Oth; auto.
        intros Hin. apply Hq. cbn. right. exact Hin.
Qed.

Lemma configured_callable s :
  configured s -> Forall (fun p => callable (fst p) s) (sorted_providers (providers s)).
Proof.
  intros Hc. destruct (configured_sorted s Hc) as (c1 & c2 & c3 & E & -> & K1 & K2 & K3).
  rewrite E. repeat constructor; assumption.
Qed.

Lemma fetch_with_failover_spec sym days s :
  configured s ->
  exists r s',
    fetch_with_failover sym days s = (inr r, s') /\ settled s s' /\
    (forall q, is_Some (provider_stats s !! q) -> is_Some (provider_stats s' !! q)) /\
    (all_sane s -> all_sane s').
Proof.
  intros Hc. unfold fetch_with_failover.
  destruct (failover_loop_spec (sorted_providers (providers s)) sym days None s
              (configured_callable s Hc)) as (r & s' & E & S & D & _ & Sa).
  - intros E. destruct (configured_sorted s Hc) as (c1 & c2 & c3 & E1 & E2 & _).
    rewrite E2, E1 in E. discriminate E.
  - exists r, s'. auto.
Qed.

Local Open Scope Q_scope.

Lemma success_rate_range st :
  sane st -> 0 <= ProviderStats_success_rate st /\ ProviderStats_success_rate st <= 100.
Proof.
  intros (A & B & C). unfold ProviderStats_success_rate.
  destruct (0 <? total_requests st)%Z eqn:T; [|split; discriminate].
  apply Z.ltb_lt in T.
  assert (H0 : 0 <= inject_Z (successful_requests st)).
  { change 0 with (inject_Z 0). rewrite <- Zle_Qle. exact A. }
  assert (H1 : 0 < inject_Z (total_requests st)).
  { change 0 with (inject_Z 0). rewrite <- Zlt_Qlt. exact T. }
  assert (H2 : inject_Z (successful_requests st) <= inject_Z (total_requests st)).
  { rewrite <- Zle_Qle. lia. }
  assert (H3 : 0 <= inject_Z (successful_requests st) / inject_Z (total_requests st)).
  { apply Qle_shift_div_l; [exact H1|]. lra. }
  assert (H4 : inject_Z (successful_requests st) / inject_Z (total_requests st) <= 1).
  { apply Qle_shift_div_r; [exact H1|]. lra. }
  split; lra.
Qed.

Local Close Scope Q_scope.


Lemma callable_demo provider :
  In provider ["Yahoo Finance"; "EODHD"; "Finnhub"] -> callable provider demo_simulator.
Proof.
  destruct (configured_sorted _ (configured_init (mkRng (fun _ => 1 # 2)%Q (fun _ => 0) 0 0)
                                   1700000000000000))
    as (c1 & c2 & c3 & _ & _ & K1 & K2 & K3).
  intros [<- | [<- | [<- | []]]]; assumption.
Qed.

(** X2: a simulated call on a provider that can be called returns; it
    hands back data only with the outcome SUCCESS, and then one record for
    each of the [days] asked for, every record carrying the symbol and the
    provider of the call and a volume between 1,000,000 and 50,000,000.
    With any other outcome the data list is empty. *)
Theorem simulated_data_only_on_success (provider sym : string) (days : Z)
        (s : Simulator) :
  callable provider s ->
  exists o d t s',
    simulate_api_call provider sym days s = (inr (o, d, t), s') /\
    (o = SUCCESS ->
     length d = Z.to_nat days /\ Forall (labelled sym provider) d) /\
    (o <> SUCCESS -> d = []).
Proof.
  intros Hc. apply callable_known in Hc. destruct Hc as (c & st & K).
  destruct (simulate_api_call_cases provider sym days s c st K)
    as (d & s' & E & _ & _ & _ & Hd).
  cbv zeta in E, Hd. eexists _, d, _, s'. split; [exact E|].
  destruct (simulated st c _); cbn [is_SUCCESS] in Hd.
  - destruct Hd as (Hlen & Hl & _). split; [|congruence].
    intros _. split; [exact Hlen|].
    apply Forall_lookup. intros k p Hp. apply (Hl k p Hp).
  - split; [discriminate | auto].
  - split; [discriminate | auto].
  - split; [discriminate | auto].
Qed.

Lemma simulated_data_only_on_success_witness :
  exists o d t s',
    simulate_api_call "EODHD" "MSFT" 7 demo_simulator = (inr (o, d, t), s') /\
    (o = SUCCESS -> length d = 7%nat /\ Forall (labelled "MSFT" "EODHD") d) /\
    (o <> SUCCESS -> d = []).
Proof.
  apply (simulated_data_only_on_success "EODHD" "MSFT" 7 demo_simulator).
  apply callable_demo. cbn. auto.
Defined.

(** X3: a simulated call is rate limited exactly when the provider's
    [total_requests] is a positive multiple of its rate-limit threshold,
    whatever the draws.  It then returns no data and counts one more
    rate-limit hit, leaving the other counters alone; a call that is not
    rate limited leaves the statistics of every provider as they were. *)
Theorem simulated_call_rate_limited_iff (provider sym : string) (days : Z)
        (s : Simulator) (c : ProviderConfig) (st : ProviderStats) :
  known provider s c st ->
  exists o d t s',
    simulate_api_call provider sym days s = (inr (o, d, t), s') /\
    (o = RATE_LIMITED <->
     0 < total_requests st /\ total_requests st mod rate_limit_threshold c = 0) /\
    (o = RATE_LIMITED ->
     d = [] /\
     provider_stats s' = <[provider := hit_limit st]> (provider_stats s)) /\
    (o <> RATE_LIMITED -> provider_stats s' = provider_stats s).
Proof.
  intros K.
  destruct (simulate_api_call_cases provider sym days s c st K)
    as (d & s' & E & _ & _ & P & Hd).
  cbv zeta in E, Hd. eexists _, d, _, s'. split; [exact E|].
  unfold simulated in *. unfold limited in *.
  destruct (total_requests st mod rate_limit_threshold c =? 0) eqn:M;
    destruct (0 <? total_requests st) eqn:T; cbn [andb] in *;
    [apply Z.eqb_eq in M; apply Z.ltb_lt in T
    |apply Z.eqb_eq in M; apply Z.ltb_ge in T
    |apply Z.eqb_neq in M; apply Z.ltb_lt in T
    |apply Z.eqb_neq in M; apply Z.ltb_ge in T].
  1:{ cbn [is_SUCCESS] in Hd. repeat apply conj; auto. congruence. }
  all: split; [split; [|lia]|split; [|auto]];
    destruct (Qltb _ (1 - _)); try discriminate;
    destruct (Qltb (98 # 100) _); discriminate.
Qed.

Lemma simulated_call_rate_limited_iff_witness :
  exists o d t s',
    simulate_api_call "Finnhub" "AAPL" 30 demo_simulator = (inr (o, d, t), s') /\
    (o = RATE_LIMITED <-> 0 < 0 /\ 0 mod 20 = 0) /\
    (o = RATE_LIMITED ->
     d = [] /\
     provider_stats s'
     = <[ "Finnhub" := hit_limit (fresh_stats "Finnhub")]> (provider_stats demo_simulator)) /\
    (o <> RATE_LIMITED -> provider_stats s' = provider_stats demo_simulator).
Proof.
  apply (simulated_call_rate_limited_iff "Finnhub" "AAPL" 30 demo_simulator
           (mkProviderConfig 3 (2 # 100) 500 (85 # 100) (25 # 10) 20)
           (fresh_stats "Finnhub")).
  unfold known. split; [|split].
  - exists 2%nat, "Finnhub". vm_compute. reflexivity.
  - vm_compute. reflexivity.
  - discriminate.
Defined.

Local Open Scope Q_scope.



Local Close Scope Q_scope.

Lemma all_sane_init g now : all_sane (init g now).
Proof.
  intros p st. unfold init. cbn [provider_stats].
  cbn [initial_providers map fst list_to_map foldr curry uncurry].
  intros H.
  repeat (apply lookup_insert_Some in H; destruct H as [[_ <-] | [_ H]];
          [unfold sane; cbn; lia|]).
  rewrite lookup_empty in H. discriminate H.
Qed.

(** X5: on a simulator configured as [__init__] leaves it,
    [fetch_with_failover] returns, and it keeps the counters of every
    provider consistent: if, for each provider, [total_requests] was the
    sum of [successful_requests] and [failed_requests], both non-negative,
    the same holds afterwards, and so the [success_rate] property of each
    provider lies between 0 and 100. *)
Theorem fetch_with_failover_keeps_accounts (sym : string) (days : Z) (s : Simulator) :
  configured s -> all_sane s ->
  exists r s',
    fetch_with_failover sym days s = (inr r, s') /\
    all_sane s' /\
    forall p st, provider_stats s' !! p = Some st ->
      (0 <= ProviderStats_success_rate st)%Q /\ (ProviderStats_success_rate st <= 100)%Q.
Proof.
  intros Hc Hs.
  destruct (fetch_with_failover_spec sym days s Hc) as (r & s' & E & _ & _ & Sa).
  exists r, s'. split; [exact E|]. split; [exact (Sa Hs)|].
  intros p st Hp. apply success_rate_range. exact (Sa Hs p st Hp).
Qed.

Lemma fetch_with_failover_keeps_accounts_witness :
  exists r s',
    fetch_with_failover "AAPL" 30 demo_simulator = (inr r, s') /\
    all_sane s' /\
    forall p st, provider_stats s' !! p = Some st ->
      (0 <= ProviderStats_success_rate st)%Q /\ (ProviderStats_success_rate st <= 100)%Q.
Proof.
  apply (fetch_with_failover_keeps_accounts "AAPL" 30 demo_simulator).
  - apply configured_init.
  - apply all_sane_init.
Defined.


End IosCallFacts.

(** ** ios_app_simulation_test.py: the test methods *)

Module IosSuiteFacts.
Import Py PyFacts IosAppSimulationTest IosCacheFacts IosFailoverFacts RoundingFacts.
Import IosDataFacts IosAppSimulationSuite IosCallFacts.

(** The providers that have statistics keep them. *)
Definition kept (s s' : Simulator) : Prop :=
  forall q, is_Some (provider_stats s !! q) -> is_Some (provider_stats s' !! q).

Lemma configured_kept s s' :
  map (fun p => (fst p, (priority (snd p), rate_limit_threshold (snd p)))) (providers s')
  = map (fun p => (fst p, (priority (snd p), rate_limit_threshold (snd p)))) (providers s) ->
  kept s s' -> configured s -> configured s'.
Proof.
  intros E Hk (A & B & C).
  assert (E1 : map (fun p => (fst p, priority (snd p))) (providers s')
               = map (fun p => (fst p, priority (snd p))) (providers s)).
  { apply (f_equal (map (fun x : string * (Z * Z) => (fst x, fst (snd x))))) in E.
    rewrite !map_map in E. exact E. }
  assert (E2 : map (fun p => (fst p, rate_limit_threshold (snd p))) (providers s')
               = map (fun p => (fst p, rate_limit_threshold (snd p))) (providers s)).
  { apply (f_equal (map (fun x : string * (Z * Z) => (fst x, snd (snd x))))) in E.
    rewrite !map_map in E. exact E. }
  split; [congruence|]. split.
  - apply Forall_forall. intros p Hp. apply list_elem_of_In in Hp.
    apply (in_map (fun p => (fst p, rate_limit_threshold (snd p)))) in Hp.
    rewrite E2 in Hp. apply in_map_iff in Hp. destruct Hp as (q & Hq & Hin).
    rewrite Forall_forall in B. specialize (B q (proj2 (list_elem_of_In _ _) Hin)).
    cbn in Hq. injection Hq as _ Hq. congruence.
  - apply Forall_forall. intros p Hp. apply list_elem_of_In in Hp.
    apply (in_map (fun p => (fst p, rate_limit_threshold (snd p)))) in Hp.
    rewrite E2 in Hp. apply in_map_iff in Hp. destruct Hp as (q & Hq & Hin).
    rewrite Forall_forall in C. specialize (C q (proj2 (list_elem_of_In _ _) Hin)).
    cbn in Hq. injection Hq as Hq _. rewrite <- Hq. apply Hk. exact C.
Qed.

Lemma configured_settled s s' :
  settled s s' -> kept s s' -> configured s -> configured s'.
Proof.
  intros S K. apply configured_kept; [|exact K].
  destruct S as (-> & _). reflexivity.
Qed.


Lemma config_of_found provider s i n c :
  list_find (fun p => fst p = provider) (providers s) = Some (i, (n, c)) ->
  config_of provider s = (inr c, s).
Proof. intros E. unfold config_of. rewrite E. reflexivity. Qed.

Definition table (c1 c2 c3 : ProviderConfig) : list (string * ProviderConfig) :=
  [("Yahoo Finance", c1); ("EODHD", c2); ("Finnhub", c3)].

Lemma find_yahoo c1 c2 c3 :
  list_find (fun p : string * ProviderConfig => fst p = "Yahoo Finance") (table c1 c2 c3)
  = Some (0%nat, ("Yahoo Finance", c1)).
Proof. vm_compute. reflexivity. Qed.

Lemma find_eodhd c1 c2 c3 :
  list_find (fun p : string * ProviderConfig => fst p = "EODHD") (table c1 c2 c3)
  = Some (1%nat, ("EODHD", c2)).
Proof. vm_compute. reflexivity. Qed.

Lemma find_finnhub c1 c2 c3 :
  list_find (fun p : string * ProviderConfig => fst p = "Finnhub") (table c1 c2 c3)
  = Some (2%nat, ("Finnhub", c3)).
Proof. vm_compute. reflexivity. Qed.

(** A configured simulator: its table, and what is known of each
    provider. *)
Lemma configured_known s :
  configured s ->
  exists c1 c2 c3 st1 st2 st3,
    providers s = table c1 c2 c3 /\
    known "Yahoo Finance" s c1 st1 /\ known "EODHD" s c2 st2 /\
    known "Finnhub" s c3 st3.
Proof.
  intros (Hm & Ht & Hs).
  destruct (providers s) as [|[n1 c1] [|[n2 c2] [|[n3 c3] [|]]]] eqn:E;
    cbn in Hm; try discriminate.
  injection Hm as -> P1 -> P2 -> P3.
  inversion Ht as [|? ? T1 Ht']; subst. inversion Ht' as [|? ? T2 Ht'']; subst.
  inversion Ht'' as [|? ? T3 _]; subst.
  inversion Hs as [|? ? [st1 S1] Hs']; subst. inversion Hs' as [|? ? [st2 S2] Hs'']; subst.
  inversion Hs'' as [|? ? [st3 S3] _]; subst.
  exists c1, c2, c3, st1, st2, st3. split; [reflexivity|].
  unfold known. rewrite E. fold (table c1 c2 c3).
  rewrite find_yahoo, find_eodhd, find_finnhub. cbn [fst snd] in *.
  repeat apply conj; eauto.
Qed.

Lemma configured_table c1 c2 c3 s :
  providers s = table c1 c2 c3 ->
  priority c1 = 1 -> priority c2 = 2 -> priority c3 = 3 ->
  rate_limit_threshold c1 <> 0 -> rate_limit_threshold c2 <> 0 ->
  rate_limit_threshold c3 <> 0 ->
  is_Some (provider_stats s !! "Yahoo Finance") ->
  is_Some (provider_stats s !! "EODHD") ->
  is_Some (provider_stats s !! "Finnhub") ->
  configured s.
Proof.
  intros E P1 P2 P3 T1 T2 T3 S1 S2 S3. unfold configured. rewrite E. cbn.
  rewrite P1, P2, P3. repeat apply conj; [reflexivity| |]; repeat constructor; assumption.
Qed.

Lemma set_base_success_rate_found provider rate s i n c :
  list_find (fun p => fst p = provider) (providers s) = Some (i, (n, c)) ->
  set_base_success_rate provider rate s
  = (inr tt, set_providers (update_config provider (with_rate rate) (providers s)) s).
Proof.
  intros E. unfold set_base_success_rate, bind.
  rewrite (config_of_found _ _ _ _ _ E). reflexivity.
Qed.

Lemma with_rate_restore rate c : with_rate (base_success_rate c) (with_rate rate c) = c.
Proof. destruct c. reflexivity. Qed.

(** [fetch_with_failover] always calls Yahoo Finance, once. *)
Lemma fetch_with_failover_counts_first sym days s st :
  configured s -> provider_stats s !! "Yahoo Finance" = Some st ->
  exists r s' st',
    fetch_with_failover sym days s = (inr r, s') /\ settled s s' /\ kept s s' /\
    provider_stats s' !! "Yahoo Finance" = Some st' /\
    total_requests st' = total_requests st + 1.
Proof.
  intros Hc L.
  destruct (configured_sorted s Hc) as (c1 & c2 & c3 & E & Hsort & K1 & K2 & K3).
  unfold fetch_with_failover. rewrite Hsort, E. cbn [failover_loop].
  apply callable_known in K1. destruct K1 as (c & st0 & K1).
  assert (st0 = st) as -> by (destruct K1 as (_ & L0 & _); congruence).
  destruct (attempt_cases "Yahoo Finance" sym days s c st K1)
    as (o & d & t & s0 & s1 & _ & E1 & _ & S1 & P1).
  unfold bind at 1. rewrite E1.
  assert (D1 : kept s s1).
  { intros q Hq. rewrite P1. destruct (decide ("Yahoo Finance" = q)) as [<-|N].
    - rewrite lookup_insert_eq. eauto.
    - rewrite lookup_insert_ne by exact N. exact Hq. }
  assert (L1 : provider_stats s1 !! "Yahoo Finance"
               = Some (tallied o t (if limited st c then hit_limit st else st)))
    by (rewrite P1; apply lookup_insert_eq).
  assert (T1 : total_requests (tallied o t (if limited st c then hit_limit st else st))
               = total_requests st + 1).
  { unfold tallied. destruct (is_SUCCESS o), (limited st c); reflexivity. }
  destruct (is_SUCCESS o).
  - unfold ret. eexists _, s1, _. split; [reflexivity|]. split; [exact S1|].
    split; [exact D1|]. split; [exact L1 | exact T1].
  - destruct (failover_loop_spec [("EODHD", c2); ("Finnhub", c3)] sym days (Some t) s1)
      as (r & s2 & E2 & S2 & D2 & O2 & _).
    + repeat constructor; cbn [fst];
        (eapply callable_kept; [apply S1 | exact D1 | assumption]).
    + discriminate.
    + exists r, s2. eexists. split; [exact E2|].
      split; [eapply settled_trans; eassumption|].
      split; [intros q Hq; auto|].
      split; [|exact T1]. rewrite O2; [exact L1|].
      cbn. rewrite !elem_of_cons, elem_of_nil. intros [H|[H|[]]]; discriminate.
Qed.

Lemma kept_refl s : kept s s.
Proof. intros q H. exact H. Qed.

Lemma kept_trans s1 s2 s3 : kept s1 s2 -> kept s2 s3 -> kept s1 s3.
Proof. intros A B q H. auto. Qed.

(** The provider that the loop of [fetch_with_failover] names is one of
    those it was given, or "None". *)
Lemma failover_loop_provider todo : forall sym days last s r s',
  failover_loop todo sym days last s = (inr r, s') ->
  snd (fst r) = "None" \/ In (snd (fst r)) (map fst todo).
Proof.
  induction todo as [|[p cfg] rest IH]; intros sym days last s r s' E.
  - cbn in E. destruct last; [|discriminate E]. injection E as <- _. left. reflexivity.
  - cbn [failover_loop] in E. unfold bind at 1 in E.
    destruct (attempt p sym days s) as [[e|[[o d] t]] s1]; [discriminate E|].
    destruct (is_SUCCESS o).
    + injection E as <- _. right. left. reflexivity.
    + destruct (IH _ _ _ _ _ _ E) as [H|H]; [left; exact H | right; right; exact H].
Qed.

(** X7: [test_failover_mechanisms], run on a simulator configured as
    [__init__] leaves it, returns its three scenarios and puts the provider
    table back as it was.  Its third scenario sets the [total_requests] of
    Yahoo Finance to one less than the rate-limit threshold and then calls
    Yahoo Finance once, so the method always ends with that counter equal
    to the threshold: the next simulated call to Yahoo Finance, whatever
    the draws, is rate limited, and the next [fetch_with_failover] is
    served by another provider or by none. *)
Theorem failover_test_leaves_yahoo_at_its_limit (s : Simulator) :
  configured s ->
  (forall c, In ("Yahoo Finance", c) (providers s) -> 0 < rate_limit_threshold c) ->
  exists scenarios s' c st,
    test_failover_mechanisms s = (inr scenarios, s') /\
    length scenarios = 3%nat /\
    providers s' = providers s /\
    In ("Yahoo Finance", c) (providers s') /\
    provider_stats s' !! "Yahoo Finance" = Some st /\
    total_requests st = rate_limit_threshold c /\
    (forall sym days, exists t s'',
       simulate_api_call "Yahoo Finance" sym days s' = (inr (RATE_LIMITED, [], t), s'')) /\
    (forall sym days, exists o d p t s'',
       fetch_with_failover sym days s' = (inr (o, d, p, t), s'') /\
       p <> "Yahoo Finance").
Proof.
  intros Hc Hpos.
  destruct (configured_known s Hc)
    as (c1 & c2 & c3 & st1 & st2 & st3 & Et & K1 & K2 & K3).
  pose proof Hc as (Hprio & _).
  rewrite Et in Hprio. cbn in Hprio. injection Hprio as P1 P2 P3.
  assert (Hthr : 0 < rate_limit_threshold c1).
  { apply Hpos. rewrite Et. left. reflexivity. }
  (* Scenario 1 *)
  destruct (fetch_with_failover_spec "AAPL" 30 s Hc)
    as ([[[o1 d1] p1] t1] & s1 & E1 & S1 & D1 & _).
  assert (T1 : providers s1 = table c1 c2 c3) by (destruct S1 as (-> & _); exact Et).
  unfold test_failover_mechanisms. unfold bind at 1. rewrite E1. cbv beta iota zeta.
  unfold bind at 1.
  rewrite (config_of_found "Yahoo Finance" s1 0 "Yahoo Finance" c1)
    by (rewrite T1; apply find_yahoo).
  (* Scenario 2 *)
  unfold bind at 1.
  rewrite (set_base_success_rate_found "Yahoo Finance" _ s1 0 "Yahoo Finance" c1)
    by (rewrite T1; apply find_yahoo).
  rewrite T1. change (update_config "Yahoo Finance" (with_rate (1 # 10)) (table c1 c2 c3))
    with (table (with_rate (1 # 10) c1) c2 c3).
  set (s2 := set_providers (table (with_rate (1 # 10) c1) c2 c3) s1).
  assert (Hs1 : forall q, is_Some (provider_stats s !! q) -> is_Some (provider_stats s2 !! q))
    by exact D1.
  assert (Hc2 : configured s2).
  { apply (configured_table (with_rate (1 # 10) c1) c2 c3); try reflexivity;
      try assumption; try apply K1; try apply K2; try apply K3;
      apply Hs1; eexists; first [apply K1 | apply K2 | apply K3]. }
  destruct (fetch_with_failover_spec "GOOGL" 30 s2 Hc2)
    as ([[[o2 d2] p2] t2] & s3 & E3 & S3 & D3 & _).
  assert (T3 : providers s3 = table (with_rate (1 # 10) c1) c2 c3)
    by (destruct S3 as (-> & _); reflexivity).
  unfold bind at 1. rewrite E3. cbv beta iota zeta.
  unfold bind at 1.
  rewrite (set_base_success_rate_found "Yahoo Finance" _ s3 0 "Yahoo Finance"
             (with_rate (1 # 10) c1))
    by (rewrite T3; apply find_yahoo).
  rewrite T3.
  change (update_config "Yahoo Finance" (with_rate (base_success_rate c1))
            (table (with_rate (1 # 10) c1) c2 c3))
    with (table (with_rate (base_success_rate c1) (with_rate (1 # 10) c1)) c2 c3).
  rewrite with_rate_restore.
  set (s4 := set_providers (table c1 c2 c3) s3).
  (* Scenario 3 *)
  unfold bind at 1.
  rewrite (config_of_found "Yahoo Finance" s4 0 "Yahoo Finance" c1) by apply find_yahoo.
  assert (Hs3 : forall q, is_Some (provider_stats s !! q) -> is_Some (provider_stats s4 !! q)).
  { intros q Hq. apply D3. apply Hs1. exact Hq. }
  destruct (Hs3 "Yahoo Finance") as [st4 L4]; [eexists; apply K1|].
  unfold bind at 1. unfold set_total_requests.
  rewrite (update_stats_known _ _ _ _ L4).
  match goal with
  | |- context [set_stats (<[_ := ?x]> _) s4] => set (st5 := x)
  end.
  set (s5 := set_stats (<["Yahoo Finance" := st5]> (provider_stats s4)) s4).
  assert (Hs5 : forall q, is_Some (provider_stats s !! q) -> is_Some (provider_stats s5 !! q)).
  { intros q Hq. unfold s5, set_stats. cbn [provider_stats].
    destruct (decide ("Yahoo Finance" = q)) as [<-|N].
    - rewrite lookup_insert_eq. eauto.
    - rewrite lookup_insert_ne by exact N. apply Hs3. exact Hq. }
  assert (Hc5 : configured s5).
  { apply (configured_table c1 c2 c3); try reflexivity; try assumption;
      try apply K1; try apply K2; try apply K3;
      apply Hs5; eexists; first [apply K1 | apply K2 | apply K3]. }
  assert (L5 : provider_stats s5 !! "Yahoo Finance" = Some st5) by apply lookup_insert_eq.
  destruct (fetch_with_failover_counts_first "MSFT" 30 s5 st5 Hc5 L5)
    as ([[[o3 d3] p3] t3] & s6 & st6 & E6 & S6 & D6 & L6 & Tot6).
  unfold bind at 1. rewrite E6. cbv beta iota zeta. unfold ret.
  assert (T6 : providers s6 = table c1 c2 c3) by (destruct S6 as (-> & _); reflexivity).
  eexists _, s6, c1, st6. split; [reflexivity|]. split; [reflexivity|].
  split; [congruence|]. split; [rewrite T6; left; reflexivity|].
  split; [exact L6|].
  assert (Tot : total_requests st6 = rate_limit_threshold c1).
  { rewrite Tot6. unfold st5. cbn [total_requests]. lia. }
  split; [exact Tot|].
  assert (K6 : known "Yahoo Finance" s6 c1 st6).
  { unfold known. rewrite T6, find_yahoo. split; [eauto|]. split; [exact L6 | apply K1]. }
  assert (Lim : limited st6 c1 = true).
  { unfold limited. rewrite Tot, Z_mod_same_full.
    apply andb_true_intro. split; [reflexivity | apply Z.ltb_lt; exact Hthr]. }
  split; intros sym days.
  - destruct (simulate_api_call_cases "Yahoo Finance" sym days s6 c1 st6 K6)
      as (d & s7 & E7 & _ & _ & _ & Hd).
    cbv zeta in E7, Hd.
    unfold simulated in E7, Hd. rewrite Lim in E7, Hd.
    cbn [is_SUCCESS is_TIMEOUT] in E7, Hd. subst d. eauto.
  - assert (Hc6 : configured s6) by (eapply configured_settled; eassumption).
    destruct (configured_sorted s6 Hc6) as (b1 & b2 & b3 & E & Hsort & _ & B2 & B3).
    unfold fetch_with_failover. rewrite Hsort, E. cbn [failover_loop].
    destruct (attempt_cases "Yahoo Finance" sym days s6 c1 st6 K6)
      as (o & d & t & s0 & s7 & _ & E7 & Ho & S7 & P7).
    unfold simulated in Ho. rewrite Lim in Ho. subst o.
    unfold bind at 1. rewrite E7. cbn [is_SUCCESS].
    destruct (failover_loop_spec [("EODHD", b2); ("Finnhub", b3)] sym days (Some t) s7)
      as ([[[o' d'] p'] t'] & s8 & E8 & _).
    + assert (D7 : kept s6 s7).
      { intros q Hq. rewrite P7. destruct (decide ("Yahoo Finance" = q)) as [<-|N].
        - rewrite lookup_insert_eq. eauto.
        - rewrite lookup_insert_ne by exact N. exact Hq. }
      repeat constructor; cbn [fst];
        (eapply callable_kept; [apply S7 | exact D7 | assumption]).
    + discriminate.
    + exists o', d', p', t', s8. split; [exact E8|].
      destruct (failover_loop_provider _ _ _ _ _ _ _ E8) as [H|H]; cbn in H.
      * rewrite H. discriminate.
      * destruct H as [<- | [<- | []]]; discriminate.
Qed.


Lemma yahoo_threshold_demo c :
  In ("Yahoo Finance", c) (providers demo_simulator) -> 0 < rate_limit_threshold c.
Proof.
  intros [H | [H | [H | []]]]; try discriminate H. injection H as <-. reflexivity.
Qed.

Lemma failover_test_leaves_yahoo_at_its_limit_witness :
  exists scenarios s' st,
    test_failover_mechanisms demo_simulator = (inr scenarios, s') /\
    length scenarios = 3%nat /\
    provider_stats s' !! "Yahoo Finance" = Some st /\
    total_requests st = 60.
Proof.
  destruct (failover_test_leaves_yahoo_at_its_limit demo_simulator
              (configured_init _ _) yahoo_threshold_demo)
    as (sc & s' & c & st & E & Hlen & Hp & Hin & L & Tot & _).
  exists sc, s', st. split; [exact E|]. split; [exact Hlen|]. split; [exact L|].
  rewrite Tot. rewrite Hp in Hin.
  destruct Hin as [H | [H | [H | []]]]; try discriminate H. injection H as <-.
  reflexivity.
Defined.

Lemma settled_unit_range s s' : settled s s' -> unit_range (rng s) -> unit_range (rng s').
Proof. intros (_ & _ & _ & _ & _ & E & _) H k. rewrite E. apply H. Qed.

Lemma limited_hit_limit st c : limited (hit_limit st) c = limited st c.
Proof. reflexivity. Qed.

(** The three calls of the third scenario of [test_error_handling], on a
    provider whose [base_success_rate] is 0. *)
Lemma timeout_calls_spec n : forall s c st,
  known "Finnhub" s c st -> base_success_rate c = 0%Q -> unit_range (rng s) ->
  exists l s',
    timeout_calls n s = (inr l, s') /\ settled s s' /\
    l = replicate n (if limited st c then RATE_LIMITED else FAILURE) /\
    kept s s'.
Proof.
  induction n as [|n IH]; intros s c st K Hz Hr.
  - exists [], s. split; [reflexivity|]. split; [apply settled_refl|].
    split; [reflexivity | apply kept_refl].
  - destruct (simulate_api_call_cases "Finnhub" "AAPL" 30 s c st K)
      as (d & s1 & E1 & S1 & _ & P1 & _).
    cbv zeta in E1. cbn [timeout_calls]. unfold bind at 1. rewrite E1.
    cbv beta iota.
    set (st1 := if limited st c then hit_limit st else st).
    assert (L1 : provider_stats s1 !! "Finnhub" = Some st1).
    { rewrite P1. unfold st1. destruct (limited st c).
      - apply lookup_insert_eq.
      - apply K. }
    assert (K1 : known "Finnhub" s1 c st1).
    { destruct K as ((i & m & F) & _ & T). unfold known.
      destruct S1 as (-> & _). eauto. }
    assert (D1 : kept s s1).
    { intros q Hq. rewrite P1. destruct (limited st c); [|exact Hq].
      destruct (decide ("Finnhub" = q)) as [<-|N].
      - rewrite lookup_insert_eq. eauto.
      - rewrite lookup_insert_ne by exact N. exact Hq. }
    destruct (IH s1 c st1 K1 Hz (settled_unit_range _ _ S1 Hr))
      as (l & s2 & E2 & S2 & Hl & D2).
    unfold bind at 1. rewrite E2. unfold ret.
    eexists _, s2. split; [reflexivity|].
    split; [eapply settled_trans; eassumption|].
    split; [|eapply kept_trans; eassumption].
    cbn [replicate]. f_equal.
    + unfold simulated. destruct (limited st c); [reflexivity|].
      rewrite Hz. rewrite Qltb_true; [reflexivity|].
      destruct (Hr (S (units_used (rng s)))) as [_ U].
      eapply Qlt_le_trans; [exact U|]. discriminate.
    + rewrite Hl. unfold st1. destruct (limited st c) eqn:Lim; [|rewrite Lim; reflexivity].
      rewrite limited_hit_limit, Lim. reflexivity.
Qed.

Lemma existsb_replicate {A} (p : A -> bool) n x :
  existsb p (replicate n x) = match n with O => false | _ => p x end.
Proof.
  induction n as [|n IH]; [reflexivity|]. cbn [replicate existsb]. rewrite IH.
  destruct n, (p x); reflexivity.
Qed.

(** X8: [test_error_handling], run on a simulator configured as
    [__init__] leaves it, returns its three scenarios and puts the provider
    table back as it was.  Its second scenario sets the [total_requests] of
    Yahoo Finance to the rate-limit threshold, so the call it makes is
    always rate limited and the scenario is always handled gracefully.  In
    its third scenario the [base_success_rate] of Finnhub is 0, so each of
    the three calls fails or is rate limited and none times out: the
    scenario is handled gracefully exactly when Finnhub is not at a
    positive multiple of its rate-limit threshold. *)
Theorem error_handling_test_scenarios (s : Simulator) :
  configured s -> unit_range (rng s) ->
  (forall c, In ("Yahoo Finance", c) (providers s) -> 0 < rate_limit_threshold c) ->
  exists sc1 sc2 sc3 s',
    test_error_handling s = (inr [sc1; sc2; sc3], s') /\
    providers s' = providers s /\
    handled_gracefully sc2 = true /\ es_outcome sc2 = "rate_limited" /\
    forall c st, known "Finnhub" s c st ->
      handled_gracefully sc3 = negb (limited st c).
Proof.
  intros Hc Hr Hpos.
  destruct (configured_known s Hc)
    as (c1 & c2 & c3 & st1 & st2 & st3 & Et & K1 & K2 & K3).
  assert (Hthr : 0 < rate_limit_threshold c1).
  { apply Hpos. rewrite Et. left. reflexivity. }
  (* Scenario 1 *)
  destruct (simulate_api_call_cases "Yahoo Finance" "INVALID123" 30 s c1 st1 K1)
    as (d1 & s1 & E1 & S1 & _ & P1 & _).
  cbv zeta in E1.
  unfold test_error_handling. unfold bind at 1. rewrite E1. cbv beta iota zeta.
  assert (T1 : providers s1 = table c1 c2 c3) by (destruct S1 as (-> & _); exact Et).
  assert (F1 : provider_stats s1 !! "Finnhub" = Some st3).
  { rewrite P1. destruct (limited st1 c1); [|apply K3].
    rewrite lookup_insert_ne by discriminate. apply K3. }
  assert (Y1 : is_Some (provider_stats s1 !! "Yahoo Finance")).
  { rewrite P1. destruct (limited st1 c1); [rewrite lookup_insert_eq; eauto|].
    eexists. apply K1. }
  destruct Y1 as [sty L1].
  (* Scenario 2 *)
  unfold bind at 1.
  rewrite (config_of_found "Yahoo Finance" s1 0 "Yahoo Finance" c1)
    by (rewrite T1; apply find_yahoo).
  unfold bind at 1. unfold set_total_requests.
  rewrite (update_stats_known _ _ _ _ L1).
  match goal with
  | |- context [set_stats (<[_ := ?x]> _) s1] => set (stl := x)
  end.
  set (s2 := set_stats (<["Yahoo Finance" := stl]> (provider_stats s1)) s1).
  assert (K2' : known "Yahoo Finance" s2 c1 stl).
  { unfold known. change (providers s2) with (providers s1). rewrite T1, find_yahoo.
    split; [eauto|]. split; [apply lookup_insert_eq | apply K1]. }
  assert (Lim : limited stl c1 = true).
  { unfold limited, stl. cbn [total_requests]. rewrite Z_mod_same_full.
    apply andb_true_intro. split; [reflexivity | apply Z.ltb_lt; exact Hthr]. }
  destruct (simulate_api_call_cases "Yahoo Finance" "AAPL" 30 s2 c1 stl K2')
    as (d2 & s3 & E3 & S3 & _ & P3 & _).
  cbv zeta in E3. unfold simulated in E3. rewrite Lim in E3, P3.
  unfold bind at 1. rewrite E3. cbv beta iota zeta.
  assert (T3 : providers s3 = table c1 c2 c3) by (destruct S3 as (-> & _); exact T1).
  assert (F3 : provider_stats s3 !! "Finnhub" = Some st3).
  { rewrite P3. rewrite lookup_insert_ne by discriminate.
    unfold s2, set_stats. cbn [provider_stats].
    rewrite lookup_insert_ne by discriminate. exact F1. }
  (* Scenario 3 *)
  unfold bind at 1.
  rewrite (config_of_found "Finnhub" s3 2 "Finnhub" c3)
    by (rewrite T3; apply find_finnhub).
  unfold bind at 1.
  rewrite (set_base_success_rate_found "Finnhub" _ s3 2 "Finnhub" c3)
    by (rewrite T3; apply find_finnhub).
  rewrite T3. change (update_config "Finnhub" (with_rate 0) (table c1 c2 c3))
    with (table c1 c2 (with_rate 0 c3)).
  set (s4 := set_providers (table c1 c2 (with_rate 0 c3)) s3).
  assert (K4 : known "Finnhub" s4 (with_rate 0 c3) st3).
  { unfold known. change (providers s4) with (table c1 c2 (with_rate 0 c3)).
    rewrite find_finnhub. split; [eauto|]. split; [exact F3 | apply K3]. }
  assert (R4 : unit_range (rng s4)).
  { change (rng s4) with (rng s3).
    apply (settled_unit_range s2 s3 S3). change (rng s2) with (rng s1).
    apply (settled_unit_range s s1 S1). exact Hr. }
  destruct (timeout_calls_spec 3 s4 (with_rate 0 c3) st3 K4 eq_refl R4)
    as (l & s5 & E5 & S5 & Hl & _).
  unfold bind at 1. rewrite E5.
  assert (T5 : providers s5 = table c1 c2 (with_rate 0 c3))
    by (destruct S5 as (-> & _); reflexivity).
  unfold bind at 1.
  rewrite (set_base_success_rate_found "Finnhub" _ s5 2 "Finnhub" (with_rate 0 c3))
    by (rewrite T5; apply find_finnhub).
  rewrite T5.
  change (update_config "Finnhub" (with_rate (base_success_rate c3))
            (table c1 c2 (with_rate 0 c3)))
    with (table c1 c2 (with_rate (base_success_rate c3) (with_rate 0 c3))).
  rewrite with_rate_restore. unfold ret.
  eexists _, _, _, _. split; [reflexivity|].
  split; [cbn [providers set_providers]; congruence|].
  split; [reflexivity|]. split; [reflexivity|].
  intros c st ((i & m & Fd) & L & _).
  assert (st = st3) as -> by (destruct K3 as (_ & L3 & _); congruence).
  assert (c = c3) as ->.
  { rewrite Et, find_finnhub in Fd. congruence. }
  cbn [handled_gracefully]. rewrite Hl, !existsb_replicate.
  change (limited st3 (with_rate 0 c3)) with (limited st3 c3).
  destruct (limited st3 c3); reflexivity.
Qed.


Lemma unit_range_demo : unit_range (rng demo_simulator).
Proof. intros k. cbn. split; [discriminate | reflexivity]. Qed.

Lemma error_handling_test_scenarios_witness :
  exists sc1 sc2 sc3 s',
    test_error_handling demo_simulator = (inr [sc1; sc2; sc3], s') /\
    providers s' = providers demo_simulator /\
    handled_gracefully sc2 = true /\ handled_gracefully sc3 = true.
Proof.
  destruct (error_handling_test_scenarios demo_simulator (configured_init _ _)
              unit_range_demo yahoo_threshold_demo)
    as (sc1 & sc2 & sc3 & s' & E & Hp & H2 & _ & H3).
  exists sc1, sc2, sc3, s'. split; [exact E|]. split; [exact Hp|]. split; [exact H2|].
  rewrite (H3 (mkProviderConfig 3 (2 # 100) 500 (85 # 100) (25 # 10) 20)
              (fresh_stats "Finnhub")); [reflexivity|].
  unfold known. split; [|split].
  - exists 2%nat, "Finnhub". vm_compute. reflexivity.
  - vm_compute. reflexivity.
  - discriminate.
Defined.

(** The request counters of every provider are as they were. *)
Definition same_counts (s s' : Simulator) : Prop :=
  forall q st, provider_stats s !! q = Some st ->
    exists st', provider_stats s' !! q = Some st' /\
      total_requests st' = total_requests st /\
      successful_requests st' = successful_requests st /\
      failed_requests st' = failed_requests st /\
      total_response_time st' = total_response_time st.

Lemma same_counts_refl s : same_counts s s.
Proof. intros q st H. exists st. auto. Qed.

Lemma same_counts_trans s1 s2 s3 :
  same_counts s1 s2 -> same_counts s2 s3 -> same_counts s1 s3.
Proof.
  intros A B q st H. destruct (A q st H) as (st' & H' & E1 & E2 & E3 & E4).
  destruct (B q st' H') as (st'' & H'' & F1 & F2 & F3 & F4).
  exists st''. repeat apply conj; congruence.
Qed.

Lemma same_counts_kept s s' : same_counts s s' -> kept s s'.
Proof. intros A q [st H]. destruct (A q st H) as (st' & H' & _). eauto. Qed.

Lemma count_all {A} (p : A -> bool) l :
  Forall (fun x => p x = true) l -> count p l = len l.
Proof.
  unfold count, len. induction 1 as [|x l Hx _ IH]; [reflexivity|].
  cbn [List.filter]. rewrite Hx. cbn [length]. lia.
Qed.

(** One record of [test_basic_functionality]: thirty data points, all of
    them valid, with a success and none without. *)
Definition thirty_or_none (t : BasicTest) : Prop :=
  data_points t = (if bt_success t then 30 else 0) /\ valid_data t = data_points t.

Lemma basic_tests_spec provider symbols : forall s,
  callable provider s -> unit_range (rng s) ->
  exists l s',
    basic_tests provider symbols s = (inr l, s') /\ settled s s' /\
    same_counts s s' /\ length l = length symbols /\ Forall thirty_or_none l.
Proof.
  induction symbols as [|sym rest IH]; intros s Hc Hr.
  - exists [], s. split; [reflexivity|]. split; [apply settled_refl|].
    split; [apply same_counts_refl|]. split; [reflexivity | constructor].
  - pose proof Hc as Hc0. apply callable_known in Hc. destruct Hc as (c & st & K).
    destruct (simulate_api_call_cases provider sym 30 s c st K)
      as (d & s1 & E1 & S1 & _ & P1 & Hd).
    cbv zeta in E1, Hd.
    cbn [basic_tests]. unfold bind at 1. rewrite E1. cbv beta iota.
    assert (C1 : same_counts s s1).
    { intros q stq Hq. rewrite P1. destruct (limited st c); [|eauto 10].
      destruct (decide (provider = q)) as [<-|N].
      - rewrite lookup_insert_eq. eexists. split; [reflexivity|].
        assert (stq = st) as -> by (destruct K as (_ & L0 & _); congruence).
        cbn. auto.
      - rewrite lookup_insert_ne by exact N. eauto 10. }
    destruct (IH s1) as (l & s2 & E2 & S2 & C2 & Hlen & Hl).
    { eapply callable_kept; [apply S1 | apply same_counts_kept; exact C1 | exact Hc0]. }
    { eapply settled_unit_range; eassumption. }
    unfold bind at 1. rewrite E2. unfold ret. eexists _, s2.
    split; [reflexivity|]. split; [eapply settled_trans; eassumption|].
    split; [eapply same_counts_trans; eassumption|].
    split; [cbn; f_equal; exact Hlen|].
    constructor; [|exact Hl]. unfold thirty_or_none. cbn.
    destruct (is_SUCCESS (simulated st c _)).
    + destruct Hd as (Hlen' & _ & Hv). split.
      * unfold len. rewrite Hlen'. reflexivity.
      * apply count_all. apply Hv; [exact Hr | discriminate].
    + subst d. split; reflexivity.
Qed.

Lemma py_sum_int_from l : forall a, fold_left Z.add l a = a + fold_left Z.add l 0.
Proof.
  induction l as [|x l IH]; intros a; cbn [fold_left]; [lia|].
  rewrite (IH (a + x)), (IH (0 + x)). lia.
Qed.

Lemma total_of_thirties l :
  Forall thirty_or_none l ->
  py_sum_int (map data_points l) = 30 * count bt_success l.
Proof.
  unfold py_sum_int, count, len.
  induction 1 as [|t l [Ht _] _ IH]; [reflexivity|].
  cbn [map fold_left List.filter]. rewrite py_sum_int_from, IH, Ht.
  destruct (bt_success t); cbn [length]; lia.
Qed.

Lemma basic_providers_spec names : forall s,
  Forall (fun p => callable p s) names -> unit_range (rng s) ->
  exists reports s',
    basic_providers names s = (inr reports, s') /\ settled s s' /\
    same_counts s s' /\ map fst reports = names /\
    Forall (fun r =>
              length (tests (snd r)) = 3%nat /\
              Forall thirty_or_none (tests (snd r)) /\
              total_data_points (snd r) = 30 * count bt_success (tests (snd r)) /\
              pr_success_rate (snd r)
              = (inject_Z (count bt_success (tests (snd r))) / inject_Z 3 * 100)%Q)
           reports.
Proof.
  induction names as [|p rest IH]; intros s Hc Hr.
  - exists [], s. split; [reflexivity|]. split; [apply settled_refl|].
    split; [apply same_counts_refl|]. split; [reflexivity | constructor].
  - inversion Hc as [|? ? Hp Hrest]; subst.
    destruct (basic_tests_spec p (take 3 test_symbols) s Hp Hr)
      as (l & s1 & E1 & S1 & C1 & Hlen & Hl).
    change (length (take 3 test_symbols)) with 3%nat in Hlen.
    cbn [basic_providers]. unfold bind at 1. rewrite E1.
    assert (Hl3 : len l = 3) by (unfold len; rewrite Hlen; reflexivity).
    rewrite Hl3. unfold bind at 1, lift at 1, py_div at 1.
    change (Qeq_bool (inject_Z 3) 0) with false. cbv iota.
    unfold bind at 1, lift at 1, py_div at 1.
    change (Qeq_bool (inject_Z 3) 0) with false. cbv iota.
    destruct (IH s1) as (reports & s2 & E2 & S2 & C2 & Hn & Hrep).
    { eapply Forall_impl; [exact Hrest|]. intros x Hx.
      eapply callable_kept; [apply S1 | apply same_counts_kept; exact C1 | exact Hx]. }
    { eapply settled_unit_range; eassumption. }
    unfold bind at 1. rewrite E2. unfold ret. eexists _, s2.
    split; [reflexivity|]. split; [eapply settled_trans; eassumption|].
    split; [eapply same_counts_trans; eassumption|].
    split; [cbn; f_equal; exact Hn|].
    constructor; [|exact Hrep]. cbn [snd tests total_data_points pr_success_rate].
    split; [exact Hlen|]. split; [exact Hl|].
    split; [apply total_of_thirties; exact Hl | reflexivity].
Qed.

(** X9: [test_basic_functionality], run on a simulator configured as
    [__init__] leaves it with draws of [random()] in [[0, 1)], reports on
    the providers in the order of the table, three calls each.  A call
    that succeeds yields thirty data points, all of them valid, and any
    other call none, so that the [total_data_points] of a provider is
    thirty times its number of successes and its [success_rate] is that
    number over three, in percent.  The calls are made with
    [simulate_api_call] directly: the request counters and the response
    time of every provider are left as they were. *)
Theorem basic_functionality_counts (s : Simulator) :
  configured s -> unit_range (rng s) ->
  exists reports s',
    test_basic_functionality s = (inr reports, s') /\
    map fst reports = ["Yahoo Finance"; "EODHD"; "Finnhub"] /\
    Forall (fun r =>
              length (tests (snd r)) = 3%nat /\
              Forall (fun t => data_points t = (if bt_success t then 30 else 0) /\
                               valid_data t = data_points t) (tests (snd r)) /\
              total_data_points (snd r) = 30 * count bt_success (tests (snd r)) /\
              pr_success_rate (snd r)
              = (inject_Z (count bt_success (tests (snd r))) / inject_Z 3 * 100)%Q)
           reports /\
    forall q st, provider_stats s !! q = Some st ->
      exists st', provider_stats s' !! q = Some st' /\
        total_requests st' = total_requests st /\
        successful_requests st' = successful_requests st /\
        failed_requests st' = failed_requests st /\
        total_response_time st' = total_response_time st.
Proof.
  intros Hc Hr.
  destruct (configured_sorted s Hc) as (c1 & c2 & c3 & E & _ & K1 & K2 & K3).
  unfold test_basic_functionality. rewrite E. cbn [map fst].
  destruct (basic_providers_spec ["Yahoo Finance"; "EODHD"; "Finnhub"] s)
    as (reports & s' & E' & _ & C & Hn & Hrep).
  - repeat constructor; assumption.
  - exact Hr.
  - exists reports, s'. split; [exact E'|]. split; [exact Hn|].
    split; [exact Hrep | exact C].
Qed.

Lemma basic_functionality_counts_witness :
  exists reports s',
    test_basic_functionality demo_simulator = (inr reports, s') /\
    map fst reports = ["Yahoo Finance"; "EODHD"; "Finnhub"] /\
    Forall (fun r => total_data_points (snd r) = 30 * count bt_success (tests (snd r)))
      reports.
Proof.
  destruct (basic_functionality_counts demo_simulator (configured_init _ _)
              unit_range_demo) as (reports & s' & E & Hn & Hrep & _).
  exists reports, s'. split; [exact E|]. split; [exact Hn|].
  eapply Forall_impl; [exact Hrep|]. intros r (_ & _ & H & _). exact H.
Defined.

End IosSuiteFacts.

(** ** nasdaq_api_test.py: the dividend probe *)

Module NasdaqDividendFacts.
Import Py PyFacts Net JsonReading NetFacts NasdaqApiTest NasdaqApiDividends.

Definition dividends_url (symbol : string) : string :=
  base_url +:+ "/" +:+ symbol +:+ "/dividends?assetclass=stocks".








Lemma quiet_float_or_none v : quiet (float_or_none v).
Proof.
  unfold float_or_none. destruct (_ && _); [|apply quiet_ret].
  intros w r w' E. unfold try_except, bind, lift, ret in E.
  destruct (py_float v) as [e|f] eqn:F.
  - destruct (is_ValueError e); injection E as <- <-.
    + split; [reflexivity|]. split; [apply later_refl | discriminate].
    + split; [reflexivity|]. split; [apply later_refl|].
      intros e' [= <-]. eapply py_float_inl; eassumption.
  - injection E as <- <-. split; [reflexivity|]. split; [apply later_refl | discriminate].
Qed.

Lemma test_dividend_data_try_one_request symbol start w r w' :
  ordinary (reply w) ->
  test_dividend_data_try symbol start w = (r, w') ->
  sent w' = dividends_url symbol :: sent w /\ later w w' /\
  (forall e, r = inl e -> is_Exception e = true).
Proof.
  intros Ho E. unfold test_dividend_data_try in E.
  eapply one_request; [| exact Ho | exact E].
  intros resp Hresp.
  repeat first [ apply quiet_float_or_none | progress quiet_steps ].
Qed.

Lemma test_dividend_data_unfold symbol w :
  test_dividend_data symbol w
  = match test_dividend_data_try symbol (wall w (reads w)) (clock_read w) with
    | (inr r, w') => (inr r, w')
    | (inl e, w') =>
        if is_Exception e
        then (inr (mkTestResult symbol false
                     (wall w' (reads w') - wall w (reads w))%Q
                     (Some (str_exn e)) None JNull None None),
              clock_read w')
        else (inl e, w')
    end.
Proof.
  unfold test_dividend_data, bind at 1, time_time at 1, try_except.
  fold (clock_read w).
  destruct (test_dividend_data_try _ _ _) as [[e|r] w']; [|reflexivity].
  destruct (is_Exception e); reflexivity.
Qed.

(** Every record that the statements under [try:] return carries either
    a success or an error message. *)
Lemma test_dividend_data_try_message symbol start w r w' :
  test_dividend_data_try symbol start w = (inr r, w') ->
  error_message r = None <-> success r = true.
Proof.
  intros B. unfold test_dividend_data_try in B.
  unfold bind at 1 in B. unfold http_get at 1 in B.
  destruct (http w _) as [resp|e]; [|discriminate B].
  unfold bind at 1 in B. unfold time_time at 1 in B. cbv beta iota in B.
  destruct (negb (status resp =? 200)).
  { unfold ret in B. injection B as <- _. cbn. split; discriminate. }
  unfold bind at 1 in B. unfold response_json, lift at 1 in B.
  destruct (json_body resp) as [e|data]; [discriminate B|].
  cbv beta iota in B.
  run_lift B. run_lift B.
  destruct (negb (eq_int j0 200)).
  { run_lift B. unfold ret in B. injection B as <- _. cbn. split; discriminate. }
  run_lift B. run_lift B. run_lift B.
  unfold bind at 1 in B.
  destruct (float_or_none j3 _) as [[e|y] w1]; [discriminate B|].
  run_lift B. run_lift B. run_lift B.
  unfold bind at 1 in B.
  destruct (float_or_none j6 _) as [[e|a] w2]; [discriminate B|].
  unfold ret in B. injection B as <- _. cbn. split; reflexivity.
Qed.




(** X11: when the reply to its request raises nothing but an exception
    deriving from [Exception], [test_dividend_data] returns a record and
    has issued exactly one request, to the dividends address of the
    symbol.  The record carries an error message exactly when its success
    flag is false; an exception raised under [try:] becomes a failure
    whose message is the text of the exception. *)
Theorem test_dividend_data_never_propagates (symbol : string) (w : World) :
  ordinary (reply w) ->
  exists r w',
    test_dividend_data symbol w = (inr r, w') /\
    sent w' = dividends_url symbol :: sent w /\
    (error_message r = None <-> success r = true) /\
    forall e w2,
      test_dividend_data_try symbol (wall w (reads w)) (clock_read w) = (inl e, w2) ->
      success r = false /\ error_message r = Some (str_exn e).
Proof.
  intros Ho. rewrite test_dividend_data_unfold.
  destruct (test_dividend_data_try _ _ _) as [res w1] eqn:B.
  destruct (test_dividend_data_try_one_request symbol _ (clock_read w) _ _ Ho B)
    as (S1 & H1 & X1).
  destruct res as [e|r].
  - rewrite (X1 e eq_refl). eexists _, _. split; [reflexivity|].
    split; [exact S1|]. split; [cbn; split; discriminate|].
    intros e' w2 [= <- <-]. auto.
  - eexists _, _. split; [reflexivity|]. split; [exact S1|].
    split; [eapply test_dividend_data_try_message; exact B | discriminate].
Qed.

Lemma test_dividend_data_never_propagates_witness :
  exists r w',
    test_dividend_data "KO"
      (mkWorld (fun _ => Failed (Exn RequestException "Connection refused"))
         (fun k => inject_Z (Z.of_nat k)) [] 0 [])
    = (inr r, w') /\
    sent w' = [dividends_url "KO"] /\
    success r = false /\ error_message r = Some "Connection refused".
Proof.
  destruct (test_dividend_data_never_propagates "KO"
              (mkWorld (fun _ => Failed (Exn RequestException "Connection refused"))
                 (fun k => inject_Z (Z.of_nat k)) [] 0 []))
    as (r & w' & E & S & _ & X).
  - intros e [= <-]. reflexivity.
  - exists r, w'. split; [exact E|]. split; [exact S|].
    edestruct (X (Exn RequestException "Connection refused")) as [A B];
      [vm_compute; reflexivity|].
    split; [exact A | exact B].
Defined.

End NasdaqDividendFacts.

(** ** The two Nasdaq quote probes on the same reply *)

Module NasdaqProbeFacts.
Import Py PyFacts Net JsonReading NetFacts.
Import NasdaqApiFacts NasdaqLoadFacts.

Lemma float_of_str_empty : exists e, float_of_str "" = inl e.
Proof. eexists. vm_compute. reflexivity. Qed.

(** The price text yields a number exactly when it is not empty and
    [float] accepts it. *)
Lemma parsed_price_number data f :
  parsed_price data = Some (Some f) <->
  exists s, cleaned_price data = Some s /\ float_of_str s = inr f.
Proof.
  unfold parsed_price. destruct (cleaned_price data) as [s|]; cbn [mbind option_bind].
  - destruct (String.eqb_spec s "") as [->|Hs].
    + destruct float_of_str_empty as [e E]. split; [discriminate|].
      intros (s & [= <-] & F). congruence.
    + split.
      * destruct (float_of_str s) as [e|f'] eqn:F; [discriminate|].
        intros [= ->]. eauto.
      * intros (s' & [= <-] & F). rewrite F. reflexivity.
  - split; [discriminate|]. intros (s & E & _). discriminate E.
Qed.

Lemma parsed_price_none data :
  parsed_price data = Some None -> cleaned_price data = Some "".
Proof.
  unfold parsed_price. destruct (cleaned_price data) as [s|]; cbn [mbind option_bind];
    [|discriminate].
  destruct (String.eqb_spec s "") as [->|Hs]; [reflexivity|].
  destruct (float_of_str s); discriminate.
Qed.

(** A price text that [float] rejects: the statements under [try:] in
    [fetch_stock_quote_sync] raise what [float] raises. *)
Lemma fetch_stock_quote_try_rejected symbol start w resp data s e :
  reply w = Responded resp -> status resp = 200 -> json_body resp = inr data ->
  rcode_is_200 data = true -> cleaned_price data = Some s ->
  float_of_str s = inl e ->
  exists w', NasdaqLoadTest.fetch_stock_quote_try symbol start w = (inl e, w').
Proof.
  intros R St J RC P F.
  unfold rcode_is_200 in RC.
  destruct (field_or "status" _ data) as [st|] eqn:E1; [|discriminate RC].
  destruct (field_or "rCode" _ st) as [rc|] eqn:E2; [|discriminate RC].
  unfold cleaned_price, last_sale_price in P.
  destruct (field_or "data" _ data) as [q|] eqn:E3; [|discriminate P].
  cbn [mbind option_bind] in P.
  destruct (field_or "primaryData" _ q) as [pd|] eqn:E4; [|discriminate P].
  cbn [mbind option_bind] in P.
  destruct (field_or "lastSalePrice" _ pd) as [[| | | |s0| |]|] eqn:E5;
    try discriminate P.
  injection P as <-.
  apply py_get_inr in E1, E2, E3, E4, E5.
  unfold NasdaqLoadTest.fetch_stock_quote_try, bind, http_get, time_time,
    response_json, lift, ret.
  fold (reply w). rewrite R, St. change (200 =? 200) with true. cbv beta iota zeta.
  rewrite J, E1, E2, RC, E3, E4, E5. cbn [py_replace py_float]. rewrite F.
  eauto.
Qed.

(** X12: on the same reply, [fetch_stock_quote_sync] of the load tester
    reports a success exactly when [test_stock_quote] of the API tester
    reports a success with a price, and the two prices are then the same;
    a reply whose price text is empty is a success without price for
    [test_stock_quote] and a failure for [fetch_stock_quote_sync]. *)
Theorem quote_probes_agree (symbol : string) (w w1 w2 : World)
        (r : NasdaqLoadTest.QuoteResult) (r' : NasdaqApiTest.TestResult) :
  NasdaqLoadTest.fetch_stock_quote_sync symbol w = (inr r, w1) ->
  NasdaqApiTest.test_stock_quote symbol w = (inr r', w2) ->
  (NasdaqLoadTest.success r = true <->
   NasdaqApiTest.success r' = true /\ is_Some (NasdaqApiTest.price r')) /\
  (NasdaqLoadTest.success r = true ->
   NasdaqApiTest.price r' = NasdaqLoadTest.price r) /\
  (NasdaqApiTest.success r' = true -> NasdaqApiTest.price r' = None ->
   NasdaqLoadTest.success r = false /\
   NasdaqLoadTest.error r = Some "could not convert string to float: ''").
Proof.
  intros F T.
  unfold NasdaqLoadTest.fetch_stock_quote_sync in F.
  rewrite fetch_stock_quote_unfold in F. rewrite test_stock_quote_unfold in T.
  destruct (NasdaqLoadTest.fetch_stock_quote_try _ _ _) as [[e|r0] v1] eqn:B.
  - (* the load tester caught an exception *)
    destruct (is_Exception e); [|discriminate F]. injection F as <- _.
    cbn [NasdaqLoadTest.success NasdaqLoadTest.error].
    split; [|split; [discriminate|]].
    2:{ intros S N. split; [reflexivity|]. f_equal.
        destruct (NasdaqApiTest.test_stock_quote_try _ _ _) as [[e'|r1] v2] eqn:B'.
        - destruct (is_Exception e'); [|discriminate T]. injection T as <- _.
          discriminate S.
        - injection T as -> _.
          destruct (test_stock_quote_try_success _ _ _ _ _ B' S)
            as (resp & data & R & St & J & RC & Pp).
          rewrite N in Pp. apply parsed_price_none in Pp.
          destruct float_of_str_empty as [e0 E0].
          destruct (fetch_stock_quote_try_rejected symbol (wall w (reads w))
                      (clock_read w) resp data "" e0 R St J RC Pp E0) as (v3 & B2).
          rewrite B in B2. injection B2 as -> _.
          vm_compute in E0. injection E0 as <-. reflexivity. }
    split; [discriminate|]. intros [S [f P]]. exfalso.
    destruct (NasdaqApiTest.test_stock_quote_try _ _ _) as [[e'|r1] v2] eqn:B'.
    + destruct (is_Exception e'); [|discriminate T]. injection T as <- _.
      discriminate S.
    + injection T as -> _.
      destruct (test_stock_quote_try_success _ _ _ _ _ B' S)
        as (resp & data & R & St & J & RC & Pp).
      rewrite P in Pp. apply parsed_price_number in Pp as (s & C & Fl).
      destruct (fetch_stock_quote_try_good symbol (wall w (reads w)) (clock_read w)
                  resp data s f R St J RC C Fl) as (r2 & v3 & B2 & _).
      rewrite B in B2. discriminate B2.
  - injection F as -> _.
    destruct (NasdaqLoadTest.success r) eqn:S.
    + destruct (fetch_stock_quote_try_success _ _ _ _ _ B S)
        as (resp & data & s & f & R & St & J & RC & C & Fl & P).
      assert (Pp : parsed_price data = Some (Some f)).
      { apply parsed_price_number. eauto. }
      destruct (test_stock_quote_try_good symbol (wall w (reads w)) (clock_read w)
                  resp data _ R St J RC Pp) as (r1 & v2 & B' & S1 & P1).
      rewrite B' in T. injection T as <- _.
      split; [|split].
      * split; [|reflexivity]. intros _. split; [exact S1|]. rewrite P1. eauto.
      * intros _. congruence.
      * intros _ N. rewrite P1 in N. discriminate N.
    + split; [|split; [discriminate|]].
      * split; [discriminate|]. intros [S' [f P]]. exfalso.
        destruct (NasdaqApiTest.test_stock_quote_try _ _ _) as [[e'|r1] v2] eqn:B'.
        -- destruct (is_Exception e'); [|discriminate T]. injection T as <- _.
           discriminate S'.
        -- injection T as -> _.
           destruct (test_stock_quote_try_success _ _ _ _ _ B' S')
             as (resp & data & R & St & J & RC & Pp).
           rewrite P in Pp. apply parsed_price_number in Pp as (s & C & Fl).
           destruct (fetch_stock_quote_try_good symbol (wall w (reads w)) (clock_read w)
                       resp data s f R St J RC C Fl) as (r2 & v3 & B2 & S2 & _).
           rewrite B in B2. injection B2 as <- _. congruence.
      * intros S' N. exfalso.
        destruct (NasdaqApiTest.test_stock_quote_try _ _ _) as [[e'|r1] v2] eqn:B'.
        -- destruct (is_Exception e'); [|discriminate T]. injection T as <- _.
           discriminate S'.
        -- injection T as -> _.
           destruct (test_stock_quote_try_success _ _ _ _ _ B' S')
             as (resp & data & R & St & J & RC & Pp).
           rewrite N in Pp. apply parsed_price_none in Pp.
           destruct float_of_str_empty as [e0 E0].
           destruct (fetch_stock_quote_try_rejected symbol (wall w (reads w))
                       (clock_read w) resp data "" e0 R St J RC Pp E0) as (v3 & B2).
           rewrite B in B2. discriminate B2.
Qed.

Lemma quote_probes_agree_witness :
  exists r w1 r' w2,
    NasdaqLoadTest.fetch_stock_quote_sync "AAPL"
      (replies (quote_body [("lastSalePrice", JStr "")])) = (inr r, w1) /\
    NasdaqApiTest.test_stock_quote "AAPL"
      (replies (quote_body [("lastSalePrice", JStr "")])) = (inr r', w2) /\
    NasdaqApiTest.success r' = true /\
    NasdaqLoadTest.success r = false /\
    NasdaqLoadTest.error r = Some "could not convert string to float: ''".
Proof.
  eexists _, _, _, _.
  split; [vm_compute; reflexivity|]. split; [vm_compute; reflexivity|].
  split; [reflexivity|].
  eapply (quote_probes_agree "AAPL" (replies (quote_body [("lastSalePrice", JStr "")])));
    [vm_compute; reflexivity | vm_compute; reflexivity | reflexivity | reflexivity].
Defined.

End NasdaqProbeFacts.

(** ** nasdaq_load_test.py: runs without symbols, and the best configuration *)

Module LoadAnalysisFacts.
Import Py PyFacts Net JsonReading NetFacts NasdaqLoadTest NasdaqLoadFacts.
Import NasdaqLoadAnalysis.

Lemma Qltb_lt a b : Qltb a b = true <-> (a < b)%Q.
Proof.
  unfold Qltb. destruct (Qle_bool b a) eqn:E; cbn.
  - apply Qle_bool_iff in E. split; [discriminate | lra].
  - split; [|reflexivity]. intros _.
    destruct (Qlt_le_dec a b) as [H|H]; [exact H|].
    apply Qle_bool_iff in H. congruence.
Qed.

Lemma Qltb_ge a b : Qltb a b = false <-> (b <= a)%Q.
Proof.
  unfold Qltb. destruct (Qle_bool b a) eqn:E; cbn.
  - apply Qle_bool_iff in E. tauto.
  - split; [discriminate|]. intros H. apply Qle_bool_iff in H. congruence.
Qed.

(** A summary that the loop can choose: more than 90 percent of success. *)
Definition reliable (result : Summary) : Prop := (90 < success_rate result)%Q.

Lemma best_config_loop_spec results : forall best_rps best_config,
  let best := best_config_loop results best_rps best_config in
  (forall name result, In (name, result) results -> reliable result ->
                       (requests_per_second result <= fst best)%Q) /\
  ((best = (best_rps, best_config)) \/
   (exists before name result after,
      results = before ++ (name, result) :: after /\
      best = (requests_per_second result, Some name) /\
      reliable result /\ (best_rps < requests_per_second result)%Q /\
      forall name0 result0, In (name0, result0) before -> reliable result0 ->
                            (requests_per_second result0 < requests_per_second result)%Q)) /\
  (best_rps <= fst best)%Q.
Proof.
  induction results as [|[config_name result] rest IH]; intros best_rps best_config;
    cbv zeta.
  - cbn [best_config_loop fst]. split; [intros ? ? []|]. split; [left; reflexivity|].
    lra.
  - cbn [best_config_loop].
    destruct (Qltb best_rps (requests_per_second result)) eqn:A;
      [destruct (Qltb 90 (success_rate result)) eqn:B|]; cbn [andb].
    + (* a new best *)
      apply Qltb_lt in A. apply Qltb_lt in B.
      destruct (IH (requests_per_second result) (Some config_name)) as (U & C & L).
      split; [|split].
      * intros name0 result0 [[= -> ->]|Hin] R; [exact L | exact (U _ _ Hin R)].
      * right. destruct C as [C | (before & name & result1 & after & E & C & R & Lt & Bf)].
        -- exists [], config_name, result, rest. split; [reflexivity|].
           split; [exact C|]. split; [exact B|]. split; [exact A|]. intros ? ? [].
        -- exists ((config_name, result) :: before), name, result1, after.
           split; [rewrite E; reflexivity|]. split; [exact C|]. split; [exact R|].
           split; [lra|].
           intros name0 result0 [[= -> ->]|Hin] R0; [exact Lt | exact (Bf _ _ Hin R0)].
      * lra.
    + (* fast, but not reliable *)
      apply Qltb_ge in B.
      destruct (IH best_rps best_config) as (U & C & L).
      split; [|split; [|exact L]].
      * intros name0 result0 [[= -> ->]|Hin] R; [unfold reliable in R; lra
                                                  | exact (U _ _ Hin R)].
      * destruct C as [C | (before & name & result1 & after & E & C & R & Lt & Bf)];
          [left; exact C|].
        right. exists ((config_name, result) :: before), name, result1, after.
        split; [rewrite E; reflexivity|]. split; [exact C|]. split; [exact R|].
        split; [exact Lt|].
        intros name0 result0 [[= -> ->]|Hin] R0; [unfold reliable in R0; lra
                                                  | exact (Bf _ _ Hin R0)].
    + (* not faster *)
      apply Qltb_ge in A.
      destruct (IH best_rps best_config) as (U & C & L).
      split; [|split; [|exact L]].
      * intros name0 result0 [[= -> ->]|Hin] R; [lra | exact (U _ _ Hin R)].
      * destruct C as [C | (before & name & result1 & after & E & C & R & Lt & Bf)];
          [left; exact C|].
        right. exists ((config_name, result) :: before), name, result1, after.
        split; [rewrite E; reflexivity|]. split; [exact C|]. split; [exact R|].
        split; [exact Lt|].
        intros name0 result0 [[= -> ->]|Hin] R0; [lra | exact (Bf _ _ Hin R0)].
Qed.

(** X13: the loop of [run_load_tests] that looks for the best
    configuration ends with [best_rps] at least the rate of every summary
    with more than 90 percent of success.  Either it names no
    configuration, [best_rps] is still 0 and no such summary has a positive
    rate; or it names the first summary, in insertion order, among those
    with more than 90 percent of success whose rate is the highest, that
    rate being positive and [best_rps]. *)
Theorem best_configuration_is_fastest_reliable (results : list (string * Summary)) :
  (forall name result, In (name, result) results -> reliable result ->
     (requests_per_second result <= fst (best_configuration results))%Q) /\
  (best_configuration results = (0%Q, None) \/
   exists before name result after,
     results = before ++ (name, result) :: after /\
     best_configuration results = (requests_per_second result, Some name) /\
     reliable result /\ (0 < requests_per_second result)%Q /\
     forall name0 result0, In (name0, result0) before -> reliable result0 ->
       (requests_per_second result0 < requests_per_second result)%Q).
Proof.
  unfold best_configuration.
  destruct (best_config_loop_spec results 0%Q None) as (U & C & _).
  split; [exact U | exact C].
Qed.

Lemma as_completed_nothing completion : forall w,
  as_completed [] completion w = (inr [], w).
Proof. induction completion as [|i rest IH]; intros w; [reflexivity | apply IH]. Qed.

(** X14: without symbols, [run_concurrent_test] returns no summary: with
    a positive number of workers it raises [ZeroDivisionError] at
    [len(successful) / len(results)], and otherwise the [ValueError] of
    the thread pool; [run_async_test] returns a summary in which every
    count and rate is 0.  Neither issues a request nor sleeps. *)
Theorem load_tests_without_symbols (max_workers : Z) (completion : list nat)
        (concurrent_limit : positive) (w : World) :
  (exists e w',
     run_concurrent_test [] max_workers completion w = (inl e, w') /\
     exn_cls e = (if max_workers <=? 0 then ValueError else ZeroDivisionError) /\
     sent w' = sent w /\ slept w' = slept w) /\
  (exists summary w',
     run_async_test [] concurrent_limit w = (inr summary, w') /\
     total_requests summary = 0 /\ successful_requests summary = 0 /\
     failed_requests summary = 0 /\ success_rate summary = 0%Q /\
     (requests_per_second summary == 0)%Q /\ avg_response_time summary = 0%Q /\
     p95_response_time summary = 0%Q /\ max_response_time summary = 0%Q /\
     results summary = [] /\
     sent w' = sent w /\ slept w' = slept w).
Proof.
  split.
  - unfold run_concurrent_test. unfold bind at 1, time_time at 1.
    destruct (max_workers <=? 0).
    + unfold bind at 1, raise. eexists _, _. split; [reflexivity|]. cbn. auto.
    + unfold bind at 1, ret at 1. unfold bind at 1. rewrite as_completed_nothing.
      unfold bind at 1, time_time at 1. cbn [filter length len].
      unfold bind at 1, lift at 1. cbn.
      eexists _, _. split; [reflexivity|]. cbn. auto.
  - unfold run_async_test. unfold bind at 1, time_time at 1.
    unfold bind at 1. cbn [gather]. unfold ret at 1.
    unfold bind at 1, time_time at 1. unfold ret. cbn [only_dicts filter].
    eexists _, _. split; [reflexivity|].
    cbn [total_requests successful_requests failed_requests success_rate
           requests_per_second avg_response_time p95_response_time
           max_response_time results sent slept len length].
    repeat (split; [reflexivity|]). split; [|repeat (split; [reflexivity|]); reflexivity].
    destruct (Qltb 0 _); [|reflexivity]. unfold Qdiv. apply Qmult_0_l.
Qed.

End LoadAnalysisFacts.

(** ** Pauses *)

Module SleepFacts.
Import Py Net.

(** A computation that never sleeps. *)
Definition awake {A} (m : M World A) : Prop :=
  forall w, slept (snd (m w)) = slept w.

Lemma awake_ret {A} (a : A) : awake (ret a).
Proof. intros w. reflexivity. Qed.

Lemma awake_lift {A} (r : exn + A) : awake (lift r).
Proof. intros w. reflexivity. Qed.

Lemma awake_time_time : awake time_time.
Proof. intros w. reflexivity. Qed.

Lemma awake_http_get url : awake (http_get url).
Proof. intros w. unfold http_get. destruct (http w _); reflexivity. Qed.

Lemma awake_bind {A B} (m : M World A) (k : A -> M World B) :
  awake m -> (forall a, awake (k a)) -> awake (bind m k).
Proof.
  intros Hm Hk w. unfold bind. specialize (Hm w).
  destruct (m w) as [[e|a] w1]; cbn [snd] in *; [exact Hm|].
  rewrite Hk. exact Hm.
Qed.

Lemma awake_try_except {A} (body : M World A) catches handler :
  awake body -> (forall e, awake (handler e)) -> awake (try_except body catches handler).
Proof.
  intros Hb Hh w. unfold try_except. specialize (Hb w).
  destruct (body w) as [[e|a] w1]; cbn [snd] in *; [|exact Hb].
  destruct (catches e); cbn [snd]; [|exact Hb]. rewrite Hh. exact Hb.
Qed.

(** Closes goals [awake m] for the straight-line bodies of the scripts. *)
Ltac awake_steps :=
  repeat first
    [ apply awake_ret
    | apply awake_time_time
    | apply awake_http_get
    | apply awake_lift
    | apply awake_try_except; [| intros ?]
    | apply awake_bind; [| intros ?]
    | match goal with
      | |- awake (if ?b then _ else _) => destruct b
      | |- awake (match ?x with _ => _ end) => destruct x
      end ].

Lemma replicate_shift {A} (x : A) n l :
  replicate n x ++ x :: l = replicate (S n) x ++ l.
Proof. induction n as [|n IH]; [reflexivity|]. cbn. f_equal. exact IH. Qed.

End SleepFacts.

(** ** alpha_vantage_integration_test.py: the schedule of a run *)

Module AlphaVantageScheduleFacts.
Import Py PyFacts Net JsonReading NetFacts SleepFacts.
Import AlphaVantageIntegrationTest AlphaVantageFacts AlphaVantageRunFacts.

Lemma awake_test_global_quote t symbol : awake (test_global_quote t symbol).
Proof. unfold test_global_quote, test_global_quote_try, response_json. awake_steps. Qed.

Lemma awake_test_dividends t symbol : awake (test_dividends t symbol).
Proof. unfold test_dividends, test_dividends_try, response_json. awake_steps. Qed.


(** The tester of a run, as [__init__] made it, with [c] requests
    counted. *)
Definition counting (key : string) (c : Z) : Tester :=
  mkTester key "https://www.alphavantage.co/query" c 25 12.

(** The quote loop, when it ends without an exception: one request a
    symbol until the count reaches 25, and a pause of 12 seconds before
    each request except the first of a fresh tester. *)
Lemma quote_loop_schedule key symbols : forall acc st c acc' st',
  tester st = counting key c -> 0 <= c < 25 ->
  quote_loop symbols acc st = (inr acc', st') ->
  let m := Z.min (Z.of_nat (length symbols)) (25 - c) in
  tester st' = counting key (c + m) /\
  length (sent (world st')) = (length (sent (world st)) + Z.to_nat m)%nat /\
  slept (world st')
  = replicate (Z.to_nat (if c =? 0 then m - 1 else m)) 12%Q ++ slept (world st).
Proof.
  induction symbols as [|symbol rest IH]; intros acc st c acc' st' Ht Hc H; cbv zeta.
  - injection H as _ <-. cbn [length]. replace (Z.min (Z.of_nat 0) (25 - c)) with 0 by lia.
    rewrite Z.add_0_r. split; [exact Ht|]. split; [cbn; lia|].
    destruct (c =? 0); reflexivity.
  - cbn [quote_loop] in H. unfold bind at 1, the_tester at 1 in H.
    unfold bind at 1 in H.
    set (st1 := if 0 <? request_count (tester st)
                then snd (in_world (sleep (inject_Z (rate_limit_delay (tester st)))) st)
                else st) in *.
    assert (E1 : (if 0 <? request_count (tester st)
                  then in_world (sleep (inject_Z (rate_limit_delay (tester st))))
                  else ret tt) st = (inr tt, st1)).
    { unfold st1. destruct (0 <? request_count (tester st)); reflexivity. }
    rewrite E1 in H.
    assert (T1 : tester st1 = tester st /\ sent (world st1) = sent (world st) /\
                 slept (world st1)
                 = (if c =? 0 then [] else [12%Q]) ++ slept (world st)).
    { unfold st1. rewrite Ht. cbn [request_count counting rate_limit_delay].
      destruct (0 <? c) eqn:C0.
      - apply Z.ltb_lt in C0. destruct (c =? 0) eqn:C1; [apply Z.eqb_eq in C1; lia|].
        cbn. auto.
      - apply Z.ltb_ge in C0. destruct (c =? 0) eqn:C1; [|apply Z.eqb_neq in C1; lia].
        cbn. auto. }
    destruct T1 as (T1 & S1 & Z1).
    unfold bind at 1, in_world at 1 in H.
    pose proof (test_global_quote_sent (tester st) symbol (world st1)) as Hs.
    pose proof (awake_test_global_quote (tester st) symbol (world st1)) as Hz.
    destruct (test_global_quote (tester st) symbol (world st1)) as [res w2].
    cbn [snd] in Hs, Hz.
    destruct res as [e|result]; [discriminate H|].
    unfold bind at 1 in H.
    match type of H with
    | context [(if success result then ?a else ?b) ?s] =>
        assert (E2 : exists cnt, (if success result then a else b) s = (inr cnt, s))
    end.
    { destruct (success result).
      - unfold bind, lift, ret in H |- *.
        destruct (format_2f (price result)) as [e|[]]; [discriminate H|]. eauto.
      - unfold ret. eauto. }
    destruct E2 as (cnt & E2). rewrite E2 in H. clear E2.
    unfold bind at 1, count_request at 1 in H.
    cbn [tester world count_log request_count max_requests] in H.
    unfold bind at 1, the_tester at 1 in H.
    cbn [tester world count_log request_count max_requests] in H.
    rewrite T1, Ht in H.
    cbn [counting request_count max_requests api_key base_url rate_limit_delay] in H.
    fold (counting key (c + 1)) in H.
    destruct (25 <=? c + 1) eqn:Lim.
    + apply Z.leb_le in Lim. injection H as _ <-.
      cbn [tester world]. cbn [length].
      replace (Z.min (Z.of_nat (S (length rest))) (25 - c)) with 1 by lia.
      split; [reflexivity|]. split; [rewrite Hs, S1; cbn; lia|].
      rewrite Hz, Z1. destruct (c =? 0) eqn:C1; [apply Z.eqb_eq in C1; lia|].
      reflexivity.
    + apply Z.leb_gt in Lim.
      match type of H with
      | quote_loop rest ?a ?s = _ =>
          destruct (IH a s (c + 1) acc' st' eq_refl ltac:(lia) H) as (Ht' & Hs' & Hz')
      end.
      cbn [world] in Hs', Hz'.
      cbn [length].
      set (m' := Z.min (Z.of_nat (length rest)) (25 - (c + 1))) in *.
      replace (Z.min (Z.of_nat (S (length rest))) (25 - c)) with (1 + m') by lia.
      split; [rewrite Ht'; f_equal; lia|].
      split; [rewrite Hs', Hs, S1; cbn [length]; lia|].
      rewrite Hz', Hz, Z1.
      destruct (c + 1 =? 0) eqn:C2; [apply Z.eqb_eq in C2; lia|].
      destruct (c =? 0) eqn:C1.
      * cbn [app]. f_equal. f_equal. lia.
      * cbn [app]. rewrite replicate_shift. f_equal.
        replace (Z.to_nat (1 + m')) with (S (Z.to_nat m')) by lia. reflexivity.
Qed.

(** The dividend loop, when it ends without an exception: one request a
    symbol while the count is below 25, each after a pause of 12 seconds. *)
Lemma dividend_loop_schedule key symbols : forall acc st c acc' st',
  tester st = counting key c -> 0 <= c <= 25 ->
  dividend_loop symbols acc st = (inr acc', st') ->
  let m := Z.min (Z.of_nat (length symbols)) (25 - c) in
  tester st' = counting key (c + m) /\
  length (sent (world st')) = (length (sent (world st)) + Z.to_nat m)%nat /\
  slept (world st') = replicate (Z.to_nat m) 12%Q ++ slept (world st).
Proof.
  induction symbols as [|symbol rest IH]; intros acc st c acc' st' Ht Hc H; cbv zeta.
  - injection H as _ <-. cbn [length]. replace (Z.min (Z.of_nat 0) (25 - c)) with 0 by lia.
    rewrite Z.add_0_r. split; [exact Ht|]. split; [cbn; lia | reflexivity].
  - cbn [dividend_loop] in H. unfold bind at 1, the_tester at 1 in H.
    rewrite Ht in H. cbn [counting request_count max_requests rate_limit_delay] in H.
    destruct (25 <=? c) eqn:Lim.
    { apply Z.leb_le in Lim. injection H as _ <-.
      replace (Z.min (Z.of_nat (length (symbol :: rest))) (25 - c)) with 0 by lia.
      rewrite Z.add_0_r. split; [exact Ht|]. split; [cbn; lia | reflexivity]. }
    apply Z.leb_gt in Lim.
    unfold bind at 1 in H. rewrite in_world_sleep_state in H.
    unfold bind at 1, in_world at 1 in H. cbn [tester world count_log] in H.
    match type of H with
    | context [test_dividends ?t symbol ?w1] =>
        pose proof (test_dividends_sent t symbol w1) as Hs;
        pose proof (awake_test_dividends t symbol w1) as Hz;
        destruct (test_dividends t symbol w1) as [res w2]
    end.
    cbn [snd sent slept] in Hs, Hz.
    destruct res as [e|result]; [discriminate H|].
    unfold bind at 1, count_request at 1 in H.
    cbn [tester world count_log request_count max_requests] in H.
    rewrite Ht in H.
    cbn [counting request_count max_requests api_key base_url rate_limit_delay] in H.
    fold (counting key (c + 1)) in H.
    match type of H with
    | dividend_loop rest ?a ?s = _ =>
        destruct (IH a s (c + 1) acc' st' eq_refl ltac:(lia) H) as (Ht' & Hs' & Hz')
    end.
    cbn [world] in Hs', Hz'. cbn [length].
    set (m' := Z.min (Z.of_nat (length rest)) (25 - (c + 1))) in *.
    replace (Z.min (Z.of_nat (S (length rest))) (25 - c)) with (1 + m') by lia.
    split; [rewrite Ht'; f_equal; lia|].
    split; [rewrite Hs', Hs; cbn [length]; lia|].
    rewrite Hz', Hz. rewrite replicate_shift. f_equal.
    replace (Z.to_nat (1 + m')) with (S (Z.to_nat m')) by lia. reflexivity.
Qed.


(** X15: a run of [run_comprehensive_test] on a tester as [__init__] makes
    it that returns its results has asked one quote for each of the first
    25 symbols and then, while fewer than 25 requests are counted, the
    dividends of each of the first three symbols: [requests_used] is that
    number of requests, [remaining] what is left of 25, the limit is
    reported as hit from 22 symbols on, exactly that many requests were
    issued, and the run paused 12 seconds between any two of them, so one
    pause fewer than requests. *)
Theorem completed_run_schedule (key : string) (w : World)
        (test_symbols : list string) (results : Results) (finish : RunState) :
  run_comprehensive_test test_symbols (mkRunState (init key) w [])
  = (inr results, finish) ->
  let n := Z.of_nat (length test_symbols) in
  let quotes := Z.min n 25 in
  let dividends := Z.min (Z.min 3 n) (25 - quotes) in
  requests_used (rate_limiting results) = quotes + dividends /\
  remaining (rate_limiting results) = 25 - (quotes + dividends) /\
  rate_limit_hit (rate_limiting results) = (22 <=? n) /\
  length (sent (world finish))
  = (length (sent w) + Z.to_nat (quotes + dividends))%nat /\
  slept (world finish)
  = replicate (Z.to_nat (quotes + dividends - 1)) 12%Q ++ slept w.
Proof.
  intros H. cbv zeta.
  unfold run_comprehensive_test in H. unfold bind at 1 in H.
  destruct (quote_loop test_symbols _ _) as [[e|acc] st1] eqn:Q; [discriminate H|].
  destruct (quote_loop_schedule key test_symbols _ (mkRunState (init key) w []) 0
              acc st1 eq_refl ltac:(lia) Q) as (T1 & S1 & Z1).
  cbn [world] in S1, Z1. rewrite Z.sub_0_r, Z.add_0_l in *.
  change (0 =? 0) with true in Z1. cbv iota in Z1.
  set (n := Z.of_nat (length test_symbols)) in *.
  set (quotes := Z.min n 25) in *.
  unfold bind at 1, the_tester at 1 in H. unfold bind at 1 in H.
  rewrite T1 in H. cbn [counting request_count max_requests] in H.
  assert (D : exists acc2 st2,
             (if quotes <? 25 then dividend_loop (take 3 test_symbols) acc else ret acc) st1
             = (inr acc2, st2) /\
             tester st2 = counting key (quotes + Z.min (Z.min 3 n) (25 - quotes)) /\
             length (sent (world st2))
             = (length (sent w) + Z.to_nat (quotes + Z.min (Z.min 3 n) (25 - quotes)))%nat /\
             slept (world st2)
             = replicate (Z.to_nat (quotes + Z.min (Z.min 3 n) (25 - quotes) - 1)) 12%Q
                 ++ slept w).
  { destruct (quotes <? 25) eqn:L.
    - apply Z.ltb_lt in L.
      destruct (dividend_loop (take 3 test_symbols) acc st1) as [[e|acc2] st2] eqn:Dl;
        [discriminate H|].
      destruct (dividend_loop_schedule key _ _ _ quotes _ _ T1 ltac:(lia) Dl)
        as (T2 & S2 & Z2).
      rewrite length_take in T2, S2, Z2.
      replace (Z.of_nat (3 `min` length test_symbols)) with (Z.min 3 n) in * by lia.
      exists acc2, st2. split; [reflexivity|]. split; [exact T2|].
      split; [rewrite S2, S1; lia|].
      rewrite Z2, Z1, app_assoc, <- replicate_add. f_equal. f_equal. lia.
    - apply Z.ltb_ge in L. exists acc, st1. split; [reflexivity|].
      replace (Z.min (Z.min 3 n) (25 - quotes)) with 0 by lia.
      rewrite Z.add_0_r. split; [exact T1|]. split; [exact S1 | exact Z1]. }
  destruct D as (acc2 & st2 & D & T2 & S2 & Z2).
  rewrite D in H. unfold bind at 1, the_tester at 1 in H. unfold ret in H.
  injection H as <- <-. rewrite T2.
  cbn [rate_limiting requests_used remaining rate_limit_hit counting request_count
         max_requests].
  split; [reflexivity|]. split; [reflexivity|].
  split; [|split; [exact S2 | exact Z2]].
  destruct (22 <=? n) eqn:B; [apply Z.leb_le in B; apply Z.leb_le; lia
                             | apply Z.leb_gt in B; apply Z.leb_gt; lia].
Qed.

Lemma completed_run_schedule_witness :
  exists results finish,
    run_comprehensive_test ["AAPL"; "MSFT"]
      (mkRunState (init "KEY") (replies GlobalQuoteFacts.quote_with_number) [])
    = (inr results, finish) /\
    requests_used (rate_limiting results) = 4 /\
    length (sent (world finish)) = 4%nat /\
    slept (world finish) = [12%Q; 12%Q; 12%Q].
Proof.
  destruct (run_comprehensive_test ["AAPL"; "MSFT"]
              (mkRunState (init "KEY") (replies GlobalQuoteFacts.quote_with_number) []))
    as [[e|results] finish] eqn:E; [vm_compute in E; discriminate E|].
  exists results, finish. split; [reflexivity|].
  destruct (completed_run_schedule _ _ _ _ _ E) as (A & _ & _ & C & D).
  split; [exact A|]. split; [exact C | exact D].
Defined.

(** X16: when the reply to the first quote request is a non-empty
    ["Global Quote"] whose ["05. price"] is missing or falsy,
    [test_global_quote] reports a success with price [None], and the run
    ends with the [TypeError] of formatting [None] with [:.2f]: no results
    are returned, the one request issued is not counted, and nothing more
    is requested. *)
Theorem priceless_quote_aborts_run (key symbol : string) (rest : list string)
        (w : World) (resp : response) (data gq : json) :
  reply w = Responded resp -> status resp = 200 -> json_body resp = inr data ->
  member "Global Quote" data = Some gq -> truthy gq = true ->
  quote_price gq = Some None ->
  exists finish,
    run_comprehensive_test (symbol :: rest) (mkRunState (init key) w [])
    = (inl (Exn TypeError "unsupported format string passed to NoneType.__format__"),
       finish) /\
    request_count (tester finish) = 0 /\
    sent (world finish) = quote_url (init key) "GLOBAL_QUOTE" symbol :: sent w /\
    slept (world finish) = slept w.
Proof.
  intros R St J G T P.
  destruct (test_global_quote_try_good (quote_url (init key) "GLOBAL_QUOTE" symbol)
              symbol w resp data gq None R St J G T P) as (r & w' & E & S & Pr).
  pose proof (test_global_quote_sent (init key) symbol w) as Hs.
  pose proof (awake_test_global_quote (init key) symbol w) as Hz.
  assert (E' : test_global_quote (init key) symbol w = (inr r, w')).
  { rewrite test_global_quote_unfold, E. reflexivity. }
  rewrite E' in Hs, Hz. cbn [snd] in Hs, Hz.
  eexists. split.
  - unfold run_comprehensive_test. unfold bind at 1. cbn [quote_loop].
    unfold bind at 1, the_tester at 1. cbn [tester init request_count].
    unfold bind at 1. change (0 <? 0) with false. cbv iota. unfold ret at 1.
    unfold bind at 1, in_world at 1. cbn [world]. fold (init key). rewrite E'.
    unfold bind at 1. rewrite S. unfold bind at 1, lift at 1. rewrite Pr.
    cbn [format_2f]. reflexivity.
  - cbn [tester world request_count]. split; [reflexivity|].
    split; [exact Hs | exact Hz].
Qed.

Lemma priceless_quote_aborts_run_witness :
  exists finish,
    run_comprehensive_test ["AAPL"; "MSFT"]
      (mkRunState (init "KEY")
         (replies (JObj [("Global Quote", JObj [("01. symbol", JStr "AAPL")])])) [])
    = (inl (Exn TypeError "unsupported format string passed to NoneType.__format__"),
       finish) /\
    request_count (tester finish) = 0 /\
    length (sent (world finish)) = 1%nat.
Proof.
  edestruct (priceless_quote_aborts_run "KEY" "AAPL" ["MSFT"]
               (replies (JObj [("Global Quote", JObj [("01. symbol", JStr "AAPL")])])))
    as (finish & A & B & C & _);
    [vm_compute; reflexivity | reflexivity | reflexivity | vm_compute; reflexivity
    | reflexivity | vm_compute; reflexivity |].
  exists finish. split; [exact A|]. split; [exact B|]. rewrite C. reflexivity.
Defined.

End AlphaVantageScheduleFacts.

(** ** alpha_vantage_performance_test.py: the rate limiting test *)

Module RateLimitingFacts.
Import Py PyFacts Net JsonReading NetFacts SleepFacts.
Import AlphaVantagePerformanceTest AlphaVantagePerformanceFacts.
Import AlphaVantageRateLimiting.

Lemma awake_single_request_try url symbol function start :
  awake (single_request_try url symbol function start).
Proof. unfold single_request_try, response_json. awake_steps. Qed.

Lemma awake_single_request_test api_key symbol function :
  awake (single_request_test api_key symbol function).
Proof.
  intros w. rewrite single_request_test_unfold.
  pose proof (awake_single_request_try (request_url api_key symbol function) symbol
                function (wall w (reads w)) (clock_read w)) as H.
  unfold clock_read in H.
  destruct (single_request_try _ _ _ _ _) as [[e|r] w1]; cbn [snd slept] in *;
    [|exact H].
  destruct (is_Exception e); exact H.
Qed.

(** On an ordinary reply [single_request_test] returns a dict, after
    exactly one request and without sleeping. *)
Lemma single_request_test_returns api_key symbol function w :
  ordinary (reply w) ->
  exists r w',
    single_request_test api_key symbol function w = (inr r, w') /\
    sent w' = request_url api_key symbol function :: sent w /\ later w w' /\
    slept w' = slept w.
Proof.
  intros Ho. pose proof (awake_single_request_test api_key symbol function w) as Hz.
  rewrite single_request_test_unfold in Hz |- *. fold (clock_read w) in Hz |- *.
  destruct (single_request_try _ _ _ _ (clock_read w)) as [res w1] eqn:B.
  assert (H : sent w1 = request_url api_key symbol function :: sent (clock_read w) /\
              later (clock_read w) w1 /\
              (forall e, res = inl e -> is_Exception e = true)).
  { unfold single_request_try in B. eapply one_request; [| exact Ho | exact B].
    intros resp Hresp. quiet_steps. }
  destruct H as (S1 & L1 & X1).
  pose proof (later_trans _ _ _ (later_clock_read w) L1) as L.
  destruct res as [e|r].
  - rewrite (X1 e eq_refl) in Hz |- *. cbn [snd] in Hz.
    eexists _, _. split; [reflexivity|]. auto.
  - cbn [snd] in Hz. eexists _, _. split; [reflexivity|]. auto.
Qed.

(** The numbers [i + 1], ..., [i + n]. *)
Definition numbers (i : Z) (n : nat) : list Z :=
  map (fun k => i + Z.of_nat k) (seq 1 n).

Lemma numbers_succ i n : numbers i (S n) = (i + 1) :: numbers (i + 1) n.
Proof.
  unfold numbers. cbn [seq map]. f_equal.
  rewrite <- seq_shift, map_map. apply map_ext. intros k. lia.
Qed.

Lemma rapid_requests_spec api_key start n : forall i w,
  NasdaqLoadFacts.all_ordinary w ->
  exists rs w',
    rapid_requests api_key start n i w = (inr rs, w') /\
    length rs = n /\ map request_number rs = numbers i n /\
    sent w' = replicate n (request_url api_key "AAPL" "GLOBAL_QUOTE") ++ sent w /\
    slept w' = replicate n 2%Q ++ slept w.
Proof.
  induction n as [|n IH]; intros i w Ho.
  - exists [], w. repeat split; reflexivity.
  - cbn [rapid_requests].
    destruct (single_request_test_returns api_key "AAPL" "GLOBAL_QUOTE" w (Ho _))
      as (r & w1 & E & S1 & L1 & Z1).
    unfold bind at 1. rewrite E.
    unfold bind at 1, time_time at 1. unfold bind at 1, sleep at 1.
    set (w3 := mkWorld _ _ _ _ _).
    assert (L3 : later w w3).
    { eapply later_trans; [exact L1|]. unfold later, w3. cbn. auto. }
    destruct (IH (i + 1) w3 (NasdaqLoadFacts.all_ordinary_later _ _ L3 Ho))
      as (rs & w' & E' & Len & Num & S' & Z').
    unfold bind at 1. rewrite E'. unfold ret.
    eexists _, _. split; [reflexivity|].
    cbn [length map request_number]. split; [congruence|].
    split; [rewrite numbers_succ, Num; reflexivity|].
    split.
    + rewrite S'. unfold w3. cbn [sent]. rewrite S1. apply replicate_shift.
    + rewrite Z'. unfold w3. cbn [slept]. rewrite Z1. apply replicate_shift.
Qed.

(** X17: with replies that raise nothing but exceptions deriving from
    [Exception], [rate_limiting_test] for a number of requests other than
    0 returns its report after exactly that many requests (none for a
    negative number), all for the quote of AAPL and numbered from 1, and
    after a pause of 2 seconds behind each of them, the last one included;
    [total_requests] is the argument and the two counts add up to the
    number of requests made.  For 0 requests it raises
    [ZeroDivisionError] without issuing a request. *)
Theorem rate_limiting_test_requests (api_key : string) (max_requests : Z)
        (w : World) :
  NasdaqLoadFacts.all_ordinary w ->
  let n := Z.to_nat max_requests in
  (max_requests <> 0 ->
   exists report w',
     rate_limiting_test api_key max_requests w = (inr report, w') /\
     total_requests report = max_requests /\
     length (results report) = n /\
     map request_number (results report) = numbers 0 n /\
     successful_requests report + failed_requests report = Z.of_nat n /\
     sent w' = replicate n (request_url api_key "AAPL" "GLOBAL_QUOTE") ++ sent w /\
     slept w' = replicate n 2%Q ++ slept w) /\
  (max_requests = 0 ->
   exists w',
     rate_limiting_test api_key max_requests w
     = (inl (Exn ZeroDivisionError "division by zero"), w') /\
     sent w' = sent w /\ slept w' = slept w).
Proof.
  intros Ho. cbv zeta.
  destruct (rapid_requests_spec api_key (wall w (reads w)) (Z.to_nat max_requests) 0
              (clock_read w)
              (NasdaqLoadFacts.all_ordinary_later _ _ (later_clock_read w) Ho))
    as (rs & w1 & E & Len & Num & S1 & Z1).
  split; intros Hn; unfold rate_limiting_test;
    unfold bind at 1, time_time at 1; fold (clock_read w);
    unfold bind at 1; rewrite E; unfold bind at 1, lift at 1, int_div.
  - apply Z.eqb_neq in Hn. rewrite Hn.
    unfold bind at 1, time_time at 1. unfold ret.
    eexists _, _. split; [reflexivity|].
    cbn [total_requests results successful_requests failed_requests sent slept].
    split; [reflexivity|]. split; [exact Len|]. split; [exact Num|].
    split; [rewrite Len; lia|]. split; [exact S1 | exact Z1].
  - rewrite Hn. cbn [Z.eqb]. exists w1. split; [reflexivity|].
    rewrite S1, Z1, Hn. cbn. auto.
Qed.

Lemma rate_limiting_test_requests_witness :
  exists report w',
    rate_limiting_test "KEY" 5 (replies GlobalQuoteFacts.quote_with_number)
    = (inr report, w') /\
    total_requests report = 5 /\
    map request_number (results report) = [1; 2; 3; 4; 5] /\
    slept w' = [2; 2; 2; 2; 2]%Q.
Proof.
  destruct (rate_limiting_test_requests "KEY" 5
              (replies GlobalQuoteFacts.quote_with_number)
              (LoadSummaryFacts.all_ordinary_replies _)) as [H _].
  destruct (H ltac:(discriminate)) as (report & w' & E & T & _ & N & _ & _ & Z).
  exists report, w'. split; [exact E|]. split; [exact T|]. split; [exact N | exact Z].
Defined.

End RateLimitingFacts.

(** ** Some runs of the model *)

Module Runs.
Import Py Net NetFacts.

(** [float("189.8400")] *)
Example float_of_quote_text :
  match float_of_str "189.8400" with
  | inr (Fin q) => (q == 18984 # 100)%Q
  | _ => False
  end.
Proof. vm_compute. reflexivity. Qed.

(** [float(" -1_000.5e-1 ")] *)
Example float_of_padded_text :
  match float_of_str " -1_000.5e-1 " with
  | inr (Fin q) => (q == - (10005 # 100))%Q
  | _ => False
  end.
Proof. vm_compute. reflexivity. Qed.

(** [float("1,234.50")] raises: the comma has to be removed first. *)
Example float_of_text_with_comma :
  float_of_str "1,234.50"
  = inl (Exn ValueError "could not convert string to float: '1,234.50'") /\
  match float_of_str (remove_char "," (remove_char "$" "$1,234.50")) with
  | inr (Fin q) => (q == 123450 # 100)%Q
  | _ => False
  end.
Proof. split; vm_compute; reflexivity. Qed.

(** [round(12.345, 2)], [round(12.355, 2)] and [round(0.005, 2)] on exact
    decimals: ties go to the even neighbour. *)
Example py_round_ties :
  (py_round (12345 # 1000) 2 == 1234 # 100)%Q /\
  (py_round (12355 # 1000) 2 == 1236 # 100)%Q /\
  (py_round (5 # 1000) 2 == 0)%Q.
Proof. repeat split; vm_compute; reflexivity. Qed.

(** A reply with HTTP status 404 makes the Nasdaq quote probe report the
    status and the first characters of the page. *)
Example test_stock_quote_not_found :
  let w := mkWorld (fun _ => Responded (Response 404 "Not Found" (inl (Exn JSONDecodeError ""))))
             (fun k => inject_Z (Z.of_nat k)) [] 0 [] in
  exists r w',
    NasdaqApiTest.test_stock_quote "XXXXXX" w = (inr r, w') /\
    NasdaqApiTest.success r = false /\
    NasdaqApiTest.error_message r = Some "HTTP 404: Not Found" /\
    sent w' = ["https://api.nasdaq.com/api/quote/XXXXXX/info?assetclass=stocks"].
Proof. eexists _, _. repeat apply conj; vm_compute; reflexivity. Qed.

(** Storing a list and asking for it within five minutes is a hit; asking
    after the expiry deletes the entry. *)
Example cache_hit_then_expiry :
  let s0 := IosAppSimulationTest.init (IosDataFacts.constant_rng (1 # 2) 0) 0 in
  let s1 := IosAppSimulationTest.store_in_cache "AAPL" [] "memory" s0 in
  let '(hit, s2) := IosAppSimulationTest.check_cache "AAPL" "memory" s1 in
  let late :=
    IosAppSimulationTest.mkSimulator
      (IosAppSimulationTest.providers s2) (IosAppSimulationTest.provider_stats s2)
      (IosAppSimulationTest.memory_cache s2) (IosAppSimulationTest.disk_cache s2)
      (IosAppSimulationTest.core_data_records s2) (IosAppSimulationTest.rng s2)
      300000000 (IosAppSimulationTest.slept s2) in
  let '(miss, s3) := IosAppSimulationTest.check_cache "AAPL" "memory" late in
  hit = Some [] /\
  IosAppSimulationTest.hit_count <$> (IosAppSimulationTest.memory_cache s2 !! "AAPL")
  = Some 1 /\
  miss = None /\
  IosAppSimulationTest.memory_cache s3 !! "AAPL" = None.
Proof. vm_compute. repeat split. Qed.

End Runs.
